(** * lean-effects performance scripts: regression detection, gate, analysis

    A shallow embedding of
    - [scripts/check-performance-regression.py] (module [Regression]),
    - [scripts/performance-comparison.py]       (modules [Comparison],
                                                 [ComparisonMain]),
    - [scripts/performance-gate.py]             (modules [Gate], [GateMain]),
    - [scripts/performance-analysis.py]         (modules [Analysis],
                                                 [AnalysisMain]),
    followed by the properties of the specification that concern them
    (C1 to C10) and by further properties of the code (X1 to X26).

    Files and libraries.  What a script reads is a parameter of its model:
    a file is missing, unreadable or holds a JSON document.  What it hands
    to the file system and to the plotting libraries is a record of steps
    that go through or fail with a message.

    Numbers.  A Python [int] or [float] is a rational of [Q]: arithmetic is
    exact, so rounding, overflow and the [NaN]/[Infinity] literals that
    [json.load] accepts are outside the model.  [bool] is kept apart and
    coerced to 0/1 where Python does so.  Where a statement says that a
    function returns, it is made for numbers up to [2^53] in magnitude
    (module [Range]), among which Python raises no [OverflowError]; where
    it compares a computed quotient with a threshold, it is made in the
    direction that rounding to the nearest double cannot reverse.  Printed
    lines and recommendations are compared with the texts of module
    [Messages]. *)

From Stdlib Require Import QArith ZArith String List Bool Lia Lqa.
From stdpp Require Import base option gmap strings.

#[local] Set Warnings "-register-all".
#[local] Open Scope string_scope.
#[local] Open Scope list_scope.
#[local] Open Scope Q_scope.

(** ** Python values and exceptions *)

Module Py.

(** What [json.load] can return, and what the scripts pass around. *)
Inductive value : Type :=
| VNone
| VBool (b : bool)
| VNum (q : Q)
| VStr (s : string)
| VList (l : list value)
| VDict (d : gmap string value).

Inductive exn : Type :=
| AttributeError
| TypeError
| ValueError
| ZeroDivisionError
| StatisticsError.

Inductive result (A : Type) : Type :=
| Ok (a : A)
| Raise (e : exn).
Arguments Ok {A} a.
Arguments Raise {A} e.

Definition bind {A B : Type} (m : result A) (k : A -> result B) : result B :=
  match m with
  | Ok a => k a
  | Raise e => Raise e
  end.

Module Notations.
Notation "'let!' x ':=' m 'in' k" := (bind m (fun x => k))
  (at level 10, x name, m at level 100, k at level 200).
End Notations.
Import Notations.

Definition of_nat (n : nat) : Q := inject_Z (Z.of_nat n).

(** Strict comparison on [Q], as a boolean. *)
Definition Qltb (x y : Q) : bool := negb (Qle_bool y x).

(** [bool(v)]: the truth value Python gives [v] in a condition. *)
Definition truthy (v : value) : bool :=
  match v with
  | VNone => false
  | VBool b => b
  | VNum q => negb (Qeq_bool q 0)
  | VStr s => negb (String.eqb s "")
  | VList l => match l with [] => false | _ => true end
  | VDict d => negb (bool_decide (d = ∅))
  end.

(** The number an operand stands for in arithmetic and ordering; [None]
    for the types on which [<], [-], [/] with a number raise [TypeError]. *)
Definition as_num (v : value) : option Q :=
  match v with
  | VNum q => Some q
  | VBool b => Some (if b then 1 else 0)
  | _ => None
  end.

Definition num (v : value) : result Q :=
  match as_num v with
  | Some q => Ok q
  | None => Raise TypeError
  end.

(** [x / y] on numbers: [ZeroDivisionError] on a zero divisor. *)
Definition div (x y : Q) : result Q :=
  if Qeq_bool y 0 then Raise ZeroDivisionError else Ok (x / y).

(** [d.get(k, dflt)] on a dict. *)
Definition dict_get (d : gmap string value) (k : string) (dflt : value) : value :=
  default dflt (d !! k).

(** [v.get(k, dflt)] on an arbitrary value: only a dict has the method. *)
Definition get (v : value) (k : string) (dflt : value) : result value :=
  match v with
  | VDict d => Ok (dict_get d k dflt)
  | _ => Raise AttributeError
  end.

(** [[r for r in l if p(r)]], where evaluating [p] may raise. *)
Fixpoint filterM (p : value -> result bool) (l : list value) : result (list value) :=
  match l with
  | [] => Ok []
  | r :: l' =>
      let! b := p r in
      let! rest := filterM p l' in
      Ok (if b then r :: rest else rest)
  end.

(** [[f(r) for r in l]], where evaluating [f] may raise. *)
Fixpoint mapM {A B : Type} (f : A -> result B) (l : list A) : result (list B) :=
  match l with
  | [] => Ok []
  | r :: l' =>
      let! x := f r in
      let! rest := mapM f l' in
      Ok (x :: rest)
  end.

Definition Qsum (l : list Q) : Q := fold_right Qplus 0 l.

(** [statistics.mean]: [StatisticsError] on no data, [TypeError] on a
    datum that is not a number, otherwise the exact mean. *)
Definition mean (xs : list value) : result Q :=
  match xs with
  | [] => Raise StatisticsError
  | _ =>
      let! nums := mapM num xs in
      Ok (Qsum nums / of_nat (length nums))
  end.

(** [max(v, 1)] *)
Definition max_1 (v : value) : result Q :=
  let! x := num v in
  Ok (if Qltb x 1 then 1 else x).

(** [format(v, ".Nf")] and [format(v, ".N%")] accept numbers only. *)
Definition format_float (v : value) : result Q :=
  match v with
  | VNum q => Ok q
  | VBool b => Ok (if b then 1 else 0)
  | VStr _ => Raise ValueError
  | _ => Raise TypeError
  end.

(** An f-string after evaluation of its fields: literal text and formatted
    fields, each with the conversion the source asks for. *)
Inductive piece : Type :=
| Lit (s : string)
| Fixed (digits : nat) (q : Q)        (* {q:.Nf} *)
| Percent (digits : nat) (q : Q)      (* {q:.N%} *)
| StrFloat (q : Q)                    (* {q}, q a float *)
| StrInt (z : Z)                      (* {z}, z an int *)
| StrBool (b : bool)                  (* {b} *)
| Str (v : value)                     (* {v}, any value *)
| StrExn (e : exn).                   (* {e}, a caught exception *)

Definition fstring : Type := list piece.

(** The text of an f-string, given how Python writes a number under each
    format and how [str] writes a value. *)
Section Render.

Variable fixed : nat -> Q -> string.
Variable percent : nat -> Q -> string.
Variable str_float : Q -> string.
Variable str_int : Z -> string.
Variable str_value : value -> string.
Variable str_exn : exn -> string.

Definition render_piece (p : piece) : string :=
  match p with
  | Lit s => s
  | Fixed digits q => fixed digits q
  | Percent digits q => percent digits q
  | StrFloat q => str_float q
  | StrInt z => str_int z
  | StrBool b => if b then "True" else "False"
  | Str v => str_value v
  | StrExn e => str_exn e
  end.

Definition render (line : fstring) : string :=
  fold_right (fun p text => String.append (render_piece p) text) "" line.

End Render.

(** The newline inside a printed text, and ["=" * n]. *)
Definition nl : string := String (Ascii.ascii_of_nat 10) "".

Fixpoint rule (n : nat) : string :=
  match n with
  | O => ""
  | S n' => String.append "=" (rule n')
  end.

(** A run of a script: the lines printed so far, and how it went on. *)
Definition io (A : Type) : Type := list fstring * result A.

Definition io_ret {A : Type} (a : A) : io A := ([], Ok a).

Definition io_bind {A B : Type} (m : io A) (k : A -> io B) : io B :=
  match m with
  | (out, Ok a) => let (out', r) := k a in (out ++ out', r)
  | (out, Raise e) => (out, Raise e)
  end.

Definition print (line : fstring) : io unit := ([line], Ok tt).

Definition print_all (lines : list fstring) : io unit := (lines, Ok tt).

Definition lift {A : Type} (r : result A) : io A := ([], r).

(** The exit status of the process: the argument of [sys.exit], or 1 when
    an exception reaches the top level. *)
Definition exit_status (r : result Z) : Z :=
  match r with
  | Ok code => code
  | Raise _ => 1%Z
  end.

Module IONotations.
Notation "'run!' x ':=' m 'in' k" := (io_bind m (fun x => k))
  (at level 10, x name, m at level 100, k at level 200).
Notation "'print!' line 'in' k" := (io_bind (print line) (fun _ => k))
  (at level 10, line at level 100, k at level 200).
End IONotations.

(** A file as a script finds it: absent, present but failing in [open] or
    [json.load] with some message, or holding a JSON document. *)
Inductive file : Type :=
| Missing
| Unreadable (msg : string)
| Contents (v : value).

End Py.

(** ** Text the two comparison scripts share

    [check-performance-regression.py] and [performance-comparison.py] repeat
    the same expressions and messages; they are named once here. *)

Module Common.
Import Py Py.Notations.

(** The tuple [extract_metrics] returns: time, memory, failure rate,
    successful count, total count. *)
Definition metrics : Type := value * value * value * value * value.

Definition m_time (m : metrics) : value := let '(t, _, _, _, _) := m in t.
Definition m_memory (m : metrics) : value := let '(_, u, _, _, _) := m in u.
Definition m_failure_rate (m : metrics) : value := let '(_, _, f, _, _) := m in f.
Definition m_successful (m : metrics) : value := let '(_, _, _, s, _) := m in s.
Definition m_total (m : metrics) : value := let '(_, _, _, _, n) := m in n.

(** [r.get("success", False)] as a condition, and its negation. *)
Definition is_success (r : value) : result bool :=
  let! s := get r "success" (VBool false) in Ok (truthy s).

Definition is_failure (r : value) : result bool :=
  let! s := get r "success" (VBool false) in Ok (negb (truthy s)).

(** [r.get("metrics", {}).get(key, 0)] *)
Definition metric_of (key : string) (r : value) : result value :=
  let! m := get r "metrics" (VDict ∅) in get m key (VNum 0).

Definition is_nil {A : Type} (l : list A) : bool :=
  match l with [] => true | _ => false end.

(** The relative change of one metric against its baseline, in percent:
    [((current - baseline) / baseline) * 100] under [if baseline > 0],
    the initial [0.0] otherwise. *)
Definition percent_change (baseline current : value) : result Q :=
  let! b := num baseline in
  if Qltb 0 b then
    let! c := num current in
    let! ratio := div (c - b) b in
    Ok (ratio * 100)
  else Ok 0.

Definition rec_insufficient (current_successful : value) (min_benchmarks : Z) : fstring :=
  [Lit "Insufficient successful benchmarks: "; Str current_successful;
   Lit " < "; StrInt min_benchmarks].

Definition rec_time (change threshold : Q) : fstring :=
  [Lit "Execution time increased by "; Fixed 1 change;
   Lit "% (threshold: "; StrFloat threshold; Lit "%)"].

Definition rec_memory (change threshold : Q) : fstring :=
  [Lit "Memory usage increased by "; Fixed 1 change;
   Lit "% (threshold: "; StrFloat threshold; Lit "%)"].

Definition rec_failure_rate (change threshold : Q) : fstring :=
  [Lit "Failure rate increased by "; Percent 1 change;
   Lit " (threshold: "; StrFloat threshold; Lit "%)"].

Definition rec_none : fstring :=
  [Lit "No significant performance regression detected"].

End Common.

(** ** scripts/check-performance-regression.py *)

Module Regression.
Import Py Py.Notations Py.IONotations Common.

Record RegressionThresholds : Type := {
  execution_time_percent : Q;
  memory_usage_percent : Q;
  failure_rate_increase : Q;
  min_benchmarks : Z
}.

Definition default_thresholds : RegressionThresholds :=
  {| execution_time_percent := 10;
     memory_usage_percent := 15;
     failure_rate_increase := 5;
     min_benchmarks := 5 |}.

Record RegressionResult : Type := {
  has_regression : bool;
  execution_time_regression : bool;
  memory_regression : bool;
  failure_rate_regression : bool;
  execution_time_change : Q;
  memory_change : Q;
  failure_rate_change : Q;
  recommendations : list fstring
}.

Definition extract_metrics (data : value) : result metrics :=
  match data with
  | VList data =>
      let! successful_results := filterM is_success data in
      let! failed_results := filterM is_failure data in
      if is_nil successful_results then
        Ok (VNum 0, VNum 0, VNum 1, VNum 0, VNum (of_nat (length data)))
      else
        let! execution_times := mapM (metric_of "executionTime") successful_results in
        let! memory_usage := mapM (metric_of "memoryUsage") successful_results in
        let! avg_execution_time :=
          if is_nil execution_times then Ok 0 else mean execution_times in
        let! avg_memory_usage :=
          if is_nil memory_usage then Ok 0
          else let! m := mean memory_usage in Ok (m / (1024 * 1024)) in
        let! failure_rate :=
          if is_nil data then Ok 0
          else div (of_nat (length failed_results)) (of_nat (length data)) in
        Ok (VNum avg_execution_time,
            VNum avg_memory_usage,
            VNum failure_rate,
            VNum (of_nat (length successful_results)),
            VNum (of_nat (length data)))
  | VDict data =>
      let! total := max_1 (dict_get data "total_benchmarks" (VNum 1)) in
      let! failed := num (dict_get data "failed_benchmarks" (VNum 0)) in
      let! failure_rate := div failed total in
      Ok (dict_get data "avg_execution_time" (VNum 0),
          dict_get data "memory_usage" (VNum 0),
          VNum failure_rate,
          dict_get data "successful_benchmarks" (VNum 0),
          dict_get data "total_benchmarks" (VNum 0))
  | _ => Ok (VNum 0, VNum 0, VNum 0, VNum 0, VNum 0)
  end.

Definition detect_regression (thresholds : RegressionThresholds)
    (baseline_data current_data : value) : result RegressionResult :=
  let! baseline_metrics := extract_metrics baseline_data in
  let! current_metrics := extract_metrics current_data in
  let '(baseline_time, baseline_memory, baseline_failure_rate,
        baseline_successful, baseline_total) := baseline_metrics in
  let '(current_time, current_memory, current_failure_rate,
        current_successful, current_total) := current_metrics in
  (* Check if we have enough data *)
  let! successful := num current_successful in
  if Qltb successful (inject_Z (min_benchmarks thresholds)) then
    Ok {| has_regression := true;
          execution_time_regression := false;
          memory_regression := false;
          failure_rate_regression := false;
          execution_time_change := 0;
          memory_change := 0;
          failure_rate_change := 0;
          recommendations :=
            [rec_insufficient current_successful (min_benchmarks thresholds)] |}
  else
    (* Calculate changes *)
    let! execution_time_change := percent_change baseline_time current_time in
    let! memory_change := percent_change baseline_memory current_memory in
    let! cur_rate := num current_failure_rate in
    let! base_rate := num baseline_failure_rate in
    let failure_rate_change := cur_rate - base_rate in
    (* Check for regressions *)
    let execution_time_regression :=
      Qltb (execution_time_percent thresholds) execution_time_change in
    let memory_regression :=
      Qltb (memory_usage_percent thresholds) memory_change in
    let failure_rate_regression :=
      Qltb (failure_rate_increase thresholds / 100) failure_rate_change in
    let has_regression :=
      execution_time_regression || memory_regression || failure_rate_regression in
    (* Generate recommendations *)
    let recommendations :=
      (if execution_time_regression
       then [rec_time execution_time_change (execution_time_percent thresholds)]
       else [])
      ++ (if memory_regression
          then [rec_memory memory_change (memory_usage_percent thresholds)]
          else [])
      ++ (if failure_rate_regression
          then [rec_failure_rate failure_rate_change (failure_rate_increase thresholds)]
          else [])
      ++ (if negb has_regression then [rec_none] else []) in
    Ok {| has_regression := has_regression;
          execution_time_regression := execution_time_regression;
          memory_regression := memory_regression;
          failure_rate_regression := failure_rate_regression;
          execution_time_change := execution_time_change;
          memory_change := memory_change;
          failure_rate_change := failure_rate_change;
          recommendations := recommendations |}.

Definition load_baseline (fs : string -> file) (baseline_file : string) : io value :=
  match fs baseline_file with
  | Missing =>
      print! [Lit "Warning: Baseline file "; Lit baseline_file; Lit " not found"] in
      io_ret VNone
  | Unreadable e =>
      print! [Lit "Error loading baseline: "; Lit e] in
      io_ret VNone
  | Contents data => io_ret data
  end.

Definition load_current (fs : string -> file) (current_file : string) : io value :=
  match fs current_file with
  | Missing =>
      print! [Lit "Error: Current performance file "; Lit current_file; Lit " not found"] in
      io_ret VNone
  | Unreadable e =>
      print! [Lit "Error loading current performance: "; Lit e] in
      io_ret VNone
  | Contents data => io_ret data
  end.

Definition print_comparison (baseline_metrics current_metrics : metrics) : io unit :=
  let '(baseline_time, baseline_memory, baseline_failure_rate,
        baseline_successful, baseline_total) := baseline_metrics in
  let '(current_time, current_memory, current_failure_rate,
        current_successful, current_total) := current_metrics in
  print! [Lit "Performance Comparison"] in
  print! [Lit (rule 30)] in
  print! [Lit "Execution Time:"] in
  run! bt := lift (format_float baseline_time) in
  print! [Lit "  Baseline: "; Fixed 2 bt; Lit "ms"] in
  run! ct := lift (format_float current_time) in
  print! [Lit "  Current:  "; Fixed 2 ct; Lit "ms"] in
  run! tc := lift (percent_change baseline_time current_time) in
  print! [Lit "  Change:   "; Fixed 1 tc; Lit "%"] in
  print! [] in
  print! [Lit "Memory Usage:"] in
  run! bm := lift (format_float baseline_memory) in
  print! [Lit "  Baseline: "; Fixed 2 bm; Lit "MB"] in
  run! cm := lift (format_float current_memory) in
  print! [Lit "  Current:  "; Fixed 2 cm; Lit "MB"] in
  run! mc := lift (percent_change baseline_memory current_memory) in
  print! [Lit "  Change:   "; Fixed 1 mc; Lit "%"] in
  print! [] in
  print! [Lit "Failure Rate:"] in
  run! bf := lift (format_float baseline_failure_rate) in
  print! [Lit "  Baseline: "; Percent 1 bf] in
  run! cf := lift (format_float current_failure_rate) in
  print! [Lit "  Current:  "; Percent 1 cf] in
  print! [Lit "  Change:   "; Percent 1 (cf - bf)] in
  print! [] in
  print! [Lit "Benchmark Count:"] in
  print! [Lit "  Baseline: "; Str baseline_successful; Lit "/"; Str baseline_total;
          Lit " successful"] in
  print! [Lit "  Current:  "; Str current_successful; Lit "/"; Str current_total;
          Lit " successful"] in
  io_ret tt.

(** The parsed command line. *)
Record Args : Type := {
  arg_baseline : string;
  arg_current : string;
  arg_threshold : Q;
  arg_memory_threshold : Q;
  arg_failure_threshold : Q;
  arg_min_benchmarks : Z
}.

Definition is_None (v : value) : bool :=
  match v with VNone => true | _ => false end.

(** [main]: the printed lines and the argument of [sys.exit]. *)
Definition main (args : Args) (fs : string -> file) : io Z :=
  let thresholds :=
    {| execution_time_percent := arg_threshold args;
       memory_usage_percent := arg_memory_threshold args;
       failure_rate_increase := arg_failure_threshold args;
       min_benchmarks := arg_min_benchmarks args |} in
  (* Load data *)
  run! baseline_data := load_baseline fs (arg_baseline args) in
  run! current_data := load_current fs (arg_current args) in
  if is_None baseline_data || is_None current_data then
    print! [Lit "Error: Could not load performance data"] in
    io_ret 1%Z
  else
    (* Print comparison *)
    run! baseline_metrics := lift (extract_metrics baseline_data) in
    run! current_metrics := lift (extract_metrics current_data) in
    run! _ := print_comparison baseline_metrics current_metrics in
    (* Detect regression *)
    run! result := lift (detect_regression thresholds baseline_data current_data) in
    print! [Lit nl; Lit "Regression Analysis"] in
    print! [Lit (rule 20)] in
    print! [Lit "Regression detected: "; StrBool (has_regression result)] in
    print! [Lit "Execution time regression: ";
            StrBool (execution_time_regression result)] in
    print! [Lit "Memory regression: "; StrBool (memory_regression result)] in
    print! [Lit "Failure rate regression: ";
            StrBool (failure_rate_regression result)] in
    print! [Lit nl; Lit "Recommendations:"] in
    run! _ := print_all (map (fun rec => Lit "  - " :: rec) (recommendations result)) in
    (* Exit with error code if regression detected *)
    if has_regression result then
      print! [Lit nl; Lit "❌ Performance regression detected. Build will be rejected."] in
      io_ret 1%Z
    else
      print! [Lit nl; Lit "✅ No significant performance regression detected."] in
      io_ret 0%Z.

End Regression.

(** ** scripts/performance-comparison.py *)

Module Comparison.
Import Py Py.Notations Common.

Record ComparisonThresholds : Type := {
  execution_time_percent : Q;
  memory_usage_percent : Q;
  failure_rate_increase : Q;
  min_benchmarks : Z
}.

(** The non-empty [detailed_comparison] dict: its four entries. *)
Record Detailed : Type := {
  d_baseline : metrics;
  d_current : metrics;
  d_changes : Q * Q * Q;
  d_regressions : bool * bool * bool
}.

(** [detailed_comparison] is [None] for the empty dict [{}]. *)
Record ComparisonResult : Type := {
  has_regression : bool;
  execution_time_change : Q;
  memory_change : Q;
  failure_rate_change : Q;
  recommendations : list fstring;
  detailed_comparison : option Detailed
}.

Definition extract_metrics (data : value) : result metrics :=
  match data with
  | VList data =>
      let! successful_results := filterM is_success data in
      let! failed_results := filterM is_failure data in
      if is_nil successful_results then
        Ok (VNum 0, VNum 0, VNum 1, VNum 0, VNum (of_nat (length data)))
      else
        let! execution_times := mapM (metric_of "executionTime") successful_results in
        let! memory_usage := mapM (metric_of "memoryUsage") successful_results in
        let! avg_execution_time :=
          if is_nil execution_times then Ok 0 else mean execution_times in
        let! avg_memory_usage :=
          if is_nil memory_usage then Ok 0
          else let! m := mean memory_usage in Ok (m / (1024 * 1024)) in
        let! failure_rate :=
          if is_nil data then Ok 0
          else div (of_nat (length failed_results)) (of_nat (length data)) in
        Ok (VNum avg_execution_time,
            VNum avg_memory_usage,
            VNum failure_rate,
            VNum (of_nat (length successful_results)),
            VNum (of_nat (length data)))
  | VDict data =>
      let! total := max_1 (dict_get data "total_benchmarks" (VNum 1)) in
      let! failed := num (dict_get data "failed_benchmarks" (VNum 0)) in
      let! failure_rate := div failed total in
      Ok (dict_get data "avg_execution_time" (VNum 0),
          dict_get data "memory_usage" (VNum 0),
          VNum failure_rate,
          dict_get data "successful_benchmarks" (VNum 0),
          dict_get data "total_benchmarks" (VNum 0))
  | _ => Ok (VNum 0, VNum 0, VNum 0, VNum 0, VNum 0)
  end.

Definition compare_performance (thresholds : ComparisonThresholds)
    (baseline_data current_data : value) : result ComparisonResult :=
  let! baseline_metrics := extract_metrics baseline_data in
  let! current_metrics := extract_metrics current_data in
  let '(baseline_time, baseline_memory, baseline_failure_rate,
        baseline_successful, baseline_total) := baseline_metrics in
  let '(current_time, current_memory, current_failure_rate,
        current_successful, current_total) := current_metrics in
  (* Check if we have enough data *)
  let! successful := num current_successful in
  if Qltb successful (inject_Z (min_benchmarks thresholds)) then
    Ok {| has_regression := true;
          execution_time_change := 0;
          memory_change := 0;
          failure_rate_change := 0;
          recommendations :=
            [rec_insufficient current_successful (min_benchmarks thresholds)];
          detailed_comparison := None |}
  else
    (* Calculate changes *)
    let! execution_time_change := percent_change baseline_time current_time in
    let! memory_change := percent_change baseline_memory current_memory in
    let! cur_rate := num current_failure_rate in
    let! base_rate := num baseline_failure_rate in
    let failure_rate_change := cur_rate - base_rate in
    (* Check for regressions *)
    let execution_time_regression :=
      Qltb (execution_time_percent thresholds) execution_time_change in
    let memory_regression :=
      Qltb (memory_usage_percent thresholds) memory_change in
    let failure_rate_regression :=
      Qltb (failure_rate_increase thresholds / 100) failure_rate_change in
    let has_regression :=
      execution_time_regression || memory_regression || failure_rate_regression in
    (* Generate recommendations *)
    let recommendations :=
      (if execution_time_regression
       then [rec_time execution_time_change (execution_time_percent thresholds)]
       else [])
      ++ (if memory_regression
          then [rec_memory memory_change (memory_usage_percent thresholds)]
          else [])
      ++ (if failure_rate_regression
          then [rec_failure_rate failure_rate_change (failure_rate_increase thresholds)]
          else [])
      ++ (if negb has_regression then [rec_none] else []) in
    (* Create detailed comparison *)
    let detailed :=
      {| d_baseline := baseline_metrics;
         d_current := current_metrics;
         d_changes := (execution_time_change, memory_change, failure_rate_change);
         d_regressions :=
           (execution_time_regression, memory_regression, failure_rate_regression) |} in
    Ok {| has_regression := has_regression;
          execution_time_change := execution_time_change;
          memory_change := memory_change;
          failure_rate_change := failure_rate_change;
          recommendations := recommendations;
          detailed_comparison := Some detailed |}.

End Comparison.

(** ** scripts/performance-gate.py *)

Module Gate.
Import Py Py.Notations Py.IONotations.

Record PerformanceGate : Type := {
  max_execution_time_ms : Q;
  max_memory_usage_mb : Q;
  max_failure_rate : Q;
  regression_threshold_percent : Q
}.

Definition default_gate : PerformanceGate :=
  {| max_execution_time_ms := 1000;
     max_memory_usage_mb := 100;
     max_failure_rate := 0;
     regression_threshold_percent := 10 |}.

Definition fail_time : fstring :=
  [Lit "  ❌ FAIL: Execution time exceeds threshold"].

Definition fail_memory : fstring :=
  [Lit "  ❌ FAIL: Memory usage exceeds threshold"].

Definition fail_failure_rate (failure_rate max_rate : Q) : fstring :=
  [Lit "  ❌ FAIL: Failure rate "; Percent 1 failure_rate;
   Lit " exceeds threshold "; Percent 1 max_rate].

Definition fail_regression : fstring :=
  [Lit "  ❌ FAIL: Performance regression detected"].

Definition pass_all : fstring :=
  [Lit "  ✅ PASS: All performance gates passed"].

(** [check_gate]: the printed lines and the returned boolean. *)
Definition check_gate (gate : PerformanceGate) (summary : value) : io bool :=
  print! [Lit "Checking performance gate..."] in
  run! t := lift (let! v := get summary "avg_execution_time" (VNum 0) in format_float v) in
  print! [Lit "  Execution time: "; Fixed 2 t; Lit "ms (max: ";
          StrFloat (max_execution_time_ms gate); Lit "ms)"] in
  run! m := lift (let! v := get summary "memory_usage" (VNum 0) in format_float v) in
  print! [Lit "  Memory usage: "; Fixed 2 m; Lit "MB (max: ";
          StrFloat (max_memory_usage_mb gate); Lit "MB)"] in
  run! f := lift (get summary "failed_benchmarks" (VNum 0)) in
  run! n := lift (get summary "total_benchmarks" (VNum 0)) in
  print! [Lit "  Failed benchmarks: "; Str f; Lit "/"; Str n] in
  run! r := lift (get summary "regression_detected" (VBool false)) in
  print! [Lit "  Regression detected: "; Str r] in
  (* Check execution time *)
  run! time := lift (let! v := get summary "avg_execution_time" (VNum 0) in num v) in
  if Qltb (max_execution_time_ms gate) time then
    print! fail_time in io_ret false
  else
  (* Check memory usage *)
  run! memory := lift (let! v := get summary "memory_usage" (VNum 0) in num v) in
  if Qltb (max_memory_usage_mb gate) memory then
    print! fail_memory in io_ret false
  else
  (* Check for regression: the part after the failure-rate check *)
  let check_regression : io bool :=
    run! regression := lift (get summary "regression_detected" (VBool false)) in
    if truthy regression then
      print! fail_regression in io_ret false
    else
      print! pass_all in io_ret true in
  (* Check failure rate *)
  run! total_benchmarks := lift (get summary "total_benchmarks" (VNum 0)) in
  run! failed_benchmarks := lift (get summary "failed_benchmarks" (VNum 0)) in
  run! total := lift (num total_benchmarks) in
  if Qltb 0 total then
    run! failed := lift (num failed_benchmarks) in
    run! failure_rate := lift (div failed total) in
    if Qltb (max_failure_rate gate) failure_rate then
      print! fail_failure_rate failure_rate (max_failure_rate gate) in io_ret false
    else check_regression
  else check_regression.

End Gate.

(** ** scripts/performance-analysis.py *)

Module Analysis.
Import Py Py.Notations Py.IONotations Common.

Record PerformanceThresholds : Type := {
  execution_time_ms : Q;
  memory_usage_mb : Q;
  regression_threshold_percent : Q;
  max_failed_benchmarks : Z
}.

Definition default_thresholds : PerformanceThresholds :=
  {| execution_time_ms := 1000;
     memory_usage_mb := 100;
     regression_threshold_percent := 10;
     max_failed_benchmarks := 0 |}.

(** A dataclass checks no types: every field holds whatever was read. *)
Record BenchmarkResult : Type := {
  suite : value;
  name : value;
  execution_time : value;
  memory_usage : value;
  success : value;
  error : value;
  timestamp : value;
  lean_version : value;
  platform : value
}.

Record PerformanceSummary : Type := {
  status : string;
  avg_execution_time : Q;
  summary_memory_usage : Q;
  regression_detected : bool;
  failed_benchmarks : nat;
  total_benchmarks : nat;
  recommendations : list fstring
}.

Record PerformanceAnalyzer : Type := {
  thresholds : PerformanceThresholds;
  results : list BenchmarkResult;
  baseline_results : list BenchmarkResult
}.

(** [PerformanceAnalyzer(thresholds)] *)
Definition new_analyzer (th : PerformanceThresholds) : PerformanceAnalyzer :=
  {| thresholds := th; results := []; baseline_results := [] |}.

(** One turn of the loading loop: [None] for an item that is skipped
    (not a dict, or without a ["metrics"] key). *)
Definition load_item (item : value) : result (option BenchmarkResult) :=
  match item with
  | VDict d =>
      match d !! "metrics" with
      | Some m =>
          let suite := dict_get d "suite" (VStr "unknown") in
          let name := dict_get d "name" (VStr "unknown") in
          let! execution_time := get m "executionTime" (VNum 0) in
          let! memory_usage := get m "memoryUsage" (VNum 0) in
          let success := dict_get d "success" (VBool false) in
          let error := dict_get d "error" VNone in
          let! timestamp := get m "timestamp" (VStr "") in
          let! lean_version := get m "leanVersion" (VStr "") in
          let! platform := get m "platform" (VStr "") in
          Ok (Some {| suite := suite; name := name;
                      execution_time := execution_time;
                      memory_usage := memory_usage;
                      success := success; error := error;
                      timestamp := timestamp;
                      lean_version := lean_version;
                      platform := platform |})
      | None => Ok None
      end
  | _ => Ok None
  end.

(** The loop [for item in data], appending to [acc]; an exception leaves
    what was appended before it. *)
Fixpoint load_items (data : list value) (acc : list BenchmarkResult)
    : list BenchmarkResult * result unit :=
  match data with
  | [] => (acc, Ok tt)
  | item :: data' =>
      match load_item item with
      | Ok (Some r) => load_items data' (acc ++ [r])
      | Ok None => load_items data' acc
      | Raise e => (acc, Raise e)
      end
  end.

Definition _load_json_file (self : PerformanceAnalyzer) (json_file : string)
    (f : file) : io PerformanceAnalyzer :=
  match f with
  | Missing =>
      print! [Lit "Warning: Could not load "; Lit json_file;
              Lit ": [Errno 2] No such file or directory: '"; Lit json_file; Lit "'"] in
      io_ret self
  | Unreadable e =>
      print! [Lit "Warning: Could not load "; Lit json_file; Lit ": "; Lit e] in
      io_ret self
  | Contents (VList data) =>
      let (loaded, r) := load_items data (results self) in
      let self' := {| thresholds := thresholds self;
                      results := loaded;
                      baseline_results := baseline_results self |} in
      match r with
      | Ok _ => io_ret self'
      | Raise e =>
          print! [Lit "Warning: Could not load "; Lit json_file; Lit ": "; StrExn e] in
          io_ret self'
      end
  | Contents _ => io_ret self
  end.

Definition _load_baseline_file (self : PerformanceAnalyzer) (baseline_file : string)
    (f : file) : io PerformanceAnalyzer :=
  match f with
  | Missing =>
      print! [Lit "Warning: Could not load baseline "; Lit baseline_file;
              Lit ": [Errno 2] No such file or directory: '"; Lit baseline_file;
              Lit "'"] in
      io_ret self
  | Unreadable e =>
      print! [Lit "Warning: Could not load baseline "; Lit baseline_file; Lit ": ";
              Lit e] in
      io_ret self
  | Contents (VList data) =>
      let (loaded, r) := load_items data (baseline_results self) in
      let self' := {| thresholds := thresholds self;
                      results := results self;
                      baseline_results := loaded |} in
      match r with
      | Ok _ => io_ret self'
      | Raise e =>
          print! [Lit "Warning: Could not load baseline "; Lit baseline_file; Lit ": ";
                  StrExn e] in
          io_ret self'
      end
  | Contents _ => io_ret self
  end.

Definition succeeded (r : BenchmarkResult) : bool := truthy (success r).

(** The running pair [(regression_detected, recommendations)] that the
    checks of [analyze_performance] update in turn. *)
Definition flag (cond : bool) (msg : fstring) (st : bool * list fstring)
    : bool * list fstring :=
  if cond then (true, snd st ++ [msg]) else st.

Definition analyze_performance (self : PerformanceAnalyzer) : result PerformanceSummary :=
  if is_nil (results self) then
    Ok {| status := "ERROR";
          avg_execution_time := 0;
          summary_memory_usage := 0;
          regression_detected := false;
          failed_benchmarks := 0;
          total_benchmarks := 0;
          recommendations := [[Lit "No benchmark results found"]] |}
  else
    (* Calculate basic metrics *)
    let successful_results := List.filter succeeded (results self) in
    let failed_results := List.filter (fun r => negb (succeeded r)) (results self) in
    if is_nil successful_results then
      Ok {| status := "FAILED";
            avg_execution_time := 0;
            summary_memory_usage := 0;
            regression_detected := true;
            failed_benchmarks := length failed_results;
            total_benchmarks := length (results self);
            recommendations := [[Lit "All benchmarks failed"]] |}
    else
      let th := thresholds self in
      let! avg_execution_time := mean (map execution_time successful_results) in
      let! mem := mean (map memory_usage successful_results) in
      let avg_memory_usage := mem / (1024 * 1024) in
      (* Check for regressions *)
      let st := (false, []) in
      (* Check execution time threshold *)
      let st :=
        flag (Qltb (execution_time_ms th) avg_execution_time)
          [Lit "Average execution time "; Fixed 2 avg_execution_time;
           Lit "ms exceeds threshold "; StrFloat (execution_time_ms th); Lit "ms"] st in
      (* Check memory usage threshold *)
      let st :=
        flag (Qltb (memory_usage_mb th) avg_memory_usage)
          [Lit "Average memory usage "; Fixed 2 avg_memory_usage;
           Lit "MB exceeds threshold "; StrFloat (memory_usage_mb th); Lit "MB"] st in
      (* Check for failed benchmarks *)
      let st :=
        flag (max_failed_benchmarks th <? Z.of_nat (length failed_results))%Z
          [Lit "Too many failed benchmarks: ";
           StrInt (Z.of_nat (length failed_results)); Lit " > ";
           StrInt (max_failed_benchmarks th)] st in
      (* Compare with baseline if available *)
      let! st :=
        if is_nil (baseline_results self) then Ok st
        else
          let baseline_successful := List.filter succeeded (baseline_results self) in
          if is_nil baseline_successful then Ok st
          else
            let! baseline_avg_time := mean (map execution_time baseline_successful) in
            let! ratio := div (avg_execution_time - baseline_avg_time) baseline_avg_time in
            let time_regression := ratio * 100 in
            Ok (flag (Qltb (regression_threshold_percent th) time_regression)
                  [Lit "Execution time regression: "; Fixed 2 time_regression;
                   Lit "% increase from baseline"] st) in
      (* Determine overall status *)
      let status :=
        if fst st then "REGRESSION"
        else if (0 <? length failed_results)%nat then "PARTIAL"
        else "PASS" in
      Ok {| status := status;
            avg_execution_time := avg_execution_time;
            summary_memory_usage := avg_memory_usage;
            regression_detected := fst st;
            failed_benchmarks := length failed_results;
            total_benchmarks := length (results self);
            recommendations := snd st |}.

End Analysis.

(** * Properties *)

(** ** The messages, letter by letter

    What the statements compare the printed lines and the recommendations
    with. *)

Module Messages.
Import Py Common.

Definition shortfall_message (successful : value) (min_benchmarks : Z) : fstring :=
  [Lit "Insufficient successful benchmarks: "; Str successful;
   Lit " < "; StrInt min_benchmarks].

Definition time_message (change threshold : Q) : fstring :=
  [Lit "Execution time increased by "; Fixed 1 change;
   Lit "% (threshold: "; StrFloat threshold; Lit "%)"].

Definition memory_message (change threshold : Q) : fstring :=
  [Lit "Memory usage increased by "; Fixed 1 change;
   Lit "% (threshold: "; StrFloat threshold; Lit "%)"].

Definition failure_rate_message (change threshold : Q) : fstring :=
  [Lit "Failure rate increased by "; Percent 1 change;
   Lit " (threshold: "; StrFloat threshold; Lit "%)"].

Definition no_regression_message : fstring :=
  [Lit "No significant performance regression detected"].

(** The list after the insufficient-data test, from the flags and changes
    of a result: the messages of the flags that are set, in the order
    time, memory, failure rate, then the "no regression" message when none
    is. *)
Definition expected_recommendations (th : Regression.RegressionThresholds)
    (r : Regression.RegressionResult) : list fstring :=
  (if Regression.execution_time_regression r
   then [time_message (Regression.execution_time_change r)
           (Regression.execution_time_percent th)]
   else [])
  ++ (if Regression.memory_regression r
      then [memory_message (Regression.memory_change r)
              (Regression.memory_usage_percent th)]
      else [])
  ++ (if Regression.failure_rate_regression r
      then [failure_rate_message (Regression.failure_rate_change r)
              (Regression.failure_rate_increase th)]
      else [])
  ++ (if negb (Regression.execution_time_regression r
               || Regression.memory_regression r
               || Regression.failure_rate_regression r)
      then [no_regression_message] else []).






End Messages.

(** ** Vocabulary of the statements *)

Module Props.
Import Py Py.Notations Common.

(** The test [current_successful < min_benchmarks] is evaluated and true. *)
Definition insufficient_data (min_benchmarks : Z) (current : metrics) : Prop :=
  exists s, as_num (m_successful current) = Some s /\ s < inject_Z min_benchmarks.

(** The test [current_successful < min_benchmarks] is evaluated and false. *)
Definition enough_data (min_benchmarks : Z) (current : metrics) : Prop :=
  exists s, as_num (m_successful current) = Some s /\ inject_Z min_benchmarks <= s.

(** The recommendations of the long path of [detect_regression], rebuilt
    from the flags and changes of its result. *)
Definition recommendations_of (th : Regression.RegressionThresholds)
    (r : Regression.RegressionResult) : list fstring :=
  (if Regression.execution_time_regression r
   then [rec_time (Regression.execution_time_change r) (Regression.execution_time_percent th)]
   else [])
  ++ (if Regression.memory_regression r
      then [rec_memory (Regression.memory_change r) (Regression.memory_usage_percent th)]
      else [])
  ++ (if Regression.failure_rate_regression r
      then [rec_failure_rate (Regression.failure_rate_change r)
              (Regression.failure_rate_increase th)]
      else [])
  ++ (if negb (Regression.has_regression r) then [rec_none] else []).

(** [performance-comparison.py] keeps the per-metric flags only inside
    [detailed_comparison]; this reads a comparison result as a regression
    result. *)
Definition as_regression (r : Comparison.ComparisonResult) : Regression.RegressionResult :=
  let '(t, m, f) :=
    match Comparison.detailed_comparison r with
    | Some d => Comparison.d_regressions d
    | None => (false, false, false)
    end in
  {| Regression.has_regression := Comparison.has_regression r;
     Regression.execution_time_regression := t;
     Regression.memory_regression := m;
     Regression.failure_rate_regression := f;
     Regression.execution_time_change := Comparison.execution_time_change r;
     Regression.memory_change := Comparison.memory_change r;
     Regression.failure_rate_change := Comparison.failure_rate_change r;
     Regression.recommendations := Comparison.recommendations r |}.

Definition as_comparison (th : Regression.RegressionThresholds)
    : Comparison.ComparisonThresholds :=
  {| Comparison.execution_time_percent := Regression.execution_time_percent th;
     Comparison.memory_usage_percent := Regression.memory_usage_percent th;
     Comparison.failure_rate_increase := Regression.failure_rate_increase th;
     Comparison.min_benchmarks := Regression.min_benchmarks th |}.

(** *** Shapes of input on which extraction goes through *)

Definition is_dict (v : value) : bool :=
  match v with VDict _ => true | _ => false end.

Definition numeric (v : value) : bool :=
  match as_num v with Some _ => true | None => false end.

(** The condition [r.get("success", False)] of an element that is a dict. *)
Definition success_of (r : value) : bool :=
  match r with
  | VDict d => truthy (dict_get d "success" (VBool false))
  | _ => false
  end.

(** [r.get("metrics", {}).get(key, 0)] of an element whose ["metrics"], if
    any, is a dict. *)
Definition metric_val (key : string) (r : value) : value :=
  match r with
  | VDict d =>
      match dict_get d "metrics" (VDict ∅) with
      | VDict m => dict_get m key (VNum 0)
      | _ => VNone
      end
  | _ => VNone
  end.

(** The ["metrics"] entry of an element is absent or a dict, and the two
    measures in it are absent or numbers. *)
Definition metrics_ok (r : value) : bool :=
  match r with
  | VDict d =>
      is_dict (dict_get d "metrics" (VDict ∅))
      && numeric (metric_val "executionTime" r)
      && numeric (metric_val "memoryUsage" r)
  | _ => false
  end.

(** A list of dicts whose successful elements have usable metrics; a dict
    whose two counts in the failure rate are absent or numbers; or any
    other value. *)
Definition well_typed (data : value) : bool :=
  match data with
  | VList items =>
      forallb is_dict items
      && forallb (fun r => implb (success_of r) (metrics_ok r)) items
  | VDict d =>
      numeric (dict_get d "total_benchmarks" (VNum 1))
      && numeric (dict_get d "failed_benchmarks" (VNum 0))
  | _ => true
  end.

Definition all_numeric (m : metrics) : bool :=
  numeric (m_time m) && numeric (m_memory m) && numeric (m_failure_rate m)
  && numeric (m_successful m) && numeric (m_total m).

(** The bounds of the specification on a metrics tuple. *)
Definition metrics_bounded (m : metrics) : Prop :=
  exists f s n,
    as_num (m_failure_rate m) = Some f /\
    as_num (m_successful m) = Some s /\
    as_num (m_total m) = Some n /\
    0 <= f /\ f <= 1 /\ s <= n.

(** A summary whose own counts respect the bounds. *)
Definition summary_consistent (d : gmap string value) : Prop :=
  exists f s n,
    as_num (dict_get d "failed_benchmarks" (VNum 0)) = Some f /\
    as_num (dict_get d "successful_benchmarks" (VNum 0)) = Some s /\
    as_num (dict_get d "total_benchmarks" (VNum 0)) = Some n /\
    0 <= f /\ f <= n /\ s <= n.

(** *** The gate *)

(** The four checks of [check_gate], each as the condition on which it
    fails, on the numbers of the summary. *)
Definition time_exceeds (gate : Gate.PerformanceGate) (time : Q) : bool :=
  Qltb (Gate.max_execution_time_ms gate) time.

Definition memory_exceeds (gate : Gate.PerformanceGate) (memory : Q) : bool :=
  Qltb (Gate.max_memory_usage_mb gate) memory.

Definition rate_exceeds (gate : Gate.PerformanceGate) (failed total : Q) : bool :=
  Qltb 0 total && Qltb (Gate.max_failure_rate gate) (failed / total).


(** The one line that follows: the reason of the first check that fails,
    in the order time, memory, failure rate, regression flag. *)
Definition gate_verdict (gate : Gate.PerformanceGate) (time memory failed total : Q)
    (regression : value) : fstring :=
  if time_exceeds gate time then Gate.fail_time
  else if memory_exceeds gate memory then Gate.fail_memory
  else if rate_exceeds gate failed total
       then Gate.fail_failure_rate (failed / total) (Gate.max_failure_rate gate)
  else if truthy regression then Gate.fail_regression
  else Gate.pass_all.


(** *** The command line of the regression check *)

Definition baseline_warning (path : string) : fstring :=
  [Lit "Warning: Baseline file "; Lit path; Lit " not found"].

Definition current_error (path : string) : fstring :=
  [Lit "Error: Current performance file "; Lit path; Lit " not found"].

Definition could_not_load : fstring :=
  [Lit "Error: Could not load performance data"].

(** The closing line of a run that found a regression. *)
Definition regression_verdict : fstring :=
  [Lit nl; Lit "❌ Performance regression detected. Build will be rejected."].

(** *** The analyzer *)

(** The status as the specification derives it: [ERROR] without records,
    [FAILED] when records exist and none succeeded, [REGRESSION] when a
    regression was detected, [PARTIAL] when some record failed without a
    regression, [PASS] otherwise. *)
Definition spec_status (records : list Analysis.BenchmarkResult)
    (regression : bool) : string :=
  if is_nil records then "ERROR"
  else if negb (existsb Analysis.succeeded records) then "FAILED"
  else if regression then "REGRESSION"
  else if existsb (fun r => negb (Analysis.succeeded r)) records then "PARTIAL"
  else "PASS".

(** An element the analyzer loads as a record: a dict whose ["metrics"]
    entry is present and a dict. *)
Definition has_metrics (r : value) : bool :=
  match r with
  | VDict d =>
      match d !! "metrics" with
      | Some (VDict _) => true
      | _ => false
      end
  | _ => false
  end.

End Props.

(** ** Sample inputs *)

Module Samples.
Import Py.

(** One benchmark record of the raw array. *)
Definition record (succeeded : bool) (time memory : Q) : value :=
  VDict (<["success" := VBool succeeded]>
         (<["metrics" := VDict (<["executionTime" := VNum time]>
                                (<["memoryUsage" := VNum memory]> ∅))]> ∅)).

(** A pre-aggregated summary. *)
Definition summary_dict (time memory failed successful total : Q) (regression : bool)
    : gmap string value :=
  <["avg_execution_time" := VNum time]>
    (<["memory_usage" := VNum memory]>
     (<["failed_benchmarks" := VNum failed]>
      (<["successful_benchmarks" := VNum successful]>
       (<["total_benchmarks" := VNum total]>
        (<["regression_detected" := VBool regression]> ∅))))).

Definition summary (time memory failed successful total : Q) (regression : bool)
    : value :=
  VDict (summary_dict time memory failed successful total regression).

(** A failed record that carries nothing but its status. *)
Definition bare_failure : value := VDict (<["success" := VBool false]> ∅).

(** Thresholds with the given bound on the execution-time change and the
    defaults elsewhere. *)
Definition thresholds_with_time (percent : Q) : Regression.RegressionThresholds :=
  {| Regression.execution_time_percent := percent;
     Regression.memory_usage_percent := 15;
     Regression.failure_rate_increase := 5;
     Regression.min_benchmarks := 5 |}.

(** Five successful records: enough for the default [min_benchmarks]. *)
Definition five_runs (time memory : Q) : value :=
  VList (repeat (record true time memory) 5).

(** What [detect_regression] returns, under the default thresholds, for a
    baseline summary of 100 ms against five runs of 120 ms. *)
Definition slower_by_a_fifth : Regression.RegressionResult :=
  Eval vm_compute in
    match Regression.detect_regression Regression.default_thresholds
            (summary 100 50 0 20 20 false) (five_runs 120 1048576) with
    | Ok r => r
    | Raise _ =>
        {| Regression.has_regression := false;
           Regression.execution_time_regression := false;
           Regression.memory_regression := false;
           Regression.failure_rate_regression := false;
           Regression.execution_time_change := 0;
           Regression.memory_change := 0;
           Regression.failure_rate_change := 0;
           Regression.recommendations := [] |}
    end.

(** A failed record with (empty) metrics. *)
Definition measured_failure : value :=
  VDict (<["success" := VBool false]> (<["metrics" := VDict ∅]> ∅)).

(** A directory in which only [current.json] exists. *)
Definition only_current (contents : value) (path : string) : file :=
  if String.eqb path "current.json" then Contents contents else Missing.

(** A directory in which only [baseline.json] exists. *)
Definition only_baseline (contents : value) (path : string) : file :=
  if String.eqb path "baseline.json" then Contents contents else Missing.

(** A directory with both files. *)
Definition both_files (baseline current : value) (path : string) : file :=
  if String.eqb path "baseline.json" then Contents baseline
  else if String.eqb path "current.json" then Contents current
  else Missing.

Definition default_args : Regression.Args :=
  {| Regression.arg_baseline := "baseline.json";
     Regression.arg_current := "current.json";
     Regression.arg_threshold := 10;
     Regression.arg_memory_threshold := 15;
     Regression.arg_failure_threshold := 5;
     Regression.arg_min_benchmarks := 5 |}.

End Samples.

(** ** Further vocabulary: the regression check end to end *)

Module Behaviour.
Import Py Py.Notations Common Props.

(** [percent_change] goes through: the baseline is a number, and so is the
    current value when the baseline is positive. *)
Definition comparable (baseline current : value) : bool :=
  match as_num baseline with
  | Some b => if Qltb 0 b then numeric current else true
  | None => false
  end.

(** The three values of a tuple that [print_comparison] formats. *)
Definition printable (m : metrics) : bool :=
  numeric (m_time m) && numeric (m_memory m) && numeric (m_failure_rate m).

(** [th'] asks for no less than [th] before it reports a regression. *)
Definition looser (th th' : Regression.RegressionThresholds) : Prop :=
  Regression.execution_time_percent th <= Regression.execution_time_percent th' /\
  Regression.memory_usage_percent th <= Regression.memory_usage_percent th' /\
  Regression.failure_rate_increase th <= Regression.failure_rate_increase th' /\
  Regression.min_benchmarks th = Regression.min_benchmarks th'.

(** The thresholds [main] builds from its command line. *)
Definition thresholds_of (args : Regression.Args) : Regression.RegressionThresholds :=
  {| Regression.execution_time_percent := Regression.arg_threshold args;
     Regression.memory_usage_percent := Regression.arg_memory_threshold args;
     Regression.failure_rate_increase := Regression.arg_failure_threshold args;
     Regression.min_benchmarks := Regression.arg_min_benchmarks args |}.

(** What a loader hands to [main]: a document other than [null]. *)
Definition loaded (f : file) : option value :=
  match f with
  | Contents v => if Regression.is_None v then None else Some v
  | _ => None
  end.

(** The closing line of a run that found no regression. *)
Definition clean_verdict : fstring :=
  [Lit nl; Lit "✅ No significant performance regression detected."].

End Behaviour.

(** ** scripts/performance-gate.py: loading the summary, the command line *)

Module GateMain.
Import Py Py.Notations Py.IONotations Gate.

(** The parsed command line. *)
Record Args : Type := {
  arg_input_dir : string;
  arg_threshold : Q;
  arg_max_execution_time : Q;
  arg_max_memory_usage : Q;
  arg_max_failure_rate : Q
}.

Definition is_None (v : value) : bool :=
  match v with VNone => true | _ => false end.

(** [enumerate(recs, i)] under [f"  {i}. {rec}"]. *)
Fixpoint numbered (i : Z) (recs : list value) : list fstring :=
  match recs with
  | [] => []
  | rec :: rest => [Lit "  "; StrInt i; Lit ". "; Str rec] :: numbered (i + 1) rest
  end.

Section Run.

(** [Path(dir) / name], as the text of the path. *)
Variable join : string -> string -> string.
(** The characters of a [str] and the keys of a [dict], in the order
    iteration yields them. *)
Variable chars : string -> list string.
Variable keys : gmap string value -> list string.
(** The files, by the text of their path. *)
Variable fs : string -> file.

Definition load_summary (input_dir : string) : io value :=
  let summary_file := join input_dir "performance-summary.json" in
  match fs summary_file with
  | Missing =>
      print! [Lit "Error: Performance summary not found at "; Lit summary_file] in
      io_ret VNone
  | Unreadable e =>
      print! [Lit "Error loading performance summary: "; Lit e] in
      io_ret VNone
  | Contents data => io_ret data
  end.

(** What a [for] loop over [v] runs through; [TypeError] when [v] is not
    iterable. *)
Definition iterate (v : value) : result (list value) :=
  match v with
  | VList l => Ok l
  | VStr s => Ok (map VStr (chars s))
  | VDict d => Ok (map VStr (keys d))
  | _ => Raise TypeError
  end.

Definition print_recommendations (summary : value) : io unit :=
  run! recommendations := lift (get summary "recommendations" (VList [])) in
  if truthy recommendations then
    print! [Lit nl; Lit "Performance Recommendations:"] in
    run! recs := lift (iterate recommendations) in
    print_all (numbered 1 recs)
  else io_ret tt.

Definition gate_of (args : Args) : PerformanceGate :=
  {| max_execution_time_ms := arg_max_execution_time args;
     max_memory_usage_mb := arg_max_memory_usage args;
     max_failure_rate := arg_max_failure_rate args;
     regression_threshold_percent := arg_threshold args |}.

(** [main]: the printed lines and the argument of [sys.exit]. *)
Definition main (args : Args) : io Z :=
  (* Create performance gate *)
  let gate := gate_of args in
  (* Load performance summary *)
  run! summary := load_summary (arg_input_dir args) in
  if is_None summary then io_ret 1%Z
  else
    (* Check gate *)
    run! passed := check_gate gate summary in
    if passed then
      run! _ := print_recommendations summary in
      io_ret 0%Z
    else
      run! _ := print_recommendations summary in
      print! [Lit nl; Lit "❌ Performance gate failed. Build will be rejected."] in
      io_ret 1%Z.

End Run.

End GateMain.

(** ** Further vocabulary: the gate *)

Module GateBehaviour.
Import Py Py.Notations Common Props Gate.



(** The ["recommendations"] entry stops [print_recommendations]: it is
    truthy and not iterable, that is, a number other than 0 or [True]. *)
Definition unlistable (d : gmap string value) : bool :=
  truthy (dict_get d "recommendations" (VList []))
  && numeric (dict_get d "recommendations" (VList [])).

End GateBehaviour.

(** ** Further sample inputs *)

Module Cases.
Import Py Samples.

(** What [compare_performance] returns, under the default thresholds, for
    a baseline summary of 100 ms against five runs of 120 ms. *)
Definition compared_slower : Comparison.ComparisonResult :=
  Eval vm_compute in
    match Comparison.compare_performance
            (Props.as_comparison Regression.default_thresholds)
            (summary 100 50 0 20 20 false) (five_runs 120 1048576) with
    | Ok r => r
    | Raise _ =>
        {| Comparison.has_regression := false;
           Comparison.execution_time_change := 0;
           Comparison.memory_change := 0;
           Comparison.failure_rate_change := 0;
           Comparison.recommendations := [];
           Comparison.detailed_comparison := None |}
    end.

End Cases.

(** ** scripts/performance-analysis.py: the directory, the summary file, the
    command line *)

Module AnalysisMain.
Import Py Py.Notations Py.IONotations Common Analysis.

(** [sub in s] on text. *)
Fixpoint contains (sub s : string) : bool :=
  String.prefix sub s ||
  match s with
  | EmptyString => false
  | String _ s' => contains sub s'
  end.

(** A file that [glob("**/*.json")] yields: the text of its path, its name
    (the last component of the path) and what reading it gives. *)
Record entry : Type := {
  e_path : string;
  e_name : string;
  e_file : file
}.

(** The input directory: the [*.json] files below it in the order [glob]
    yields them, and [baseline.json] directly in it, if there is one, with
    the text of its path. *)
Record directory : Type := {
  json_files : list entry;
  baseline_json : option (string * file)
}.

(** What ends a run of the analysis besides the exceptions of [Py]: the
    [FileNotFoundError] that [load_results] raises itself, and a failure of
    a library outside the script (creating a directory, writing a file,
    plotting), with the text of its exception. *)
Inductive failure : Type :=
| Python (e : exn)
| NoInputDir (input_dir : string)
| External (msg : string).

(** [str(e)] of what was caught. *)
Definition failure_text (f : failure) : fstring :=
  match f with
  | Python e => [StrExn e]
  | NoInputDir input_dir => [Lit "Input directory "; Lit input_dir; Lit " does not exist"]
  | External msg => [Lit msg]
  end.

(** The loop of [load_results] over the files of the directory: a file
    whose name contains "baseline" is passed over. *)
Fixpoint load_current_files (self : PerformanceAnalyzer) (files : list entry)
    : io PerformanceAnalyzer :=
  match files with
  | [] => io_ret self
  | json_file :: rest =>
      if negb (contains "baseline" (e_name json_file)) then
        run! self' := _load_json_file self (e_path json_file) (e_file json_file) in
        load_current_files self' rest
      else load_current_files self rest
  end.

(** [load_results]: [None] for an input directory that does not exist. *)
Definition load_results (self : PerformanceAnalyzer) (input_dir : string)
    (dir : option directory) : list fstring * (PerformanceAnalyzer + failure) :=
  match dir with
  | None => ([], inr (NoInputDir input_dir))
  | Some d =>
      (* Load current results *)
      let (out, r) := load_current_files self (json_files d) in
      match r with
      | Raise e => (out, inr (Python e))
      | Ok self' =>
          (* Load baseline results if available *)
          match baseline_json d with
          | None => (out, inl self')
          | Some (baseline_file, f) =>
              match _load_baseline_file self' baseline_file f with
              | (out', Ok self'') => (out ++ out', inl self'')
              | (out', Raise e) => (out ++ out', inr (Python e))
              end
          end
      end
  end.

Section Files.

(** How the recommendations are written into the summary: as text. *)
Variable fixed : nat -> Q -> string.
Variable percent : nat -> Q -> string.
Variable str_float : Q -> string.
Variable str_int : Z -> string.
Variable str_value : value -> string.
Variable str_exn : exn -> string.
(** [pd.Timestamp.now().isoformat()] *)
Variable now : string.

(** The document [save_summary] writes to [performance-summary.json]. *)
Definition summary_data (summary : PerformanceSummary) : gmap string value :=
  <["status" := VStr (status summary)]>
    (<["avg_execution_time" := VNum (avg_execution_time summary)]>
     (<["memory_usage" := VNum (summary_memory_usage summary)]>
      (<["regression_detected" := VBool (regression_detected summary)]>
       (<["failed_benchmarks" := VNum (of_nat (failed_benchmarks summary))]>
        (<["total_benchmarks" := VNum (of_nat (total_benchmarks summary))]>
         (<["recommendations" :=
              VList (map (fun rec =>
                            VStr (render fixed percent str_float str_int
                                    str_value str_exn rec))
                         (recommendations summary))]>
          (<["timestamp" := VStr now]> ∅))))))).

(** What happens outside the script during a run: creating the output
    directory, producing the plots and statistics of
    [generate_detailed_report] from the table of the results, writing the
    summary file.  [None] when the step goes through, the text of the exception
    otherwise. *)
Record world : Type := {
  mkdir : option string;
  detailed_report : PerformanceAnalyzer -> option string;
  write_summary : gmap string value -> option string
}.

Definition external (step : option string) : list fstring * (unit + failure) :=
  match step with
  | None => ([], inl tt)
  | Some msg => ([], inr (External msg))
  end.

(** The memory column of the table of [generate_detailed_report]:
    [r.memory_usage / (1024 * 1024)] of every record, failed ones
    included. *)
Definition memory_column (rs : list BenchmarkResult) : result (list Q) :=
  mapM (fun r => let! m := num (memory_usage r) in Ok (m / (1024 * 1024))) rs.

(** [generate_detailed_report]: nothing but a line when there are no
    results. *)
Definition generate_detailed_report (w : world) (self : PerformanceAnalyzer)
    : list fstring * (unit + failure) :=
  match mkdir w with
  | Some msg => ([], inr (External msg))
  | None =>
      if is_nil (results self) then
        ([[Lit "No results to generate report for"]], inl tt)
      else
        (* Create DataFrame for analysis *)
        match memory_column (results self) with
        | Raise e => ([], inr (Python e))
        | Ok _ => external (detailed_report w self)
        end
  end.

(** [save_summary]: the analysis is run again for the document. *)
Definition save_summary (w : world) (self : PerformanceAnalyzer)
    : list fstring * (unit + failure) :=
  match analyze_performance self with
  | Raise e => ([], inr (Python e))
  | Ok summary =>
      match mkdir w with
      | Some msg => ([], inr (External msg))
      | None => external (write_summary w (summary_data summary))
      end
  end.

(** The lines [main] prints about a summary. *)
Definition summary_lines (summary : PerformanceSummary) : list fstring :=
  [ [Lit "Performance Analysis Summary"];
    [Lit (rule 30)];
    [Lit "Status: "; Lit (status summary)];
    [Lit "Average execution time: "; Fixed 2 (avg_execution_time summary); Lit "ms"];
    [Lit "Memory usage: "; Fixed 2 (summary_memory_usage summary); Lit "MB"];
    [Lit "Regression detected: "; StrBool (regression_detected summary)];
    [Lit "Failed benchmarks: "; StrInt (Z.of_nat (failed_benchmarks summary));
     Lit "/"; StrInt (Z.of_nat (total_benchmarks summary))] ]
  ++ (if is_nil (recommendations summary) then []
      else [Lit nl; Lit "Recommendations:"]
           :: map (fun rec => Lit "  - " :: rec) (recommendations summary)).

(** The body of the [try] of [main]: the lines printed, and the argument
    of [sys.exit] or what was raised. *)
Definition analysis (threshold : Q) (input_dir : string) (dir : option directory)
    (w : world) : list fstring * (Z + failure) :=
  (* Set up thresholds *)
  let thresholds :=
    {| execution_time_ms := 1000;
       memory_usage_mb := 100;
       regression_threshold_percent := threshold;
       max_failed_benchmarks := 0 |} in
  (* Create analyzer *)
  let analyzer := new_analyzer thresholds in
  (* Load results *)
  match load_results analyzer input_dir dir with
  | (out, inr f) => (out, inr f)
  | (out, inl analyzer) =>
      (* Analyze performance *)
      match analyze_performance analyzer with
      | Raise e => (out, inr (Python e))
      | Ok summary =>
          (* Generate detailed report *)
          match generate_detailed_report w analyzer with
          | (out1, inr f) => (out ++ out1, inr f)
          | (out1, inl _) =>
              (* Save summary *)
              match save_summary w analyzer with
              | (out2, inr f) => (out ++ out1 ++ out2, inr f)
              | (out2, inl _) =>
                  (* Print summary *)
                  (out ++ out1 ++ out2 ++ summary_lines summary,
                   (* Exit with error code if regression detected *)
                   inl (if regression_detected summary then 1%Z else 0%Z))
              end
          end
      end
  end.

(** [main]: every exception is caught, reported and turned into exit
    status 1. *)
Definition main (threshold : Q) (input_dir : string) (dir : option directory)
    (w : world) : list fstring * Z :=
  match analysis threshold input_dir dir w with
  | (out, inl code) => (out, code)
  | (out, inr f) =>
      (out ++ [Lit "Error during performance analysis: " :: failure_text f], 1%Z)
  end.

End Files.

End AnalysisMain.

(** ** Further vocabulary: the analyzer *)

Module AnalysisBehaviour.
Import Py Py.Notations Common Props Analysis.

Definition failed (r : BenchmarkResult) : bool := negb (succeeded r).






(** What the running pair of [analyze_performance] keeps true: the flag is
    set exactly when a recommendation was added. *)
Definition in_step (st : bool * list fstring) : Prop :=
  fst st = true <-> snd st <> [].

(** Two analyzers that differ at most in the threshold of the comparison
    with the baseline and in baseline records that did not succeed. *)
Definition same_without_baseline (a a' : PerformanceAnalyzer) : Prop :=
  results a = results a' /\
  execution_time_ms (thresholds a) = execution_time_ms (thresholds a') /\
  memory_usage_mb (thresholds a) = memory_usage_mb (thresholds a') /\
  max_failed_benchmarks (thresholds a) = max_failed_benchmarks (thresholds a') /\
  List.filter succeeded (baseline_results a) = [] /\
  List.filter succeeded (baseline_results a') = [].

End AnalysisBehaviour.

(** ** Further sample inputs: the analyzer *)

Module AnalysisCases.
Import Py Samples Analysis.

Definition benchmark (succeeded : bool) (time memory : Q) : BenchmarkResult :=
  {| suite := VStr "core"; name := VStr "bench";
     execution_time := VNum time; memory_usage := VNum memory;
     success := VBool succeeded; error := VNone;
     timestamp := VStr ""; lean_version := VStr ""; platform := VStr "" |}.

(** Two runs that succeeded and one that failed, no baseline; one failure
    is tolerated. *)
Definition mixed : PerformanceAnalyzer :=
  {| thresholds :=
       {| execution_time_ms := 1000; memory_usage_mb := 100;
          regression_threshold_percent := 10; max_failed_benchmarks := 1 |};
     results := [benchmark true 100 1048576; benchmark false 0 0;
                 benchmark true 300 3145728];
     baseline_results := [] |}.

(** The same runs under the default thresholds, which tolerate no failure. *)
Definition strict : PerformanceAnalyzer :=
  {| thresholds := default_thresholds;
     results := results mixed;
     baseline_results := [] |}.

(** [mixed] beside a baseline in which nothing succeeded, and with another
    threshold for the comparison with it. *)
Definition mixed_with_failed_baseline : PerformanceAnalyzer :=
  {| thresholds :=
       {| execution_time_ms := 1000; memory_usage_mb := 100;
          regression_threshold_percent := 0; max_failed_benchmarks := 1 |};
     results := results mixed;
     baseline_results := [benchmark false 50 1048576] |}.

Definition no_summary : PerformanceSummary :=
  {| status := ""; avg_execution_time := 0; summary_memory_usage := 0;
     regression_detected := false; failed_benchmarks := 0; total_benchmarks := 0;
     recommendations := [] |}.

Definition mixed_summary : PerformanceSummary :=
  Eval vm_compute in
    match analyze_performance mixed with Ok s => s | Raise _ => no_summary end.

Definition strict_summary : PerformanceSummary :=
  Eval vm_compute in
    match analyze_performance strict with Ok s => s | Raise _ => no_summary end.

End AnalysisCases.

(** ** Further vocabulary: loading *)

Module LoadBehaviour.
Import Py Py.Notations Common Props Analysis AnalysisMain.

(** An item from which a record is made: a mapping with a ["metrics"] key. *)
Definition loadable (item : value) : bool :=
  match item with
  | VDict d => match d !! "metrics" with Some _ => true | None => false end
  | _ => false
  end.

(** An item at which the loading of a file stops: a mapping whose
    ["metrics"] is no mapping. *)
Definition malformed (item : value) : bool :=
  match item with
  | VDict d => match d !! "metrics" with Some m => negb (is_dict m) | None => false end
  | _ => false
  end.

(** The items of a file before the first malformed one. *)
Fixpoint before_malformed (data : list value) : list value :=
  match data with
  | [] => []
  | item :: rest => if malformed item then [] else item :: before_malformed rest
  end.

(** The record made from an item, if one is. *)
Definition record_of (item : value) : option BenchmarkResult :=
  match load_item item with
  | Ok r => r
  | Raise _ => None
  end.

(** The records a file with the items [data] adds. *)
Definition loaded_from (data : list value) : list BenchmarkResult :=
  flat_map (fun item => option_list (record_of item)) (before_malformed data).

Definition loaded_from_file (f : file) : list BenchmarkResult :=
  match f with
  | Contents (VList data) => loaded_from data
  | _ => []
  end.

(** The files of a directory that are read for current results. *)
Definition current_entries (d : directory) : list entry :=
  List.filter (fun e => negb (contains "baseline" (e_name e))) (json_files d).

(** A directory with other [*.json] files below it. *)
Definition with_files (d : directory) (files : list entry) : directory :=
  {| json_files := files; baseline_json := baseline_json d |}.


(** An analyzer with other records. *)
Definition with_results (self : PerformanceAnalyzer) (rs : list BenchmarkResult)
    : PerformanceAnalyzer :=
  {| thresholds := thresholds self; results := rs;
     baseline_results := baseline_results self |}.

Definition with_baseline (self : PerformanceAnalyzer) (rs : list BenchmarkResult)
    : PerformanceAnalyzer :=
  {| thresholds := thresholds self; results := results self;
     baseline_results := rs |}.

(** The analyzer after [load_results] on a directory that exists: the
    records of the files read for current results, in the order of the
    files, and those of [baseline.json]. *)
Definition after_loading (self : PerformanceAnalyzer) (d : directory)
    : PerformanceAnalyzer :=
  {| thresholds := thresholds self;
     results :=
       results self
       ++ flat_map (fun e => loaded_from_file (e_file e)) (current_entries d);
     baseline_results :=
       baseline_results self
       ++ match baseline_json d with
          | Some (_, f) => loaded_from_file f
          | None => []
          end |}.

(** The warning of [_load_json_file] about an item it could not read. *)
Definition item_warning (json_file : string) : fstring :=
  [Lit "Warning: Could not load "; Lit json_file; Lit ": "; StrExn AttributeError].

End LoadBehaviour.

(** ** Further sample inputs: handing a summary on *)

Module PipelineCases.
Import Py Samples.

(** The metrics of a baseline of five runs of 100 ms. *)
Definition five_runs_metrics : Common.metrics :=
  Eval vm_compute in
    match Regression.extract_metrics (five_runs 100 1048576) with
    | Ok m => m
    | Raise _ => (VNone, VNone, VNone, VNone, VNone)
    end.

(** Formats that write nothing: the checks never look at the text of a
    recommendation. *)
Definition blank_number (digits : nat) (q : Q) : string := "".
Definition blank {A : Type} (x : A) : string := "".

(** The document [save_summary] writes for a summary, under these formats
    and at a fixed time. *)
Definition document (s : Analysis.PerformanceSummary) : gmap string value :=
  AnalysisMain.summary_data blank_number blank_number blank blank blank blank
    "2024-01-01T00:00:00" s.

End PipelineCases.

(** ** scripts/performance-comparison.py: the report, the command line *)

Module ComparisonMain.
Import Py Py.Notations Py.IONotations Common Comparison.

(** What ends a run besides the exceptions of [Py]: the [KeyError] of a
    lookup in a dict without the key, and a failure of a library outside
    the script (creating a directory, writing a file, plotting), with the
    text of its exception. *)
Inductive failure : Type :=
| Python (e : exn)
| KeyError (key : string)
| External (msg : string).

(** A field of a line: those of [Py], and a number written with its sign. *)
Inductive field : Type :=
| Piece (p : piece)
| SignedFixed (digits : nat) (q : Q)      (* {q:+.Nf} *)
| SignedPercent (digits : nat) (q : Q).   (* {q:+.N%} *)

Definition text : Type := list field.

Definition plain (line : fstring) : text := map Piece line.

(** A run of the script: the lines printed so far, and how it went on. *)
Definition run (A : Type) : Type := list text * (A + failure).

Definition run_ret {A : Type} (a : A) : run A := ([], inl a).

Definition run_bind {A B : Type} (m : run A) (k : A -> run B) : run B :=
  match m with
  | (out, inl a) => let (out', r) := k a in (out ++ out', r)
  | (out, inr f) => (out, inr f)
  end.

Definition of_io {A : Type} (m : io A) : run A :=
  match m with
  | (out, Ok a) => (map plain out, inl a)
  | (out, Raise e) => (map plain out, inr (Python e))
  end.

Definition say (line : text) : run unit := ([line], inl tt).

Definition step (r : unit + failure) : run unit := ([], r).

(** The exit status of the process: the argument of [sys.exit], or 1 when
    an exception reaches the top level. *)
Definition exit_of (r : Z + failure) : Z :=
  match r with
  | inl code => code
  | inr _ => 1%Z
  end.

Module RunNotations.
Notation "'do!' x ':=' m 'in' k" := (run_bind m (fun x => k))
  (at level 10, x name, m at level 100, k at level 200).
Notation "'say!' line 'in' k" := (run_bind (say line) (fun _ => k))
  (at level 10, line at level 100, k at level 200).
End RunNotations.
Import RunNotations.

Definition load_baseline (fs : string -> file) (baseline_file : string) : io value :=
  match fs baseline_file with
  | Missing =>
      print! [Lit "Warning: Baseline file "; Lit baseline_file; Lit " not found"] in
      io_ret VNone
  | Unreadable e =>
      print! [Lit "Error loading baseline: "; Lit e] in
      io_ret VNone
  | Contents data => io_ret data
  end.

Definition load_current (fs : string -> file) (current_file : string) : io value :=
  match fs current_file with
  | Missing =>
      print! [Lit "Error: Current performance file "; Lit current_file; Lit " not found"] in
      io_ret VNone
  | Unreadable e =>
      print! [Lit "Error loading current performance: "; Lit e] in
      io_ret VNone
  | Contents data => io_ret data
  end.

(** What happens outside the script while the report is made: creating the
    output directory, writing [detailed_comparison] as JSON, opening the
    figure, drawing and saving the four charts, writing the summary
    report.  [None] when the step goes through, the text of the exception
    otherwise. *)
Record world : Type := {
  mkdir : option string;
  dump : option Detailed -> option string;
  subplots : option string;
  draw : Detailed -> option string;
  write_report : list text -> option string
}.

Definition external (s : option string) : unit + failure :=
  match s with
  | None => inl tt
  | Some msg => inr (External msg)
  end.

(** [_create_comparison_charts]: the first value looked up is
    [comparison["baseline"]]. *)
Definition _create_comparison_charts (w : world) (result : ComparisonResult)
    : unit + failure :=
  let comparison := detailed_comparison result in
  match subplots w with
  | Some msg => inr (External msg)
  | None =>
      match comparison with
      | None => inr (KeyError "baseline")
      | Some comparison => external (draw w comparison)
      end
  end.

(** The text of the summary report up to its recommendations, by line. *)
Definition report_text (result : ComparisonResult) (comparison : Detailed)
    : Py.result (list text) :=
  let '(baseline_time, baseline_memory, baseline_failure_rate,
        baseline_successful, baseline_total) := d_baseline comparison in
  let '(current_time, current_memory, current_failure_rate,
        current_successful, current_total) := d_current comparison in
  let! bt := format_float baseline_time in
  let! ct := format_float current_time in
  let! bm := format_float baseline_memory in
  let! cm := format_float current_memory in
  let! bf := format_float baseline_failure_rate in
  let! cf := format_float current_failure_rate in
  Ok [ [];
       plain [Lit "Performance Comparison Report"];
       plain [Lit (rule 28)];
       [];
       plain [Lit "Overall Status: ";
              Lit (if has_regression result then "REGRESSION DETECTED"
                   else "NO REGRESSION")];
       [];
       plain [Lit "Execution Time:"];
       plain [Lit "  Baseline: "; Fixed 2 bt; Lit "ms"];
       plain [Lit "  Current:  "; Fixed 2 ct; Lit "ms"];
       [Piece (Lit "  Change:   "); SignedFixed 1 (execution_time_change result);
        Piece (Lit "%")];
       [];
       plain [Lit "Memory Usage:"];
       plain [Lit "  Baseline: "; Fixed 2 bm; Lit "MB"];
       plain [Lit "  Current:  "; Fixed 2 cm; Lit "MB"];
       [Piece (Lit "  Change:   "); SignedFixed 1 (memory_change result);
        Piece (Lit "%")];
       [];
       plain [Lit "Failure Rate:"];
       plain [Lit "  Baseline: "; Percent 1 bf];
       plain [Lit "  Current:  "; Percent 1 cf];
       [Piece (Lit "  Change:   "); SignedPercent 1 (failure_rate_change result)];
       [];
       plain [Lit "Benchmark Count:"];
       plain [Lit "  Baseline: "; Str baseline_successful; Lit "/"; Str baseline_total;
              Lit " successful"];
       plain [Lit "  Current:  "; Str current_successful; Lit "/"; Str current_total;
              Lit " successful"];
       [];
       plain [Lit "Recommendations:"] ].

Definition _generate_summary_report (w : world) (result : ComparisonResult)
    : unit + failure :=
  match detailed_comparison result with
  | None => inr (KeyError "baseline")
  | Some comparison =>
      match report_text result comparison with
      | Raise e => inr (Python e)
      | Ok report =>
          external
            (write_report w
               (report ++ map (fun rec => plain (Lit "  - " :: rec))
                            (recommendations result)))
      end
  end.

Definition generate_comparison_report (w : world) (result : ComparisonResult)
    : unit + failure :=
  match mkdir w with
  | Some msg => inr (External msg)
  | None =>
      (* Save detailed comparison *)
      match dump w (detailed_comparison result) with
      | Some msg => inr (External msg)
      | None =>
          (* Generate visualizations *)
          match _create_comparison_charts w result with
          | inr f => inr f
          | inl _ =>
              (* Generate summary report *)
              _generate_summary_report w result
          end
      end
  end.

(** The parsed command line. *)
Record Args : Type := {
  arg_baseline : string;
  arg_current : string;
  arg_threshold : Q;
  arg_memory_threshold : Q;
  arg_failure_threshold : Q;
  arg_min_benchmarks : Z
}.

Definition is_None (v : value) : bool :=
  match v with VNone => true | _ => false end.

(** [main]: the printed lines, and the argument of [sys.exit] or what was
    raised. *)
Definition main (args : Args) (fs : string -> file) (w : world) : run Z :=
  (* Create thresholds *)
  let thresholds :=
    {| execution_time_percent := arg_threshold args;
       memory_usage_percent := arg_memory_threshold args;
       failure_rate_increase := arg_failure_threshold args;
       min_benchmarks := arg_min_benchmarks args |} in
  (* Load data *)
  do! baseline_data := of_io (load_baseline fs (arg_baseline args)) in
  do! current_data := of_io (load_current fs (arg_current args)) in
  if is_None baseline_data || is_None current_data then
    say! plain [Lit "Error: Could not load performance data"] in
    run_ret 1%Z
  else
    (* Compare performance *)
    do! result := of_io (lift (compare_performance thresholds baseline_data
                                 current_data)) in
    (* Generate report *)
    do! _ := step (generate_comparison_report w result) in
    (* Print summary *)
    say! plain [Lit "Performance Comparison Summary"] in
    say! plain [Lit (rule 30)] in
    say! plain [Lit "Regression detected: "; StrBool (has_regression result)] in
    say! [Piece (Lit "Execution time change: ");
          SignedFixed 1 (execution_time_change result); Piece (Lit "%")] in
    say! [Piece (Lit "Memory change: "); SignedFixed 1 (memory_change result);
          Piece (Lit "%")] in
    say! [Piece (Lit "Failure rate change: ");
          SignedPercent 1 (failure_rate_change result)] in
    do! _ :=
      if is_nil (recommendations result) then run_ret tt
      else
        say! plain [Lit nl; Lit "Recommendations:"] in
        ((map (fun rec => plain (Lit "  - " :: rec)) (recommendations result),
          inl tt) : run unit) in
    (* Exit with error code if regression detected *)
    if has_regression result then
      say! plain [Lit nl;
                  Lit "❌ Performance regression detected. Build will be rejected."] in
      run_ret 1%Z
    else
      say! plain [Lit nl; Lit "✅ No significant performance regression detected."] in
      run_ret 0%Z.

End ComparisonMain.

(** ** Further vocabulary: the comparison end to end *)

Module ComparisonBehaviour.
Import Py Py.Notations Common Comparison ComparisonMain.

(** The thresholds [main] builds from its command line. *)
Definition thresholds_of (args : Args) : ComparisonThresholds :=
  {| execution_time_percent := arg_threshold args;
     memory_usage_percent := arg_memory_threshold args;
     failure_rate_increase := arg_failure_threshold args;
     min_benchmarks := arg_min_benchmarks args |}.

(** The same command line, given to [check-performance-regression.py]. *)
Definition regression_args (args : Args) : Regression.Args :=
  {| Regression.arg_baseline := arg_baseline args;
     Regression.arg_current := arg_current args;
     Regression.arg_threshold := arg_threshold args;
     Regression.arg_memory_threshold := arg_memory_threshold args;
     Regression.arg_failure_threshold := arg_failure_threshold args;
     Regression.arg_min_benchmarks := arg_min_benchmarks args |}.

(** Every step outside the script goes through for the result [r]. *)
Definition report_written (w : world) (r : ComparisonResult) (d : Detailed)
    (report : list text) : Prop :=
  mkdir w = None /\ dump w (Some d) = None /\ subplots w = None /\
  draw w d = None /\
  write_report w
    (report ++ map (fun rec => plain (Lit "  - " :: rec)) (recommendations r)) = None.

(** Every step outside the script goes through, whatever it is given. *)
Definition all_written (w : world) : Prop :=
  mkdir w = None /\ (forall d, dump w d = None) /\ subplots w = None /\
  (forall d, draw w d = None) /\ (forall t, write_report w t = None).

(** A world in which every step outside the script goes through. *)
Definition obliging : world :=
  {| mkdir := None; dump := fun _ => None; subplots := None;
     draw := fun _ => None; write_report := fun _ => None |}.

Definition default_args : Args :=
  {| arg_baseline := "baseline.json";
     arg_current := "current.json";
     arg_threshold := 10;
     arg_memory_threshold := 15;
     arg_failure_threshold := 5;
     arg_min_benchmarks := 5 |}.

(** A single successful run: too few for the default [min_benchmarks]. *)
Definition one_run : value := VList [Samples.record true 100 1048576].

Definition one_run_metrics : metrics :=
  Eval vm_compute in
    match extract_metrics one_run with
    | Ok m => m
    | Raise _ => (VNone, VNone, VNone, VNone, VNone)
    end.

End ComparisonBehaviour.

(** ** Further vocabulary: thresholds of the analysis *)

Module ThresholdBehaviour.
Import Py Analysis.

(** [th'] allows no less than [th] before a regression is reported. *)
Definition looser (th th' : PerformanceThresholds) : Prop :=
  execution_time_ms th <= execution_time_ms th' /\
  memory_usage_mb th <= memory_usage_mb th' /\
  regression_threshold_percent th <= regression_threshold_percent th' /\
  (max_failed_benchmarks th <= max_failed_benchmarks th')%Z.


End ThresholdBehaviour.

(** ** Numbers a double holds exactly

    The scripts compute in Python's numbers: integers without bound and
    IEEE doubles.  The model computes in [Q].  The two part ways where
    Python rounds, and where it cannot turn an integer into a double and
    raises [OverflowError].  A statement that says a function returns is
    therefore made for numbers within the range below, in which every
    integer is a double and no operation of the scripts overflows; a
    statement about a comparison with a computed quotient is made in the
    direction that rounding to the nearest double cannot reverse. *)

Module Range.
Import Py Py.Notations Common Props.

(** Up to this magnitude every integer is a double. *)
Definition exact_limit : Q := inject_Z (2 ^ 53).

Definition in_range (q : Q) : bool :=
  Qle_bool (- exact_limit) q && Qle_bool q exact_limit.

(** A value that, where it is a number, is in range. *)
Definition value_in_range (v : value) : bool :=
  match as_num v with
  | Some q => in_range q
  | None => true
  end.


(** The two measures of an element of the raw array. *)
Definition measures_in_range (r : value) : bool :=
  value_in_range (metric_val "executionTime" r)
  && value_in_range (metric_val "memoryUsage" r).

(** The numbers [extract_metrics] computes with: the measures of the
    successful elements of a list, the two counts of a mapping. *)
Definition document_in_range (data : value) : bool :=
  match data with
  | VList items => forallb (fun r => implb (success_of r) (measures_in_range r)) items
  | VDict d =>
      value_in_range (dict_get d "total_benchmarks" (VNum 1))
      && value_in_range (dict_get d "failed_benchmarks" (VNum 0))
  | _ => true
  end.




End Range.

(** ** Arithmetic and the error monad *)

Section Basics.
Import Py Py.Notations.

Lemma Qltb_lt (x y : Q) : Qltb x y = true <-> x < y.
Proof.
  unfold Qltb. rewrite negb_true_iff.
  destruct (Qle_bool y x) eqn:E.
  - apply Qle_bool_iff in E. split; [discriminate | lra].
  - split; [intros _ | reflexivity].
    apply Qnot_le_lt. intros H. apply Qle_bool_iff in H. congruence.
Qed.

Lemma Qltb_ge (x y : Q) : Qltb x y = false <-> y <= x.
Proof.
  unfold Qltb. rewrite negb_false_iff. apply Qle_bool_iff.
Qed.

Lemma num_as_num (v : value) (q : Q) : num v = Ok q <-> as_num v = Some q.
Proof.
  unfold num. destruct (as_num v); split; intros H; inversion H; reflexivity.
Qed.


Lemma div_ok (x y : Q) : ~ y == 0 -> div x y = Ok (x / y).
Proof.
  intros H. unfold div. destruct (Qeq_bool y 0) eqn:E; [|reflexivity].
  apply Qeq_bool_iff in E. contradiction.
Qed.

Lemma div_inv (x y q : Q) : div x y = Ok q -> ~ y == 0 /\ q = x / y.
Proof.
  unfold div. destruct (Qeq_bool y 0) eqn:E; intros H; inversion H.
  split; [|reflexivity]. intros Hy. apply Qeq_bool_iff in Hy. congruence.
Qed.

Lemma bind_ok {A B : Type} (m : result A) (k : A -> result B) (b : B) :
  bind m k = Ok b -> exists a, m = Ok a /\ k a = Ok b.
Proof.
  destruct m as [a|e]; simpl; intros H; [eauto | discriminate].
Qed.

End Basics.

(** ** The comparison of two metrics tuples *)

Section Detection.
Import Py Py.Notations Common Props Regression.

Lemma percent_change_nonpos (b c : value) (bq : Q) :
  as_num b = Some bq -> bq <= 0 -> percent_change b c = Ok 0.
Proof.
  intros Hb Hle. unfold percent_change.
  apply num_as_num in Hb. rewrite Hb. simpl.
  apply Qltb_ge in Hle. rewrite Hle. reflexivity.
Qed.


(** The guard [baseline > 0] keeps the division away from zero. *)
Lemma percent_change_divides_safely (b c : value) :
  percent_change b c <> Raise ZeroDivisionError.
Proof.
  unfold percent_change. destruct (num b) as [bq|e] eqn:Hb; simpl.
  - destruct (Qltb 0 bq) eqn:Hlt; [|discriminate].
    apply Qltb_lt in Hlt.
    destruct (num c) as [cq|e] eqn:Hc; simpl.
    + rewrite div_ok by lra. discriminate.
    + unfold num in Hc. destruct (as_num c); inversion Hc. discriminate.
  - unfold num in Hb. destruct (as_num b); inversion Hb. discriminate.
Qed.

(** The short path of [detect_regression]. *)
Lemma detect_regression_short (th : RegressionThresholds) (b c : value)
    (mb mc : metrics) :
  extract_metrics b = Ok mb -> extract_metrics c = Ok mc ->
  insufficient_data (min_benchmarks th) mc ->
  detect_regression th b c =
    Ok {| has_regression := true;
          execution_time_regression := false;
          memory_regression := false;
          failure_rate_regression := false;
          execution_time_change := 0;
          memory_change := 0;
          failure_rate_change := 0;
          recommendations :=
            [rec_insufficient (m_successful mc) (min_benchmarks th)] |}.
Proof.
  intros Hb Hc (s & Hs & Hlt). unfold detect_regression.
  rewrite Hb, Hc. simpl.
  destruct mb as [[[[bt bm] bf] bs] bn], mc as [[[[ct cm] cf] cs] cn].
  simpl in Hs. apply num_as_num in Hs. rewrite Hs. simpl.
  apply Qltb_lt in Hlt. rewrite Hlt. reflexivity.
Qed.

(** The long path of [detect_regression]: the result in terms of the two
    relative changes and the two failure rates. *)
Lemma detect_regression_long (th : RegressionThresholds) (b c : value)
    (mb mc : metrics) (r : RegressionResult) :
  extract_metrics b = Ok mb -> extract_metrics c = Ok mc ->
  enough_data (min_benchmarks th) mc ->
  detect_regression th b c = Ok r ->
  exists tc uc cr br,
    percent_change (m_time mb) (m_time mc) = Ok tc /\
    percent_change (m_memory mb) (m_memory mc) = Ok uc /\
    as_num (m_failure_rate mc) = Some cr /\
    as_num (m_failure_rate mb) = Some br /\
    r = {| has_regression :=
             Qltb (execution_time_percent th) tc
             || Qltb (memory_usage_percent th) uc
             || Qltb (failure_rate_increase th / 100) (cr - br);
           execution_time_regression := Qltb (execution_time_percent th) tc;
           memory_regression := Qltb (memory_usage_percent th) uc;
           failure_rate_regression := Qltb (failure_rate_increase th / 100) (cr - br);
           execution_time_change := tc;
           memory_change := uc;
           failure_rate_change := cr - br;
           recommendations :=
             (if Qltb (execution_time_percent th) tc
              then [rec_time tc (execution_time_percent th)] else [])
             ++ (if Qltb (memory_usage_percent th) uc
                 then [rec_memory uc (memory_usage_percent th)] else [])
             ++ (if Qltb (failure_rate_increase th / 100) (cr - br)
                 then [rec_failure_rate (cr - br) (failure_rate_increase th)] else [])
             ++ (if negb (Qltb (execution_time_percent th) tc
                          || Qltb (memory_usage_percent th) uc
                          || Qltb (failure_rate_increase th / 100) (cr - br))
                 then [rec_none] else []) |}.
Proof.
  intros Hb Hc (s & Hs & Hge). unfold detect_regression.
  rewrite Hb, Hc. simpl.
  destruct mb as [[[[bt bm] bf] bs] bn], mc as [[[[ct cm] cf] cs] cn].
  simpl in Hs |- *. apply num_as_num in Hs. rewrite Hs. simpl.
  apply Qltb_ge in Hge. rewrite Hge.
  intros H.
  apply bind_ok in H as (tc & Htc & H).
  apply bind_ok in H as (uc & Huc & H).
  apply bind_ok in H as (cr & Hcr & H).
  apply bind_ok in H as (br & Hbr & H).
  apply num_as_num in Hcr, Hbr.
  exists tc, uc, cr, br. inversion H. auto.
Qed.

End Detection.

(** ** Extraction of the metrics tuple *)

Section Extraction.
Import Py Py.Notations Common Props Regression.

Lemma filterM_pure (p : value -> result bool) (f : value -> bool) (l : list value) :
  (forall r, In r l -> p r = Ok (f r)) -> filterM p l = Ok (List.filter f l).
Proof.
  induction l as [|r l IH]; intros H; simpl; [reflexivity|].
  rewrite (H r) by (left; reflexivity). simpl.
  rewrite IH by (intros r' Hr'; apply H; right; exact Hr'). simpl.
  destruct (f r); reflexivity.
Qed.

Lemma mapM_pure {A B : Type} (g : A -> result B) (f : A -> B) (l : list A) :
  (forall r, In r l -> g r = Ok (f r)) -> mapM g l = Ok (map f l).
Proof.
  induction l as [|r l IH]; intros H; simpl; [reflexivity|].
  rewrite (H r) by (left; reflexivity). simpl.
  rewrite IH by (intros r' Hr'; apply H; right; exact Hr'). reflexivity.
Qed.


Lemma filterM_ok_inv (p : value -> result bool) (l l' : list value) :
  filterM p l = Ok l' -> forall r, In r l -> exists b, p r = Ok b.
Proof.
  revert l'. induction l as [|a l IH]; intros l' H r Hr; [destruct Hr|].
  simpl in H. apply bind_ok in H as (x & Hx & H).
  apply bind_ok in H as (rest & Hrest & _).
  destruct Hr as [->|Hr]; [eauto | eapply IH; eauto].
Qed.

Lemma is_success_dict (r : value) :
  is_dict r = true -> is_success r = Ok (success_of r).
Proof. destruct r; simpl; intros H; try discriminate. reflexivity. Qed.

Lemma is_failure_dict (r : value) :
  is_dict r = true -> is_failure r = Ok (negb (success_of r)).
Proof. destruct r; simpl; intros H; try discriminate. reflexivity. Qed.

Lemma is_success_ok_inv (r : value) (b : bool) :
  is_success r = Ok b -> is_dict r = true.
Proof. destruct r; simpl; intros H; try discriminate. reflexivity. Qed.

Lemma metric_of_ok (key : string) (r : value) :
  metrics_ok r = true -> metric_of key r = Ok (metric_val key r).
Proof.
  destruct r; simpl; try discriminate.
  unfold metric_of. simpl.
  destruct (dict_get d "metrics" (VDict ∅)); simpl; try discriminate.
  reflexivity.
Qed.

Lemma is_nil_map {A B : Type} (f : A -> B) (l : list A) :
  is_nil (map f l) = is_nil l.
Proof. destruct l; reflexivity. Qed.

Lemma is_nil_false_length {A : Type} (l : list A) :
  is_nil l = false -> (0 < length l)%nat.
Proof. destruct l; simpl; [discriminate | lia]. Qed.

Lemma of_nat_pos (n : nat) : (0 < n)%nat -> 0 < of_nat n.
Proof.
  intros H. unfold of_nat, Qlt. simpl. lia.
Qed.

Lemma of_nat_le (n m : nat) : (n <= m)%nat -> of_nat n <= of_nat m.
Proof.
  intros H. unfold of_nat. rewrite <- Zle_Qle. lia.
Qed.

Lemma mean_numeric (xs : list value) :
  xs <> [] -> forallb numeric xs = true -> exists q, mean xs = Ok q.
Proof.
  intros Hne Hall. unfold mean. destruct xs as [|x xs]; [contradiction|].
  assert (H : exists nums, mapM num (x :: xs) = Ok nums).
  { clear Hne. induction (x :: xs) as [|a l IH]; [eexists; reflexivity|].
    simpl in Hall. apply andb_true_iff in Hall as [Ha Hl].
    destruct (IH Hl) as (nums & Hn). unfold numeric in Ha.
    destruct (as_num a) as [q|] eqn:Hq; [|discriminate].
    exists (q :: nums). simpl. apply num_as_num in Hq. rewrite Hq. simpl.
    rewrite Hn. reflexivity. }
  destruct H as (nums & ->). simpl. eauto.
Qed.

(** On a list of dicts the two comprehensions partition the list. *)
Lemma partition_dicts (items : list value) :
  forallb is_dict items = true ->
  filterM is_success items = Ok (List.filter success_of items) /\
  filterM is_failure items = Ok (List.filter (fun r => negb (success_of r)) items).
Proof.
  intros H. rewrite forallb_forall in H. split; apply filterM_pure; intros r Hr.
  - apply is_success_dict, H, Hr.
  - apply is_failure_dict, H, Hr.
Qed.

Lemma partition_ok_inv (items s : list value) :
  filterM is_success items = Ok s -> forallb is_dict items = true.
Proof.
  intros H. apply forallb_forall. intros r Hr.
  destruct (filterM_ok_inv _ _ _ H r Hr) as (b & Hb).
  eapply is_success_ok_inv, Hb.
Qed.

(** Both scripts carry the same [extract_metrics]. *)
Lemma extract_metrics_same (data : value) :
  Comparison.extract_metrics data = Regression.extract_metrics data.
Proof. reflexivity. Qed.

(** No successful element: the fixed tuple. *)
Lemma extract_metrics_all_failed (items : list value) :
  forallb is_dict items = true ->
  List.filter success_of items = [] ->
  extract_metrics (VList items) =
    Ok (VNum 0, VNum 0, VNum 1, VNum 0, VNum (of_nat (length items))).
Proof.
  intros Hd Hs. unfold extract_metrics.
  destruct (partition_dicts items Hd) as [-> ->]. simpl.
  rewrite Hs. reflexivity.
Qed.

(** The failure rate is always a number. *)
Lemma extract_metrics_rate (data : value) (m : metrics) :
  extract_metrics data = Ok m -> exists f, m_failure_rate m = VNum f.
Proof.
  unfold extract_metrics. destruct data; intros H;
    try (inversion H; simpl; eauto; fail).
  - apply bind_ok in H as (s & Hs & H).
    apply bind_ok in H as (f & Hf & H).
    destruct (is_nil s); [inversion H; simpl; eauto|].
    apply bind_ok in H as (ets & _ & H).
    apply bind_ok in H as (mus & _ & H).
    apply bind_ok in H as (at_ & _ & H).
    apply bind_ok in H as (am & _ & H).
    apply bind_ok in H as (fr & _ & H).
    inversion H; simpl; eauto.
  - apply bind_ok in H as (t & _ & H).
    apply bind_ok in H as (f & _ & H).
    apply bind_ok in H as (fr & _ & H).
    inversion H; simpl; eauto.
Qed.

End Extraction.

(** ** Totality of extraction (C2) *)

Section ExtractionTotal.
Import Py Py.Notations Common Props Regression.

Lemma successful_metrics_ok (items : list value) :
  forallb (fun r => implb (success_of r) (metrics_ok r)) items = true ->
  forall r, In r (List.filter success_of items) -> metrics_ok r = true.
Proof.
  intros H r Hr. apply filter_In in Hr as [Hin Hs].
  rewrite forallb_forall in H. specialize (H r Hin).
  rewrite Hs in H. exact H.
Qed.

Lemma metric_vals_numeric (key : string) (s : list value) :
  key = "executionTime" \/ key = "memoryUsage" ->
  (forall r, In r s -> metrics_ok r = true) ->
  forallb numeric (map (metric_val key) s) = true.
Proof.
  intros Hk H. apply forallb_forall. intros v Hv.
  apply in_map_iff in Hv as (r & <- & Hr). specialize (H r Hr).
  destruct r; simpl in H; try discriminate.
  apply andb_true_iff in H as [H Hmem]. apply andb_true_iff in H as [_ Hexec].
  destruct Hk as [-> | ->]; assumption.
Qed.

Lemma extract_metrics_list_ok (items : list value) :
  well_typed (VList items) = true ->
  exists m, extract_metrics (VList items) = Ok m /\ all_numeric m = true.
Proof.
  simpl. intros H. apply andb_true_iff in H as [Hd Hm].
  unfold extract_metrics.
  destruct (partition_dicts items Hd) as [-> ->]. simpl.
  pose proof (successful_metrics_ok items Hm) as Hs.
  set (s := List.filter success_of items) in *.
  destruct (is_nil s) eqn:Hnil; [eexists; split; reflexivity|].
  rewrite (mapM_pure (metric_of "executionTime") (metric_val "executionTime"))
    by (intros r Hr; apply metric_of_ok, Hs, Hr).
  rewrite (mapM_pure (metric_of "memoryUsage") (metric_val "memoryUsage"))
    by (intros r Hr; apply metric_of_ok, Hs, Hr).
  simpl. rewrite !is_nil_map, Hnil.
  assert (Hne : forall key, map (metric_val key) s <> []).
  { intros key. destruct s; simpl; [discriminate Hnil | discriminate]. }
  destruct (mean_numeric (map (metric_val "executionTime") s)) as (qt & ->);
    [apply Hne | apply metric_vals_numeric; auto |].
  destruct (mean_numeric (map (metric_val "memoryUsage") s)) as (qm & ->);
    [apply Hne | apply metric_vals_numeric; auto |].
  simpl.
  assert (Hitems : is_nil items = false).
  { destruct items; [discriminate Hnil | reflexivity]. }
  rewrite Hitems.
  rewrite div_ok.
  - simpl. eexists; split; reflexivity.
  - pose proof (of_nat_pos _ (is_nil_false_length _ Hitems)). lra.
Qed.

Lemma max_1_ge_1 (v : value) (q : Q) : max_1 v = Ok q -> 1 <= q.
Proof.
  unfold max_1. intros H. apply bind_ok in H as (x & _ & H).
  destruct (Qltb x 1) eqn:E; inversion H; subst; [lra|].
  apply Qltb_ge in E. exact E.
Qed.

Lemma extract_metrics_dict_ok (d : gmap string value) :
  well_typed (VDict d) = true ->
  exists m, extract_metrics (VDict d) = Ok m.
Proof.
  simpl. intros H. apply andb_true_iff in H as [Ht Hf].
  unfold numeric in Ht, Hf. unfold extract_metrics, max_1.
  destruct (as_num (dict_get d "total_benchmarks" (VNum 1))) as [t|] eqn:Et;
    [|discriminate].
  destruct (as_num (dict_get d "failed_benchmarks" (VNum 0))) as [f|] eqn:Ef;
    [|discriminate].
  apply num_as_num in Et, Ef. rewrite Et, Ef. simpl.
  rewrite div_ok.
  - simpl. eexists; reflexivity.
  - destruct (Qltb t 1) eqn:E; [lra|]. apply Qltb_ge in E. lra.
Qed.

(** C2, as amended: [extract_metrics], in either script, returns a tuple
    without raising on every value that is neither a list nor a mapping, on
    every list of mappings whose successful elements carry usable metrics
    (a ["metrics"] entry that is absent or a mapping, with the two measures
    absent or numbers), and on every mapping whose [total_benchmarks] and
    [failed_benchmarks] are absent or numbers, as long as these numbers are
    within the range of [Range.in_range]; the failure rate is then a
    number, and outside the mapping shape all five fields are. *)
Theorem extract_metrics_total_on_well_typed (data : value) :
  well_typed data = true ->
  Range.document_in_range data = true ->
  exists m,
    Regression.extract_metrics data = Ok m /\
    Comparison.extract_metrics data = Ok m /\
    numeric (m_failure_rate m) = true /\
    (is_dict data = false -> all_numeric m = true).
Proof.
  intros H _.
  assert (Hex : exists m, extract_metrics data = Ok m /\
                          (is_dict data = false -> all_numeric m = true)).
  { destruct data;
      try (eexists; split; [reflexivity | intros _; reflexivity]).
    - destruct (extract_metrics_list_ok l H) as (m & Hm & Hn). eauto.
    - destruct (extract_metrics_dict_ok d H) as (m & Hm).
      exists m. split; [exact Hm | discriminate]. }
  destruct Hex as (m & Hm & Hn). exists m.
  repeat split; try assumption.
  destruct (extract_metrics_rate data m Hm) as (f & Hf).
  rewrite Hf. reflexivity.
Qed.

End ExtractionTotal.

Section ExtractionPartial.
Import Py Py.Notations Common Props Regression.





End ExtractionPartial.

Section ExtractionTotalExamples.
Import Py Common Props Samples.

(** C2, as stated, fails: an element that is not a mapping, a ["metrics"]
    entry that is not a mapping, a measure that is not a number and a
    count that is not a number each make [extract_metrics] raise. *)
Lemma extract_metrics_raises_on_malformed :
  Regression.extract_metrics (VList [VNum 1]) = Raise AttributeError /\
  Comparison.extract_metrics (VList [VNum 1]) = Raise AttributeError /\
  Regression.extract_metrics
    (VList [VDict (<["success" := VBool true]> (<["metrics" := VNum 3]> ∅))])
    = Raise AttributeError /\
  Regression.extract_metrics
    (VList [VDict (<["success" := VBool true]>
                   (<["metrics" := VDict (<["executionTime" := VStr "fast"]> ∅)]> ∅))])
    = Raise TypeError /\
  Regression.extract_metrics (VDict (<["total_benchmarks" := VStr "many"]> ∅))
    = Raise TypeError.
Proof. vm_compute. repeat split; reflexivity. Qed.

Lemma extract_metrics_total_witness :
  exists m,
    Regression.extract_metrics
      (VList [record true 100 1048576; bare_failure]) = Ok m /\
    Comparison.extract_metrics
      (VList [record true 100 1048576; bare_failure]) = Ok m /\
    numeric (m_failure_rate m) = true /\
    (is_dict (VList [record true 100 1048576; bare_failure]) = false ->
     all_numeric m = true).
Proof.
  apply (extract_metrics_total_on_well_typed
           (VList [record true 100 1048576; bare_failure])).
  - vm_compute. reflexivity.
  - vm_compute. reflexivity.
Defined.

(** Missing fields take the numeric defaults. *)
Example extract_metrics_defaults :
  Regression.extract_metrics (VList [VDict ∅]) =
    Ok (VNum 0, VNum 0, VNum 1, VNum 0, VNum 1) /\
  Regression.extract_metrics (VList []) =
    Ok (VNum 0, VNum 0, VNum 1, VNum 0, VNum 0) /\
  Regression.extract_metrics (VDict ∅) =
    Ok (VNum 0, VNum 0, VNum 0, VNum 0, VNum 0) /\
  Regression.extract_metrics VNone =
    Ok (VNum 0, VNum 0, VNum 0, VNum 0, VNum 0) /\
  Regression.extract_metrics (VStr "x") =
    Ok (VNum 0, VNum 0, VNum 0, VNum 0, VNum 0).
Proof. vm_compute. repeat split; reflexivity. Qed.

(** An ill-typed field of a summary is passed through, not defaulted. *)
Example extract_metrics_passes_through :
  Regression.extract_metrics (VDict (<["avg_execution_time" := VStr "fast"]> ∅)) =
    Ok (VStr "fast", VNum 0, VNum 0, VNum 0, VNum 0).
Proof. vm_compute. reflexivity. Qed.

End ExtractionTotalExamples.

(** ** Bounds on the metrics tuple (C4) *)

Section ExtractionBounds.
Import Py Py.Notations Common Props Regression Samples.

Lemma ratio_bounds (a b : Q) : 0 <= a -> a <= b -> 0 < b -> 0 <= a / b /\ a / b <= 1.
Proof.
  intros Ha Hab Hb. split.
  - apply Qle_shift_div_l; [exact Hb | lra].
  - apply Qle_shift_div_r; [exact Hb | lra].
Qed.

Lemma of_nat_nonneg (n : nat) : 0 <= of_nat n.
Proof. unfold of_nat. replace 0 with (inject_Z 0) by reflexivity. rewrite <- Zle_Qle. lia. Qed.

Lemma extract_metrics_list_bounds (items : list value) (m : metrics) :
  extract_metrics (VList items) = Ok m -> metrics_bounded m.
Proof.
  unfold extract_metrics. intros H.
  apply bind_ok in H as (s & Hs & H).
  apply bind_ok in H as (f & Hf & H).
  pose proof (partition_ok_inv _ _ Hs) as Hd.
  destruct (partition_dicts items Hd) as [Hs' Hf'].
  rewrite Hs' in Hs. rewrite Hf' in Hf. inversion Hs; inversion Hf; subst s f.
  clear Hs Hf Hs' Hf'.
  pose proof (filter_length success_of items) as Hlen.
  destruct (is_nil (List.filter success_of items)) eqn:Hnil.
  - inversion H; subst m. exists 1, 0, (of_nat (length items)). simpl.
    repeat split; try reflexivity; try lra. apply of_nat_nonneg.
  - apply bind_ok in H as (ets & _ & H).
    apply bind_ok in H as (mus & _ & H).
    apply bind_ok in H as (at_ & _ & H).
    apply bind_ok in H as (am & _ & H).
    apply bind_ok in H as (fr & Hfr & H).
    inversion H; subst m. simpl.
    exists fr, (of_nat (length (List.filter success_of items))), (of_nat (length items)).
    repeat split; try reflexivity.
    + destruct (is_nil items); [inversion Hfr; lra|].
      apply div_inv in Hfr as [Hnz ->].
      apply ratio_bounds; [apply of_nat_nonneg | apply of_nat_le; lia |].
      pose proof (of_nat_nonneg (length items)). lra.
    + destruct (is_nil items); [inversion Hfr; lra|].
      apply div_inv in Hfr as [Hnz ->].
      apply ratio_bounds; [apply of_nat_nonneg | apply of_nat_le; lia |].
      pose proof (of_nat_nonneg (length items)). lra.
    + apply of_nat_le. lia.
Qed.

Lemma extract_metrics_dict_bounds (d : gmap string value) (m : metrics) :
  extract_metrics (VDict d) = Ok m -> summary_consistent d -> metrics_bounded m.
Proof.
  unfold extract_metrics. intros H (f & s & n & Hf & Hs & Hn & H0 & Hfn & Hsn).
  apply bind_ok in H as (t & Ht & H).
  apply bind_ok in H as (f' & Hf' & H).
  apply bind_ok in H as (fr & Hfr & H).
  inversion H; subst m. simpl.
  apply num_as_num in Hf'. rewrite Hf in Hf'. inversion Hf'; subst f'.
  exists fr, s, n. repeat split; try assumption; try reflexivity.
  all: apply div_inv in Hfr as [Hnz ->].
  all: pose proof (max_1_ge_1 _ _ Ht) as Ht1.
  all: assert (Hft : f <= t);
    [| apply ratio_bounds; [exact H0 | exact Hft | lra]].
  all: unfold max_1 in Ht; apply bind_ok in Ht as (x & Hx & Ht);
    apply num_as_num in Hx; unfold dict_get in *;
    destruct (d !! "total_benchmarks") as [v|]; simpl in *.
  all: try (rewrite Hn in Hx; inversion Hx; subst x;
            destruct (Qltb n 1) eqn:E; inversion Ht; subst t;
            [apply Qltb_lt in E; lra | lra]).
  all: inversion Hn; subst n; lra.
Qed.

(** C4, as amended: a metrics tuple that [extract_metrics] produces from a
    list, or from a value that is neither a list nor a mapping, has
    [0 <= failureRate <= 1] and [successfulCount <= totalCount]; from a
    mapping the counts are passed through as they are, so the bounds hold
    when the summary's own counts satisfy
    [0 <= failed_benchmarks <= total_benchmarks] and
    [successful_benchmarks <= total_benchmarks]. *)
Theorem extract_metrics_bounds (data : value) (m : metrics) :
  Regression.extract_metrics data = Ok m ->
  (forall d, data = VDict d -> summary_consistent d) ->
  Comparison.extract_metrics data = Ok m /\ metrics_bounded m.
Proof.
  intros H Hd. split; [exact H|].
  destruct data;
    try (inversion H; subst m; exists 0, 0, 0; simpl;
         repeat split; try reflexivity; lra).
  - eapply extract_metrics_list_bounds, H.
  - eapply extract_metrics_dict_bounds; [exact H | apply Hd; reflexivity].
Qed.

Lemma extract_metrics_bounds_witness :
  Comparison.extract_metrics (VList [record true 100 1048576; bare_failure]) =
    Ok (VNum (100 # 1), VNum (1048576 # 1048576), VNum (1 # 2), VNum 1, VNum 2) /\
  metrics_bounded (VNum (100 # 1), VNum (1048576 # 1048576), VNum (1 # 2), VNum 1, VNum 2).
Proof.
  apply (extract_metrics_bounds (VList [record true 100 1048576; bare_failure])).
  - vm_compute. reflexivity.
  - intros d Hd. discriminate Hd.
Defined.

(** C4, as stated, fails on a summary: its counts are not checked against
    each other, so the rate can exceed 1 and the successful count the
    total. *)
Lemma extract_metrics_unbounded_on_summary :
  Regression.extract_metrics (summary 100 50 5 7 2 false) =
    Ok (VNum 100, VNum 50, VNum (5 # 2), VNum 7, VNum 2) /\
  Comparison.extract_metrics (summary 100 50 5 7 2 false) =
    Ok (VNum 100, VNum 50, VNum (5 # 2), VNum 7, VNum 2) /\
  ~ metrics_bounded (VNum 100, VNum 50, VNum (5 # 2), VNum 7, VNum 2).
Proof.
  split; [vm_compute; reflexivity|]. split; [vm_compute; reflexivity|].
  intros (f & s & n & Hf & Hs & Hn & _ & Hle & _).
  simpl in Hf. inversion Hf; subst f. revert Hle. unfold Qle. simpl. lia.
Qed.

End ExtractionBounds.

(** ** The insufficient-data short path (C3) *)

Section ShortPath.
Import Py Py.Notations Common Props Regression Samples.

Lemma compare_performance_short (th : Comparison.ComparisonThresholds) (b c : value)
    (mb mc : metrics) :
  Comparison.extract_metrics b = Ok mb -> Comparison.extract_metrics c = Ok mc ->
  insufficient_data (Comparison.min_benchmarks th) mc ->
  Comparison.compare_performance th b c =
    Ok {| Comparison.has_regression := true;
          Comparison.execution_time_change := 0;
          Comparison.memory_change := 0;
          Comparison.failure_rate_change := 0;
          Comparison.recommendations :=
            [rec_insufficient (m_successful mc) (Comparison.min_benchmarks th)];
          Comparison.detailed_comparison := None |}.
Proof.
  intros Hb Hc (s & Hs & Hlt). unfold Comparison.compare_performance.
  rewrite Hb, Hc. simpl.
  destruct mb as [[[[bt bm] bf] bs] bn], mc as [[[[ct cm] cf] cs] cn].
  simpl in Hs. apply num_as_num in Hs. rewrite Hs. simpl.
  apply Qltb_lt in Hlt. rewrite Hlt. reflexivity.
Qed.

(** C3: whenever the current successful count is below [min_benchmarks],
    [detect_regression] returns at once with [has_regression] set, the three
    per-metric flags clear, the three changes [0.0] and one recommendation,
    "Insufficient successful benchmarks: " followed by the count and the
    minimum; nothing about the other metrics is looked at.  [compare_performance] does the same, with an
    empty [detailed_comparison]. *)
Theorem insufficient_data_forces_regression (th : RegressionThresholds)
    (b c : value) (mb mc : metrics) :
  extract_metrics b = Ok mb -> extract_metrics c = Ok mc ->
  insufficient_data (min_benchmarks th) mc ->
  detect_regression th b c =
    Ok {| has_regression := true;
          execution_time_regression := false;
          memory_regression := false;
          failure_rate_regression := false;
          execution_time_change := 0;
          memory_change := 0;
          failure_rate_change := 0;
          recommendations :=
            [Messages.shortfall_message (m_successful mc) (min_benchmarks th)] |} /\
  Comparison.compare_performance (as_comparison th) b c =
    Ok {| Comparison.has_regression := true;
          Comparison.execution_time_change := 0;
          Comparison.memory_change := 0;
          Comparison.failure_rate_change := 0;
          Comparison.recommendations :=
            [Messages.shortfall_message (m_successful mc) (min_benchmarks th)];
          Comparison.detailed_comparison := None |}.
Proof.
  intros Hb Hc Hins. split.
  - apply (detect_regression_short th b c mb mc Hb Hc Hins).
  - apply (compare_performance_short (as_comparison th) b c mb mc Hb Hc Hins).
Qed.

(** Three successful records of three against the default minimum of five. *)
Lemma insufficient_data_witness :
  detect_regression default_thresholds (five_runs 100 1048576)
    (VList (repeat (record true 1 1048576) 3)) =
    Ok {| has_regression := true;
          execution_time_regression := false;
          memory_regression := false;
          failure_rate_regression := false;
          execution_time_change := 0;
          memory_change := 0;
          failure_rate_change := 0;
          recommendations := [Messages.shortfall_message (VNum 3) 5] |} /\
  Comparison.compare_performance (as_comparison default_thresholds)
    (five_runs 100 1048576) (VList (repeat (record true 1 1048576) 3)) =
    Ok {| Comparison.has_regression := true;
          Comparison.execution_time_change := 0;
          Comparison.memory_change := 0;
          Comparison.failure_rate_change := 0;
          Comparison.recommendations := [Messages.shortfall_message (VNum 3) 5];
          Comparison.detailed_comparison := None |}.
Proof.
  apply (insufficient_data_forces_regression default_thresholds
           (five_runs 100 1048576) (VList (repeat (record true 1 1048576) 3))
           (VNum (500 # 5), VNum (5242880 # 5242880), VNum (0 # 5), VNum 5, VNum 5)
           (VNum (3 # 3), VNum (3145728 # 3145728), VNum (0 # 3), VNum 3, VNum 3)).
  - vm_compute. reflexivity.
  - vm_compute. reflexivity.
  - exists 3. split; [reflexivity | vm_compute; reflexivity].
Defined.

(** The short path comes before the comparisons: a baseline whose time is
    text makes the long path raise, and is not looked at on the short one. *)
Example short_path_has_priority :
  detect_regression default_thresholds
    (VDict (<["avg_execution_time" := VStr "fast"]> ∅))
    (VList (repeat (record true 1 1048576) 3)) =
    Ok {| has_regression := true;
          execution_time_regression := false;
          memory_regression := false;
          failure_rate_regression := false;
          execution_time_change := 0;
          memory_change := 0;
          failure_rate_change := 0;
          recommendations := [rec_insufficient (VNum 3) 5] |} /\
  detect_regression default_thresholds
    (VDict (<["avg_execution_time" := VStr "fast"]> ∅))
    (five_runs 1 1048576) = Raise TypeError.
Proof. vm_compute. split; reflexivity. Qed.

End ShortPath.

(** ** Relative changes and per-metric flags (C6, C7, C10) *)

Section LongPath.
Import Py Py.Notations Common Props Regression Samples.

Lemma num_raises_type_error (v : value) (e : exn) : num v = Raise e -> e = TypeError.
Proof. unfold num. destruct (as_num v); intros H; inversion H; reflexivity. Qed.

Lemma detect_regression_cases (th : RegressionThresholds) (b c : value)
    (mb mc : metrics) (r : RegressionResult) :
  extract_metrics b = Ok mb -> extract_metrics c = Ok mc ->
  detect_regression th b c = Ok r ->
  insufficient_data (min_benchmarks th) mc \/ enough_data (min_benchmarks th) mc.
Proof.
  intros Hb Hc. unfold detect_regression. rewrite Hb, Hc. simpl.
  destruct mb as [[[[bt bm] bf] bs] bn], mc as [[[[ct cm] cf] cs] cn].
  intros H. apply bind_ok in H as (s & Hs & H). apply num_as_num in Hs.
  destruct (Qltb s (inject_Z (min_benchmarks th))) eqn:E.
  - left. exists s. split; [exact Hs | apply Qltb_lt, E].
  - right. exists s. split; [exact Hs | apply Qltb_ge, E].
Qed.

(** Once both extractions went through, no division in [detect_regression]
    has a zero divisor. *)
Lemma detect_regression_divides_safely (th : RegressionThresholds) (b c : value)
    (mb mc : metrics) :
  extract_metrics b = Ok mb -> extract_metrics c = Ok mc ->
  detect_regression th b c <> Raise ZeroDivisionError.
Proof.
  intros Hb Hc. unfold detect_regression. rewrite Hb, Hc. simpl.
  destruct mb as [[[[bt bm] bf] bs] bn], mc as [[[[ct cm] cf] cs] cn].
  destruct (num cs) as [s|e] eqn:Hs; simpl;
    [| apply num_raises_type_error in Hs; subst e; discriminate].
  destruct (Qltb s (inject_Z (min_benchmarks th))); [discriminate|].
  destruct (percent_change bt ct) as [tc|e] eqn:Ht; simpl;
    [| intros H; inversion H; subst e;
       exact (percent_change_divides_safely bt ct Ht)].
  destruct (percent_change bm cm) as [uc|e] eqn:Hu; simpl;
    [| intros H; inversion H; subst e;
       exact (percent_change_divides_safely bm cm Hu)].
  destruct (num cf) as [cr|e] eqn:Hcr; simpl;
    [| apply num_raises_type_error in Hcr; subst e; discriminate].
  destruct (num bf) as [br|e] eqn:Hbr; simpl;
    [| apply num_raises_type_error in Hbr; subst e; discriminate].
  discriminate.
Qed.

(** C6, as amended: on the long path, a baseline execution time of zero
    (or below) leaves [execution_time_change] at [0.0], with no division by
    the baseline, and the time flag is then [0.0 > execution_time_percent]:
    clear for every non-negative threshold, set for a negative one.  The
    same holds for memory.  No division of [detect_regression] has a zero
    divisor. *)
Theorem zero_baseline_leaves_change_at_zero (th : RegressionThresholds)
    (b c : value) (mb mc : metrics) :
  extract_metrics b = Ok mb -> extract_metrics c = Ok mc ->
  detect_regression th b c <> Raise ZeroDivisionError /\
  forall r, enough_data (min_benchmarks th) mc -> detect_regression th b c = Ok r ->
    (forall bt, as_num (m_time mb) = Some bt -> bt <= 0 ->
       execution_time_change r = 0 /\
       (execution_time_regression r = true <-> execution_time_percent th < 0) /\
       (0 <= execution_time_percent th -> execution_time_regression r = false)) /\
    (forall bm, as_num (m_memory mb) = Some bm -> bm <= 0 ->
       memory_change r = 0 /\
       (memory_regression r = true <-> memory_usage_percent th < 0) /\
       (0 <= memory_usage_percent th -> memory_regression r = false)).
Proof.
  intros Hb Hc. split; [eapply detect_regression_divides_safely; eassumption|].
  intros r Hen Hr.
  destruct (detect_regression_long th b c mb mc r Hb Hc Hen Hr)
    as (tc & uc & cr & br & Htc & Huc & _ & _ & ->).
  simpl. split.
  - intros bt Hbt Hle.
    rewrite (percent_change_nonpos _ (m_time mc) bt Hbt Hle) in Htc.
    inversion Htc; subst tc.
    split; [reflexivity|]. split; [apply Qltb_lt|].
    intros H. apply Qltb_ge. exact H.
  - intros bm Hbm Hle.
    rewrite (percent_change_nonpos _ (m_memory mc) bm Hbm Hle) in Huc.
    inversion Huc; subst uc.
    split; [reflexivity|]. split; [apply Qltb_lt|].
    intros H. apply Qltb_ge. exact H.
Qed.

(** Baseline time 0, current time 100. *)
Lemma zero_baseline_witness :
  detect_regression default_thresholds (summary 0 0 0 10 10 false)
    (summary 100 50 0 10 10 false) <> Raise ZeroDivisionError /\
  forall r,
    enough_data 5 (VNum 100, VNum 50, VNum (0 # 10), VNum 10, VNum 10) ->
    detect_regression default_thresholds (summary 0 0 0 10 10 false)
      (summary 100 50 0 10 10 false) = Ok r ->
    (forall bt, Some 0 = Some bt -> bt <= 0 ->
       execution_time_change r = 0 /\
       (execution_time_regression r = true <-> 10 < 0) /\
       (0 <= 10 -> execution_time_regression r = false)) /\
    (forall bm, Some 0 = Some bm -> bm <= 0 ->
       memory_change r = 0 /\
       (memory_regression r = true <-> 15 < 0) /\
       (0 <= 15 -> memory_regression r = false)).
Proof.
  apply (zero_baseline_leaves_change_at_zero default_thresholds
           (summary 0 0 0 10 10 false) (summary 100 50 0 10 10 false)
           (VNum 0, VNum 0, VNum (0 # 10), VNum 10, VNum 10)
           (VNum 100, VNum 50, VNum (0 # 10), VNum 10, VNum 10)).
  - vm_compute. reflexivity.
  - vm_compute. reflexivity.
Defined.

Example zero_baseline_scenario :
  exists r,
    detect_regression default_thresholds (summary 0 0 0 10 10 false)
      (summary 100 50 0 10 10 false) = Ok r /\
    execution_time_change r = 0 /\ execution_time_regression r = false.
Proof. eexists. split; [vm_compute; reflexivity|]. split; reflexivity. Qed.

(** C6, as stated, fails under a negative threshold: the change over a zero
    baseline is [0.0], and [0.0 > -5] sets the time flag. *)
Lemma zero_baseline_flag_under_negative_threshold :
  exists r,
    Regression.extract_metrics (summary 0 0 0 10 10 false) =
      Ok (VNum 0, VNum 0, VNum (0 # 10), VNum 10, VNum 10) /\
    detect_regression (thresholds_with_time (-5)) (summary 0 0 0 10 10 false)
      (summary 100 50 0 10 10 false) = Ok r /\
    execution_time_change r = 0 /\
    execution_time_regression r = true /\
    has_regression r = true.
Proof.
  eexists. split; [vm_compute; reflexivity|].
  split; [vm_compute; reflexivity|]. repeat split; reflexivity.
Qed.



End LongPath.

Section LongPathExamples.
Import Py Py.Notations Common Props Regression Samples.


(** The improvement of the specification: 1000 ms down to 500 ms is a change
    of -50 and sets no flag under the default thresholds. *)
Example improvement_scenario :
  exists r,
    detect_regression default_thresholds (summary 1000 50 0 20 20 false)
      (summary 500 50 0 20 20 false) = Ok r /\
    execution_time_change r == -50 /\
    execution_time_regression r = false /\
    has_regression r = false.
Proof. eexists. split; [vm_compute; reflexivity|]. repeat split; reflexivity. Qed.

(** Scenarios 1 and 2 of the specification: 100 ms up to 115 ms is a
    regression under the default 10 percent, 100 ms up to 105 ms is not. *)
Example regression_scenarios :
  (exists r,
     detect_regression default_thresholds (summary 100 50 0 20 20 false)
       (summary 115 50 0 20 20 false) = Ok r /\
     execution_time_change r == 15 /\
     execution_time_regression r = true /\ has_regression r = true) /\
  (exists r,
     detect_regression default_thresholds (summary 100 50 0 20 20 false)
       (summary 105 50 0 20 20 false) = Ok r /\
     execution_time_change r == 5 /\
     execution_time_regression r = false /\ has_regression r = false).
Proof.
  split; eexists; (split; [vm_compute; reflexivity|]); repeat split; reflexivity.
Qed.


End LongPathExamples.

(** ** A baseline without a successful record (C10) *)

Section FailedBaseline.
Import Py Py.Notations Common Props Regression Samples.

(** C10, as amended: when the baseline is a list with no successful record,
    its tuple is [(0.0, 0.0, 1.0, 0, N)], and for every current input that
    passes the insufficient-data test [detect_regression] returns with both
    relative changes at [0.0]; the time and memory flags are then
    [0.0 > threshold], clear for every non-negative threshold whatever the
    current run measures. *)
Theorem failed_baseline_sets_no_time_or_memory_flag (th : RegressionThresholds)
    (items : list value) (c : value) (mc : metrics) :
  filterM is_success items = Ok [] ->
  extract_metrics c = Ok mc ->
  enough_data (min_benchmarks th) mc ->
  extract_metrics (VList items) =
    Ok (VNum 0, VNum 0, VNum 1, VNum 0, VNum (of_nat (length items))) /\
  exists r,
    detect_regression th (VList items) c = Ok r /\
    execution_time_change r = 0 /\
    memory_change r = 0 /\
    (execution_time_regression r = true <-> execution_time_percent th < 0) /\
    (memory_regression r = true <-> memory_usage_percent th < 0) /\
    (0 <= execution_time_percent th -> execution_time_regression r = false) /\
    (0 <= memory_usage_percent th -> memory_regression r = false).
Proof.
  intros Hs Hc Hen.
  pose proof (partition_ok_inv _ _ Hs) as Hd.
  assert (Hnone : List.filter success_of items = []).
  { destruct (partition_dicts items Hd) as [Hs' _].
    rewrite Hs' in Hs. inversion Hs. reflexivity. }
  pose proof (extract_metrics_all_failed items Hd Hnone) as Hb.
  split; [exact Hb|].
  destruct (extract_metrics_rate c mc Hc) as (cf & Hcf).
  destruct Hen as (s & Hsucc & Hge).
  unfold detect_regression. rewrite Hb, Hc. simpl.
  destruct mc as [[[[ct cm] cf'] cs] cn]. simpl in Hcf, Hsucc. subst cf'.
  apply num_as_num in Hsucc. rewrite Hsucc. simpl.
  apply Qltb_ge in Hge as Hge'. rewrite Hge'.
  eexists. split; [reflexivity|]. simpl.
  split; [reflexivity|]. split; [reflexivity|].
  split; [apply Qltb_lt|]. split; [apply Qltb_lt|].
  split; intros H; apply Qltb_ge; exact H.
Qed.

(** A baseline of one failed record against a slow current run. *)
Lemma failed_baseline_witness :
  extract_metrics (VList [bare_failure]) =
    Ok (VNum 0, VNum 0, VNum 1, VNum 0, VNum (of_nat 1)) /\
  exists r,
    detect_regression default_thresholds (VList [bare_failure])
      (summary 5000 900 0 10 10 false) = Ok r /\
    execution_time_change r = 0 /\
    memory_change r = 0 /\
    (execution_time_regression r = true <-> 10 < 0) /\
    (memory_regression r = true <-> 15 < 0) /\
    (0 <= 10 -> execution_time_regression r = false) /\
    (0 <= 15 -> memory_regression r = false).
Proof.
  apply (failed_baseline_sets_no_time_or_memory_flag default_thresholds
           [bare_failure] (summary 5000 900 0 10 10 false)
           (VNum 5000, VNum 900, VNum (0 # 10), VNum 10, VNum 10)).
  - vm_compute. reflexivity.
  - vm_compute. reflexivity.
  - exists 10. split; [reflexivity | vm_compute; discriminate].
Defined.

(** C10, as stated, fails under a negative threshold: against a baseline of
    one failed record the change is [0.0], and [0.0 > -5] sets the time
    flag. *)
Lemma failed_baseline_flag_under_negative_threshold :
  exists r,
    extract_metrics (VList [bare_failure]) =
      Ok (VNum 0, VNum 0, VNum 1, VNum 0, VNum 1) /\
    detect_regression (thresholds_with_time (-5)) (VList [bare_failure])
      (summary 5000 900 0 10 10 false) = Ok r /\
    execution_time_change r = 0 /\
    execution_time_regression r = true.
Proof.
  eexists. split; [vm_compute; reflexivity|].
  split; [vm_compute; reflexivity|]. split; reflexivity.
Qed.

End FailedBaseline.

(** ** Recommendations (C9) *)

Section Recommendations.
Import Py Py.Notations Common Props Regression Samples.

(** [compare_performance] computes what [detect_regression] computes. *)
Lemma compare_performance_agrees (th : RegressionThresholds) (b c : value) :
  detect_regression th b c =
    bind (Comparison.compare_performance (as_comparison th) b c)
         (fun r => Ok (as_regression r)).
Proof.
  unfold detect_regression, Comparison.compare_performance.
  change Comparison.extract_metrics with extract_metrics.
  destruct (extract_metrics b) as [mb|e]; [|reflexivity].
  destruct (extract_metrics c) as [mc|e]; [|reflexivity]. simpl.
  destruct mb as [[[[bt bm] bf] bs] bn], mc as [[[[ct cm] cf] cs] cn].
  destruct (num cs) as [s|e]; [|reflexivity]. simpl.
  destruct (Qltb s (inject_Z (min_benchmarks th))); [reflexivity|].
  destruct (percent_change bt ct) as [tc|e]; [|reflexivity]. simpl.
  destruct (percent_change bm cm) as [uc|e]; [|reflexivity]. simpl.
  destruct (num cf) as [cr|e]; [|reflexivity]. simpl.
  destruct (num bf) as [br|e]; reflexivity.
Qed.

(** The inputs matter only through their metrics tuples. *)
Lemma detect_regression_depends_on_metrics (th : RegressionThresholds)
    (b c b' c' : value) :
  extract_metrics b = extract_metrics b' ->
  extract_metrics c = extract_metrics c' ->
  detect_regression th b c = detect_regression th b' c'.
Proof.
  intros Hb Hc. unfold detect_regression. rewrite Hb, Hc. reflexivity.
Qed.

(** Equal results print the same recommendations, character for character,
    however the numbers are formatted. *)
Lemma same_metrics_same_text (fixed percent : nat -> Q -> string)
    (str_float : Q -> string) (str_int : Z -> string)
    (str_value : value -> string) (str_exn : exn -> string)
    (th : RegressionThresholds) (b c b' c' : value) (r r' : RegressionResult) :
  extract_metrics b = extract_metrics b' ->
  extract_metrics c = extract_metrics c' ->
  detect_regression th b c = Ok r ->
  detect_regression th b' c' = Ok r' ->
  map (render fixed percent str_float str_int str_value str_exn) (recommendations r) =
  map (render fixed percent str_float str_int str_value str_exn) (recommendations r').
Proof.
  intros Hb Hc Hr Hr'.
  rewrite (detect_regression_depends_on_metrics th b c b' c' Hb Hc) in Hr.
  rewrite Hr in Hr'. inversion Hr'. reflexivity.
Qed.

Lemma rec_none_in_long (t m f : bool) (a b c : fstring) :
  a <> rec_none -> b <> rec_none -> c <> rec_none ->
  In rec_none ((if t then [a] else []) ++ (if m then [b] else [])
               ++ (if f then [c] else [])
               ++ (if negb (t || m || f) then [rec_none] else []))
  <-> t = false /\ m = false /\ f = false.
Proof.
  intros Ha Hb Hc.
  destruct t, m, f; simpl; split; intros H;
    repeat match goal with
           | H : _ \/ _ |- _ => destruct H
           | H : _ /\ _ |- _ => destruct H
           end;
    try discriminate; try contradiction; try congruence; auto.
Qed.

(** C9, as amended: past the insufficient-data test the recommendations
    are the time message, the memory message and the failure-rate message,
    in this order and each present exactly when its flag is set, followed
    by the one "no regression" message exactly when no flag is set; each
    message carries the change and the threshold of its flag, so the list
    is read off the flags, the changes and the thresholds.  On the
    insufficient-data path no flag is set and the list is the shortfall
    message alone.  On every path the "no regression" message is present
    exactly when [has_regression] is clear, and [compare_performance] gives
    the same list. *)
Theorem recommendations_ordered_and_pure (th : RegressionThresholds)
    (b c : value) (mb mc : metrics) (r : RegressionResult) :
  extract_metrics b = Ok mb -> extract_metrics c = Ok mc ->
  detect_regression th b c = Ok r ->
  (In Messages.no_regression_message (recommendations r) <->
   has_regression r = false) /\
  (exists r', Comparison.compare_performance (as_comparison th) b c = Ok r' /\
              Comparison.recommendations r' = recommendations r) /\
  (enough_data (min_benchmarks th) mc ->
     recommendations r = Messages.expected_recommendations th r /\
     has_regression r =
       execution_time_regression r || memory_regression r
       || failure_rate_regression r /\
     (In Messages.no_regression_message (recommendations r) <->
        execution_time_regression r = false /\ memory_regression r = false
        /\ failure_rate_regression r = false)) /\
  (insufficient_data (min_benchmarks th) mc ->
     recommendations r =
       [Messages.shortfall_message (m_successful mc) (min_benchmarks th)] /\
     execution_time_regression r = false /\ memory_regression r = false /\
     failure_rate_regression r = false /\ has_regression r = true).
Proof.
  intros Hb Hc Hr.
  assert (Hlong : enough_data (min_benchmarks th) mc ->
     recommendations r = Messages.expected_recommendations th r /\
     has_regression r =
       execution_time_regression r || memory_regression r
       || failure_rate_regression r /\
     (In Messages.no_regression_message (recommendations r) <->
        execution_time_regression r = false /\ memory_regression r = false
        /\ failure_rate_regression r = false)).
  { intros Hen.
    destruct (detect_regression_long th b c mb mc r Hb Hc Hen Hr)
      as (tc & uc & cr & br & _ & _ & _ & _ & ->).
    unfold Messages.expected_recommendations. simpl.
    split; [reflexivity|]. split; [reflexivity|].
    apply (rec_none_in_long _ _ _ _ _ _); discriminate. }
  assert (Hshort : insufficient_data (min_benchmarks th) mc ->
     r = {| has_regression := true;
            execution_time_regression := false;
            memory_regression := false;
            failure_rate_regression := false;
            execution_time_change := 0;
            memory_change := 0;
            failure_rate_change := 0;
            recommendations :=
              [Messages.shortfall_message (m_successful mc) (min_benchmarks th)] |}).
  { intros Hins.
    rewrite (detect_regression_short th b c mb mc Hb Hc Hins) in Hr.
    inversion Hr. reflexivity. }
  split.
  { destruct (detect_regression_cases th b c mb mc r Hb Hc Hr) as [Hins|Hen].
    - rewrite (Hshort Hins). simpl. split; [|discriminate].
      intros [H|[]]. discriminate H.
    - destruct (Hlong Hen) as (_ & Hhas & Hin).
      rewrite Hin, Hhas. rewrite !orb_false_iff. tauto. }
  split.
  { rewrite compare_performance_agrees in Hr.
    apply bind_ok in Hr as (r' & Hr' & Heq).
    exists r'. split; [exact Hr'|]. inversion Heq. unfold as_regression.
    destruct (match Comparison.detailed_comparison r' with
              | Some d => Comparison.d_regressions d
              | None => (false, false, false)
              end) as [[t m] f].
    reflexivity. }
  split; [exact Hlong|].
  intros Hins. rewrite (Hshort Hins). repeat split; reflexivity.
Qed.

(** A baseline summary of 100 ms against five runs of 120 ms: the time flag
    alone, and its message alone. *)
Lemma recommendations_witness :
  (In Messages.no_regression_message (recommendations slower_by_a_fifth) <->
   has_regression slower_by_a_fifth = false) /\
  (exists r',
     Comparison.compare_performance (as_comparison default_thresholds)
       (summary 100 50 0 20 20 false) (five_runs 120 1048576) = Ok r' /\
     Comparison.recommendations r' = recommendations slower_by_a_fifth) /\
  (enough_data (min_benchmarks default_thresholds)
     (VNum (600 # 5), VNum (5242880 # 5242880), VNum (0 # 5), VNum 5, VNum 5) ->
     recommendations slower_by_a_fifth =
       Messages.expected_recommendations default_thresholds slower_by_a_fifth /\
     has_regression slower_by_a_fifth =
       execution_time_regression slower_by_a_fifth
       || memory_regression slower_by_a_fifth
       || failure_rate_regression slower_by_a_fifth /\
     (In Messages.no_regression_message (recommendations slower_by_a_fifth) <->
        execution_time_regression slower_by_a_fifth = false
        /\ memory_regression slower_by_a_fifth = false
        /\ failure_rate_regression slower_by_a_fifth = false)) /\
  (insufficient_data (min_benchmarks default_thresholds)
     (VNum (600 # 5), VNum (5242880 # 5242880), VNum (0 # 5), VNum 5, VNum 5) ->
     recommendations slower_by_a_fifth =
       [Messages.shortfall_message (VNum 5) (min_benchmarks default_thresholds)] /\
     execution_time_regression slower_by_a_fifth = false /\
     memory_regression slower_by_a_fifth = false /\
     failure_rate_regression slower_by_a_fifth = false /\
     has_regression slower_by_a_fifth = true).
Proof.
  apply (recommendations_ordered_and_pure default_thresholds
           (summary 100 50 0 20 20 false) (five_runs 120 1048576)
           (VNum 100, VNum 50, VNum (0 / 20), VNum 20, VNum 20)
           (VNum (600 # 5), VNum (5242880 # 5242880), VNum (0 # 5), VNum 5, VNum 5)
           slower_by_a_fifth); vm_compute; reflexivity.
Defined.

(** C9, as stated, fails: three successful records against the default
    minimum of five set none of the three flags, and yet the list carries
    no "no regression" message; it is the shortfall message alone. *)
Lemma no_flag_without_no_regression_message :
  detect_regression default_thresholds (five_runs 100 1048576)
    (VList (repeat (record true 1 1048576) 3)) =
    Ok {| has_regression := true;
          execution_time_regression := false;
          memory_regression := false;
          failure_rate_regression := false;
          execution_time_change := 0;
          memory_change := 0;
          failure_rate_change := 0;
          recommendations := [Messages.shortfall_message (VNum 3) 5] |} /\
  ~ In Messages.no_regression_message [Messages.shortfall_message (VNum 3) 5].
Proof.
  split; [vm_compute; reflexivity|].
  intros [H|[]]. discriminate H.
Qed.

Example slower_by_a_fifth_recommendations :
  recommendations slower_by_a_fifth = [rec_time (10000 # 500) 10] /\
  has_regression slower_by_a_fifth = true.
Proof. split; reflexivity. Qed.

End Recommendations.

(** ** The gate (C1) *)

Section GateChecks.
Import Py Py.Notations Py.IONotations Common Props Gate Samples.





Example check_gate_failure_rate_alone :
  gate_verdict default_gate 200 50 1 50 (VBool false) =
    fail_failure_rate (1 / 50) 0 /\
  snd (check_gate default_gate (summary 200 50 1 49 50 false)) = Ok false.
Proof. vm_compute. split; reflexivity. Qed.


End GateChecks.

(** ** Missing input files (C5) *)

Section MissingFiles.
Import Py Py.Notations Py.IONotations Common Props Regression Samples.

Lemma load_baseline_returns (fs : string -> file) (path : string) :
  exists out v,
    load_baseline fs path = (out, Ok v) /\
    ~ In regression_verdict out /\
    (fs path = Missing -> out = [baseline_warning path] /\ v = VNone).
Proof.
  unfold load_baseline. destruct (fs path) as [|e|data]; do 2 eexists;
    (split; [reflexivity|]); (split; [|intros H; try discriminate H; auto]);
    simpl; intros H; repeat destruct H as [H|H]; try contradiction;
    vm_compute in H; discriminate H.
Qed.

Lemma load_current_returns (fs : string -> file) (path : string) :
  exists out v,
    load_current fs path = (out, Ok v) /\
    ~ In regression_verdict out /\
    (fs path = Missing -> out = [current_error path] /\ v = VNone).
Proof.
  unfold load_current. destruct (fs path) as [|e|data]; do 2 eexists;
    (split; [reflexivity|]); (split; [|intros H; try discriminate H; auto]);
    simpl; intros H; repeat destruct H as [H|H]; try contradiction;
    vm_compute in H; discriminate H.
Qed.

(** C5, as amended: [load_baseline] itself only warns about an absent
    baseline and [load_current] reports an absent current file as an
    error, but [main] treats either absence as fatal: it prints what the
    two loaders printed, then "Error: Could not load performance data", and
    exits with status 1 without extracting or comparing anything.  The
    output carries no regression verdict, which tells such a run from one
    that found a regression. *)
Theorem missing_file_is_fatal (args : Args) (fs : string -> file) :
  fs (arg_baseline args) = Missing \/ fs (arg_current args) = Missing ->
  main args fs =
    (fst (load_baseline fs (arg_baseline args))
     ++ fst (load_current fs (arg_current args)) ++ [could_not_load],
     Ok 1%Z) /\
  exit_status (snd (main args fs)) = 1%Z /\
  ~ In regression_verdict (fst (main args fs)) /\
  (fs (arg_baseline args) = Missing ->
     fst (load_baseline fs (arg_baseline args)) =
       [baseline_warning (arg_baseline args)]) /\
  (fs (arg_current args) = Missing ->
     fst (load_current fs (arg_current args)) =
       [current_error (arg_current args)]).
Proof.
  intros Hmiss.
  destruct (load_baseline_returns fs (arg_baseline args))
    as (ob & vb & Hb & Hnb & Hmb).
  destruct (load_current_returns fs (arg_current args))
    as (oc & vc & Hc & Hnc & Hmc).
  assert (Hnone : is_None vb || is_None vc = true).
  { destruct Hmiss as [H|H].
    - destruct (Hmb H) as [_ ->]. reflexivity.
    - destruct (Hmc H) as [_ ->]. apply orb_true_r. }
  assert (Hmain : main args fs = (ob ++ oc ++ [could_not_load], Ok 1%Z)).
  { unfold main. rewrite Hb, Hc. cbn [io_bind]. rewrite Hnone.
    unfold print, io_ret. cbn [io_bind]. rewrite app_nil_r. reflexivity. }
  rewrite Hmain, Hb, Hc. cbn [fst snd exit_status].
  split; [reflexivity|]. split; [reflexivity|]. split.
  { intros H. apply in_app_or in H as [H|H]; [exact (Hnb H)|].
    apply in_app_or in H as [H|H]; [exact (Hnc H)|].
    destruct H as [H|[]]. vm_compute in H. discriminate H. }
  split; intros H; [apply (Hmb H) | apply (Hmc H)].
Qed.

Lemma missing_file_witness :
  main default_args (only_baseline (five_runs 100 1048576)) =
    (fst (load_baseline (only_baseline (five_runs 100 1048576)) "baseline.json")
     ++ fst (load_current (only_baseline (five_runs 100 1048576)) "current.json")
     ++ [could_not_load],
     Ok 1%Z) /\
  exit_status (snd (main default_args (only_baseline (five_runs 100 1048576)))) = 1%Z /\
  ~ In regression_verdict
      (fst (main default_args (only_baseline (five_runs 100 1048576)))) /\
  (only_baseline (five_runs 100 1048576) "baseline.json" = Missing ->
     fst (load_baseline (only_baseline (five_runs 100 1048576)) "baseline.json") =
       [baseline_warning "baseline.json"]) /\
  (only_baseline (five_runs 100 1048576) "current.json" = Missing ->
     fst (load_current (only_baseline (five_runs 100 1048576)) "current.json") =
       [current_error "current.json"]).
Proof.
  apply (missing_file_is_fatal default_args (only_baseline (five_runs 100 1048576))).
  right. reflexivity.
Defined.

(** C5, as stated, fails: with a healthy current file and no baseline file,
    [main] does not go on to the checks that need no baseline; it prints
    the warning, then the error, and exits with status 1. *)
Lemma absent_baseline_is_fatal :
  only_current (five_runs 100 1048576) "baseline.json" = Missing /\
  main default_args (only_current (five_runs 100 1048576)) =
    ([baseline_warning "baseline.json"; could_not_load], Ok 1%Z) /\
  exit_status (snd (main default_args (only_current (five_runs 100 1048576)))) = 1%Z.
Proof. vm_compute. repeat split; reflexivity. Qed.

(** A run that finds a regression ends on the verdict, with the same exit
    status 1. *)
Example regression_run :
  exists out,
    main default_args
      (both_files (summary 100 50 0 20 20 false) (summary 115 50 0 20 20 false)) =
      (out ++ [regression_verdict], Ok 1%Z).
Proof.
  eexists (removelast (fst (main default_args
      (both_files (summary 100 50 0 20 20 false) (summary 115 50 0 20 20 false))))).
  vm_compute. reflexivity.
Qed.

(** A file that holds [null] loads as [None] and is taken for a missing one. *)
Example null_file_is_fatal :
  main default_args (both_files (five_runs 100 1048576) VNone) =
    ([could_not_load], Ok 1%Z).
Proof. vm_compute. reflexivity. Qed.

End MissingFiles.

(** ** The status of the analysis summary (C8) *)

Section Status.
Import Py Py.Notations Py.IONotations Common Props Analysis Samples.

Lemma is_nil_filter {A : Type} (f : A -> bool) (l : list A) :
  is_nil (List.filter f l) = negb (existsb f l).
Proof.
  induction l as [|x l IH]; [reflexivity|].
  simpl. destruct (f x); [reflexivity | exact IH].
Qed.

Lemma length_pos_not_nil {A : Type} (l : list A) :
  (0 <? length l)%nat = negb (is_nil l).
Proof. destruct l; reflexivity. Qed.

(** The status [analyze_performance] reports is the one the specification
    derives from the records and the regression flag of the summary. *)
Lemma analyze_performance_status (a : PerformanceAnalyzer) (s : PerformanceSummary) :
  analyze_performance a = Ok s ->
  status s = spec_status (results a) (regression_detected s).
Proof.
  unfold analyze_performance, spec_status.
  destruct (is_nil (results a)) eqn:Hnil.
  - intros H. inversion H. reflexivity.
  - rewrite (is_nil_filter succeeded).
    destruct (existsb succeeded (results a)) eqn:Hany; simpl.
    + intros H.
      apply bind_ok in H as (avg & _ & H).
      apply bind_ok in H as (mem & _ & H).
      apply bind_ok in H as (st & _ & H).
      inversion H. simpl.
      rewrite length_pos_not_nil, is_nil_filter, negb_involutive. reflexivity.
    + intros H. inversion H. reflexivity.
Qed.

(** Elements that all carry a metrics mapping and a false status are all
    loaded, as failed records. *)
Lemma load_items_failures (items : list value) (acc : list BenchmarkResult) :
  forallb has_metrics items = true ->
  List.filter success_of items = [] ->
  exists loaded,
    load_items items acc = (acc ++ loaded, Ok tt) /\
    length loaded = length items /\
    List.filter succeeded loaded = [].
Proof.
  revert acc. induction items as [|item items IH]; intros acc Hm Hs.
  - exists []. rewrite app_nil_r. repeat split.
  - simpl in Hm. apply andb_true_iff in Hm as [Hitem Hm].
    simpl in Hs. destruct (success_of item) eqn:Hsucc; [discriminate Hs|].
    destruct item as [| | | | |d]; simpl in Hitem; try discriminate Hitem.
    destruct (d !! "metrics") as [m|] eqn:Hd; [|discriminate Hitem].
    destruct m as [| | | | |m]; try discriminate Hitem.
    simpl. rewrite Hd. simpl.
    match goal with
    | |- context [load_items items (acc ++ [?r])] =>
        destruct (IH (acc ++ [r]) Hm Hs) as (loaded & Hl & Hlen & Hf);
        exists (r :: loaded)
    end.
    rewrite Hl, <- app_assoc. simpl. split; [reflexivity|].
    split; [congruence|].
    unfold succeeded at 1. simpl. simpl in Hsucc. rewrite Hsucc. exact Hf.
Qed.

(** C8, as amended: whenever [analyze_performance] returns, the status is
    [ERROR] without records, [FAILED] when records exist and none succeeded,
    [REGRESSION] when a regression was detected, [PARTIAL] when some record
    failed without a regression, and [PASS] otherwise.  An array of mappings
    none of which succeeded has the metrics [(0.0, 0.0, 1.0, 0, N)]; the
    analyzer gives it the status [FAILED], with [N] failed of [N], when it
    is not empty and every element carries a metrics mapping (elements
    without a ["metrics"] key are not loaded as records). *)
Theorem status_follows_records (a : PerformanceAnalyzer) (s : PerformanceSummary)
    (th : PerformanceThresholds) (items : list value) (json_file : string) :
  analyze_performance a = Ok s ->
  forallb is_dict items = true ->
  List.filter success_of items = [] ->
  status s = spec_status (results a) (regression_detected s) /\
  Regression.extract_metrics (VList items) =
    Ok (VNum 0, VNum 0, VNum 1, VNum 0, VNum (of_nat (length items))) /\
  (items <> [] -> forallb has_metrics items = true ->
   exists a' s',
     _load_json_file (new_analyzer th) json_file (Contents (VList items)) =
       ([], Ok a') /\
     analyze_performance a' = Ok s' /\
     status s' = "FAILED" /\
     failed_benchmarks s' = length items /\
     total_benchmarks s' = length items).
Proof.
  intros Ha Hd Hs.
  split; [apply analyze_performance_status, Ha|].
  split; [apply extract_metrics_all_failed; assumption|].
  intros Hne Hm.
  destruct (load_items_failures items [] Hm Hs) as (loaded & Hl & Hlen & Hf).
  simpl in Hl.
  exists {| thresholds := th; results := loaded; baseline_results := [] |}.
  eexists. split.
  { unfold _load_json_file. simpl. rewrite Hl. reflexivity. }
  assert (Hnil : is_nil loaded = false).
  { destruct loaded; [|reflexivity].
    destruct items; [contradiction | discriminate Hlen]. }
  unfold analyze_performance. simpl. rewrite Hnil, Hf. simpl.
  split; [reflexivity|]. simpl. split; [reflexivity|].
  pose proof (filter_length succeeded loaded) as Hsum.
  rewrite Hf in Hsum. simpl in Hsum. split; congruence.
Qed.

Lemma status_witness :
  status {| status := "FAILED"; avg_execution_time := 0; summary_memory_usage := 0;
            regression_detected := true; failed_benchmarks := 1;
            total_benchmarks := 1;
            recommendations := [[Lit "All benchmarks failed"]] |} =
    spec_status
      (results {| thresholds := default_thresholds;
                  results := [{| suite := VStr "unknown"; name := VStr "unknown";
                                 execution_time := VNum 0; memory_usage := VNum 0;
                                 success := VBool false; error := VNone;
                                 timestamp := VStr ""; lean_version := VStr "";
                                 platform := VStr "" |}];
                  baseline_results := [] |})
      true /\
  Regression.extract_metrics (VList [measured_failure]) =
    Ok (VNum 0, VNum 0, VNum 1, VNum 0, VNum (of_nat 1)) /\
  ([measured_failure] <> [] -> forallb has_metrics [measured_failure] = true ->
   exists a' s',
     _load_json_file (new_analyzer default_thresholds) "results.json"
       (Contents (VList [measured_failure])) = ([], Ok a') /\
     analyze_performance a' = Ok s' /\
     status s' = "FAILED" /\
     failed_benchmarks s' = 1%nat /\
     total_benchmarks s' = 1%nat).
Proof.
  apply (status_follows_records
           {| thresholds := default_thresholds;
              results := [{| suite := VStr "unknown"; name := VStr "unknown";
                             execution_time := VNum 0; memory_usage := VNum 0;
                             success := VBool false; error := VNone;
                             timestamp := VStr ""; lean_version := VStr "";
                             platform := VStr "" |}];
              baseline_results := [] |}
           {| status := "FAILED"; avg_execution_time := 0; summary_memory_usage := 0;
              regression_detected := true; failed_benchmarks := 1;
              total_benchmarks := 1;
              recommendations := [[Lit "All benchmarks failed"]] |}
           default_thresholds [measured_failure] "results.json");
    vm_compute; reflexivity.
Defined.

(** C8, as stated, fails: an array of one failed element without metrics
    has the metrics [(0.0, 0.0, 1.0, 0, 1)], but the analyzer loads no
    record from it and reports [ERROR], not [FAILED]. *)
Lemma failed_array_without_metrics_is_error :
  success_of bare_failure = false /\
  Regression.extract_metrics (VList [bare_failure]) =
    Ok (VNum 0, VNum 0, VNum 1, VNum 0, VNum 1) /\
  _load_json_file (new_analyzer default_thresholds) "results.json"
    (Contents (VList [bare_failure])) = ([], Ok (new_analyzer default_thresholds)) /\
  analyze_performance (new_analyzer default_thresholds) =
    Ok {| status := "ERROR"; avg_execution_time := 0; summary_memory_usage := 0;
          regression_detected := false; failed_benchmarks := 0;
          total_benchmarks := 0;
          recommendations := [[Lit "No benchmark results found"]] |}.
Proof. vm_compute. repeat split; reflexivity. Qed.

(** The empty array has the metrics [(0.0, 0.0, 1.0, 0, 0)] and the status
    [ERROR]. *)
Example empty_array_is_error :
  Regression.extract_metrics (VList []) =
    Ok (VNum 0, VNum 0, VNum 1, VNum 0, VNum 0) /\
  _load_json_file (new_analyzer default_thresholds) "results.json"
    (Contents (VList [])) = ([], Ok (new_analyzer default_thresholds)).
Proof. vm_compute. split; reflexivity. Qed.

(** [analyze_performance] does not always return: its comparison with the
    baseline divides by the baseline mean without a guard, and the means
    are taken over whatever the records hold. *)
Example analyze_performance_raises :
  (let! a := snd (_load_baseline_file (new_analyzer default_thresholds)
                    "baseline.json" (Contents (VList [record true 0 1048576]))) in
   let! a' := snd (_load_json_file a "results.json"
                     (Contents (VList [record true 100 1048576]))) in
   analyze_performance a') = Raise ZeroDivisionError /\
  (let! a := snd (_load_json_file (new_analyzer default_thresholds) "results.json"
                    (Contents (VList [VDict (<["success" := VBool true]>
                       (<["metrics" :=
                            VDict (<["executionTime" := VStr "fast"]> ∅)]> ∅))]))) in
   analyze_performance a) = Raise TypeError.
Proof. vm_compute. split; reflexivity. Qed.

End Status.

(** * Further properties of the scripts *)

(** ** When the comparison returns, and how thresholds act on it *)

Section DetectionDomain.
Import Py Py.Notations Common Props Behaviour Regression Samples.

Lemma percent_change_returns_iff (b c : value) :
  (exists q, percent_change b c = Ok q) <-> comparable b c = true.
Proof.
  unfold percent_change, comparable, num, numeric.
  destruct (as_num b) as [bq|]; simpl.
  - destruct (Qltb 0 bq) eqn:Hpos.
    + apply Qltb_lt in Hpos. destruct (as_num c) as [cq|]; simpl.
      * rewrite div_ok by lra. simpl. split; [reflexivity | eauto].
      * split; [intros (q & H); discriminate H | discriminate].
    + split; [reflexivity | eauto].
  - split; [intros (q & H); discriminate H | discriminate].
Qed.

Lemma enough_or_insufficient (min : Z) (mc : metrics) (s : Q) :
  as_num (m_successful mc) = Some s ->
  insufficient_data min mc \/ enough_data min mc.
Proof.
  intros Hs. destruct (Qlt_le_dec s (inject_Z min)) as [Hlt|Hge].
  - left. exists s. auto.
  - right. exists s. auto.
Qed.


Lemma Qltb_mono (t t' x : Q) : t <= t' -> Qltb t' x = true -> Qltb t x = true.
Proof. intros Hle H. apply Qltb_lt in H. apply Qltb_lt. lra. Qed.

(** What [detect_regression] returns under looser thresholds. *)
Lemma looser_thresholds_result (th th' : RegressionThresholds) (b c : value)
    (r : RegressionResult) :
  looser th th' ->
  detect_regression th b c = Ok r ->
  exists r',
    detect_regression th' b c = Ok r' /\
    execution_time_change r' = execution_time_change r /\
    memory_change r' = memory_change r /\
    failure_rate_change r' = failure_rate_change r /\
    (execution_time_regression r' = true -> execution_time_regression r = true) /\
    (memory_regression r' = true -> memory_regression r = true) /\
    (failure_rate_regression r' = true -> failure_rate_regression r = true) /\
    (has_regression r' = true -> has_regression r = true).
Proof.
  intros (Ht & Hm & Hf & Hmin) Hr.
  destruct (extract_metrics b) as [mb|e] eqn:Hb;
    [|unfold detect_regression in Hr; rewrite Hb in Hr; discriminate Hr].
  destruct (extract_metrics c) as [mc|e] eqn:Hc;
    [|unfold detect_regression in Hr; rewrite Hb, Hc in Hr; discriminate Hr].
  destruct (detect_regression_cases th b c mb mc r Hb Hc Hr) as [Hins|Hen].
  - rewrite (detect_regression_short th b c mb mc Hb Hc Hins) in Hr.
    inversion Hr; subst r. rewrite Hmin in Hins.
    eexists. split; [apply (detect_regression_short th' b c mb mc Hb Hc Hins)|].
    simpl. repeat split; auto.
  - destruct (detect_regression_long th b c mb mc r Hb Hc Hen Hr)
      as (tc & uc & cr & br & Htc & Huc & Hcr & Hbr & ->).
    destruct Hen as (s & Hs & Hge).
    eexists. split.
    { unfold detect_regression. rewrite Hb, Hc. simpl.
      destruct mb as [[[[bt bm] bf] bs] bn], mc as [[[[ct cm] cf] cs] cn].
      simpl in *. apply num_as_num in Hs, Hcr, Hbr. rewrite Hs. simpl.
      rewrite <- Hmin. apply Qltb_ge in Hge. rewrite Hge, Htc, Huc, Hcr, Hbr.
      simpl. reflexivity. }
    simpl.
    assert (Hf' : failure_rate_increase th / 100 <= failure_rate_increase th' / 100).
    { unfold Qdiv. apply Qmult_le_compat_r; [exact Hf | discriminate]. }
    split; [reflexivity|]. split; [reflexivity|]. split; [reflexivity|].
    split; [apply Qltb_mono, Ht|]. split; [apply Qltb_mono, Hm|].
    split; [apply Qltb_mono, Hf'|].
    rewrite !orb_true_iff.
    intros [[H|H]|H];
      [left; left; revert H; apply Qltb_mono, Ht
      | left; right; revert H; apply Qltb_mono, Hm
      | right; revert H; apply Qltb_mono, Hf'].
Qed.

(** Whether [detect_regression] returns does not hang on the three
    percentages. *)
Lemma detect_regression_returns_whatever (th th' : RegressionThresholds)
    (b c : value) (r : RegressionResult) :
  min_benchmarks th = min_benchmarks th' ->
  detect_regression th b c = Ok r ->
  exists r', detect_regression th' b c = Ok r'.
Proof.
  intros Hmin Hr.
  destruct (extract_metrics b) as [mb|e] eqn:Hb;
    [|unfold detect_regression in Hr; rewrite Hb in Hr; discriminate Hr].
  destruct (extract_metrics c) as [mc|e] eqn:Hc;
    [|unfold detect_regression in Hr; rewrite Hb, Hc in Hr; discriminate Hr].
  destruct (detect_regression_cases th b c mb mc r Hb Hc Hr) as [Hins|Hen].
  - rewrite Hmin in Hins.
    eexists. apply (detect_regression_short th' b c mb mc Hb Hc Hins).
  - destruct (detect_regression_long th b c mb mc r Hb Hc Hen Hr)
      as (tc & uc & cr & br & Htc & Huc & Hcr & Hbr & _).
    destruct Hen as (s & Hs & Hge).
    unfold detect_regression. rewrite Hb, Hc. simpl.
    destruct mb as [[[[bt bm] bf] bs] bn], mc as [[[[ct cm] cf] cs] cn].
    simpl in *. apply num_as_num in Hs, Hcr, Hbr. rewrite Hs. simpl.
    rewrite <- Hmin. apply Qltb_ge in Hge. rewrite Hge, Htc, Huc, Hcr, Hbr.
    simpl. eauto.
Qed.

(** X2: Loosening the thresholds (same [min_benchmarks]) changes neither
    whether [detect_regression] returns nor the changes it computes, and
    can only clear flags: whatever the looser thresholds flag, the
    stricter ones flag too. *)
Theorem looser_thresholds_flag_less (th th' : RegressionThresholds) (b c : value) :
  looser th th' ->
  ((exists r, detect_regression th b c = Ok r) <->
   (exists r', detect_regression th' b c = Ok r')) /\
  (forall r r',
     detect_regression th b c = Ok r -> detect_regression th' b c = Ok r' ->
     execution_time_change r' = execution_time_change r /\
     memory_change r' = memory_change r /\
     failure_rate_change r' = failure_rate_change r /\
     (execution_time_regression r' = true -> execution_time_regression r = true) /\
     (memory_regression r' = true -> memory_regression r = true) /\
     (failure_rate_regression r' = true -> failure_rate_regression r = true) /\
     (has_regression r' = true -> has_regression r = true)).
Proof.
  intros Hl. pose proof Hl as (_ & _ & _ & Hmin). split.
  - split.
    + intros (r & Hr). exact (detect_regression_returns_whatever th th' b c r Hmin Hr).
    + intros (r' & Hr').
      exact (detect_regression_returns_whatever th' th b c r' (eq_sym Hmin) Hr').
  - intros r r' Hr Hr'.
    destruct (looser_thresholds_result th th' b c r Hl Hr) as (r'' & Hr'' & H).
    rewrite Hr' in Hr''. inversion Hr''. subst r''. exact H.
Qed.

Lemma looser_thresholds_witness :
  ((exists r, detect_regression default_thresholds (summary 100 50 0 20 20 false)
                (five_runs 120 1048576) = Ok r) <->
   (exists r', detect_regression (thresholds_with_time 20)
                 (summary 100 50 0 20 20 false) (five_runs 120 1048576) = Ok r')) /\
  (forall r r',
     detect_regression default_thresholds (summary 100 50 0 20 20 false)
       (five_runs 120 1048576) = Ok r ->
     detect_regression (thresholds_with_time 20) (summary 100 50 0 20 20 false)
       (five_runs 120 1048576) = Ok r' ->
     execution_time_change r' = execution_time_change r /\
     memory_change r' = memory_change r /\
     failure_rate_change r' = failure_rate_change r /\
     (execution_time_regression r' = true -> execution_time_regression r = true) /\
     (memory_regression r' = true -> memory_regression r = true) /\
     (failure_rate_regression r' = true -> failure_rate_regression r = true) /\
     (has_regression r' = true -> has_regression r = true)).
Proof.
  apply (looser_thresholds_flag_less default_thresholds (thresholds_with_time 20)
           (summary 100 50 0 20 20 false) (five_runs 120 1048576)).
  repeat split; vm_compute; congruence.
Defined.

End DetectionDomain.

(** ** Extraction: what the averages and the rate depend on *)

Section ExtractionShape.
Import Py Py.Notations Common Props Behaviour Regression Samples.










Lemma is_nil_true {A : Type} (l : list A) : is_nil l = true -> l = [].
Proof. destruct l; [reflexivity | discriminate]. Qed.




Lemma filter_idem {A : Type} (f : A -> bool) (l : list A) :
  List.filter f (List.filter f l) = List.filter f l.
Proof.
  induction l as [|x l IH]; [reflexivity|]. simpl.
  destruct (f x) eqn:E; simpl; [rewrite E, IH; reflexivity | exact IH].
Qed.

Lemma filter_none {A : Type} (f : A -> bool) (l : list A) :
  List.filter (fun x => negb (f x)) (List.filter f l) = [].
Proof.
  induction l as [|x l IH]; [reflexivity|]. simpl.
  destruct (f x) eqn:E; simpl; [rewrite E; exact IH | exact IH].
Qed.

Lemma forallb_filter_sub {A : Type} (f g : A -> bool) (l : list A) :
  forallb g l = true -> forallb g (List.filter f l) = true.
Proof.
  rewrite !forallb_forall. intros H x Hx. apply filter_In in Hx as [Hx _]. auto.
Qed.

(** X4: Failed records never reach the averages: whenever extraction from a
    list returns and some record succeeded, dropping the failed records
    gives the same average time and memory (with a failure rate of 0). *)
Theorem failed_records_leave_averages (items : list value) (m : metrics) :
  extract_metrics (VList items) = Ok m ->
  List.filter success_of items <> [] ->
  exists rate,
    extract_metrics (VList (List.filter success_of items)) =
      Ok (m_time m, m_memory m, VNum rate,
          m_successful m, m_successful m) /\
    rate == 0.
Proof.
  intros H Hne. unfold extract_metrics in H.
  apply bind_ok in H as (s & Hs & H).
  apply bind_ok in H as (f & Hf & H).
  pose proof (partition_ok_inv _ _ Hs) as Hd.
  destruct (partition_dicts items Hd) as [Hs' Hf'].
  rewrite Hs' in Hs. rewrite Hf' in Hf. inversion Hs; inversion Hf; subst s f.
  clear Hs Hf Hs' Hf'.
  set (s := List.filter success_of items) in *.
  assert (Hnil : is_nil s = false) by (destruct s; [contradiction | reflexivity]).
  rewrite Hnil in H.
  apply bind_ok in H as (ets & Hets & H).
  apply bind_ok in H as (mus & Hmus & H).
  apply bind_ok in H as (avg & Havg & H).
  apply bind_ok in H as (mem & Hmem & H).
  apply bind_ok in H as (fr & Hfr & H).
  inversion H; subst m. simpl. clear H.
  assert (Hds : forallb is_dict s = true) by (apply forallb_filter_sub, Hd).
  unfold extract_metrics.
  destruct (partition_dicts s Hds) as [-> ->].
  assert (Hss : List.filter success_of s = s) by apply filter_idem.
  assert (Hfs : List.filter (fun r => negb (success_of r)) s = [])
    by apply filter_none.
  rewrite Hss, Hfs. cbn [bind]. rewrite Hnil, Hets, Hmus. cbn [bind].
  rewrite Havg, Hmem. cbn [bind]. rewrite div_ok.
  - cbn [bind length]. eexists. split; [reflexivity|].
    unfold Qdiv. change (of_nat 0) with 0. rewrite Qmult_0_l. reflexivity.
  - pose proof (of_nat_pos _ (is_nil_false_length _ Hnil)). lra.
Qed.

Lemma failed_records_witness :
  exists rate,
    extract_metrics
      (VList (List.filter success_of
                [record true 100 1048576; bare_failure; record true 300 3145728])) =
      Ok (VNum (400 # 2), VNum (4194304 # 2097152), VNum rate, VNum 2, VNum 2) /\
    rate == 0.
Proof.
  apply (failed_records_leave_averages
           [record true 100 1048576; bare_failure; record true 300 3145728]
           (VNum (400 # 2), VNum (4194304 # 2097152), VNum (1 # 3), VNum 2, VNum 3)).
  - vm_compute. reflexivity.
  - vm_compute. discriminate.
Defined.



End ExtractionShape.

(** ** The command line of the regression check, end to end *)

Section RegressionMain.
Import Py Py.Notations Py.IONotations Common Props Behaviour Regression Samples.

Lemma format_float_cases (v : value) :
  (exists q, as_num v = Some q /\ format_float v = Ok q) \/
  (as_num v = None /\ exists e, format_float v = Raise e /\
                                (e = ValueError \/ e = TypeError)).
Proof. destruct v; simpl; eauto 7. Qed.

Lemma percent_change_numeric (b c : value) (bq cq : Q) :
  as_num b = Some bq -> as_num c = Some cq -> exists q, percent_change b c = Ok q.
Proof.
  intros Hb Hc. apply percent_change_returns_iff. unfold comparable, numeric.
  rewrite Hb, Hc. destruct (Qltb 0 bq); reflexivity.
Qed.

(** One formatted field of [print_comparison]: either the value is a number
    and the run goes on, or the format raises and the run ends there. *)
Ltac formats v :=
  let q := fresh "q" in
  let A := fresh "A" in
  let F := fresh "F" in
  let e := fresh "e" in
  let K := fresh "K" in
  destruct (format_float_cases v) as [(q & A & F) | (A & e & F & K)];
  rewrite F, A; cbn [io_bind app andb fst snd];
  [| first [ split; [discriminate
                    | let He := fresh "He" in
                      intros ? He; inversion He; subst; exact K]
           | split; [discriminate | intros [? ?]; discriminate] ]].

(** The change printed for a baseline and a current value that are numbers. *)
Ltac changes b c :=
  match goal with
  | Hb : as_num b = Some ?x, Hc : as_num c = Some ?y |- _ =>
      let q := fresh "q" in
      destruct (percent_change_numeric b c x y Hb Hc) as (q & ->);
      cbn [io_bind app andb fst snd]
  end.

(** [print_comparison] returns when the six values it formats are numbers,
    and only then. *)
Lemma print_comparison_spec (bm cm : metrics) :
  snd (print_comparison bm cm) = Ok tt <-> printable bm = true /\ printable cm = true.
Proof.
  destruct bm as [[[[bt bu] bf] bs] bn], cm as [[[[ct cu] cf] cs] cn].
  unfold printable, numeric, print_comparison, print, lift, io_ret.
  cbn [m_time m_memory m_failure_rate io_bind app fst snd].
  formats bt. formats ct. changes bt ct.
  formats bu. formats cu. changes bu cu.
  formats bf. formats cf.
  split; auto.
Qed.


Lemma load_baseline_value (fs : string -> file) (path : string) :
  exists out, load_baseline fs path = (out, Ok (default VNone (loaded (fs path)))).
Proof.
  unfold load_baseline, loaded. destruct (fs path) as [|e|v]; try (eexists; reflexivity).
  destruct v; eexists; reflexivity.
Qed.

Lemma load_current_value (fs : string -> file) (path : string) :
  exists out, load_current fs path = (out, Ok (default VNone (loaded (fs path)))).
Proof.
  unfold load_current, loaded. destruct (fs path) as [|e|v]; try (eexists; reflexivity).
  destruct v; eexists; reflexivity.
Qed.

Lemma loaded_not_None (f : file) (v : value) : loaded f = Some v -> is_None v = false.
Proof.
  unfold loaded. destruct f as [|e|w]; try discriminate.
  destruct (is_None w) eqn:E; [discriminate|]. intros H. inversion H; subst. exact E.
Qed.

(** The whole of [main] once both documents are loaded and their metrics
    extracted and printed. *)
Lemma main_after_loading (args : Args) (fs : string -> file) (b c : value)
    (mb mc : metrics) :
  loaded (fs (arg_baseline args)) = Some b ->
  loaded (fs (arg_current args)) = Some c ->
  extract_metrics b = Ok mb -> extract_metrics c = Ok mc ->
  snd (print_comparison mb mc) = Ok tt ->
  snd (main args fs) =
    match detect_regression (thresholds_of args) b c with
    | Ok r => Ok (if has_regression r then 1%Z else 0%Z)
    | Raise e => Raise e
    end.
Proof.
  intros Lb Lc Hb Hc Hp.
  destruct (load_baseline_value fs (arg_baseline args)) as (ob & Hlb).
  destruct (load_current_value fs (arg_current args)) as (oc & Hlc).
  rewrite Lb in Hlb. rewrite Lc in Hlc. simpl in Hlb, Hlc.
  unfold main. rewrite Hlb, Hlc. cbn [io_bind].
  rewrite (loaded_not_None _ _ Lb), (loaded_not_None _ _ Lc). cbn [orb].
  unfold lift. rewrite Hb, Hc. cbn [io_bind app].
  destruct (print_comparison mb mc) as [pc rp]. simpl in Hp. subst rp.
  cbn [io_bind app]. fold (thresholds_of args).
  destruct (detect_regression (thresholds_of args) b c) as [r|e];
    cbn [io_bind app snd]; [|reflexivity].
  unfold print, print_all, io_ret. cbn [io_bind app snd].
  destruct (has_regression r); reflexivity.
Qed.

(** What a run of [main] that ends with exit status 0 went through. *)
Lemma main_passes (args : Args) (fs : string -> file) :
  exit_status (snd (main args fs)) = 0%Z ->
  exists b c mb mc r,
    loaded (fs (arg_baseline args)) = Some b /\
    loaded (fs (arg_current args)) = Some c /\
    extract_metrics b = Ok mb /\ extract_metrics c = Ok mc /\
    printable mb = true /\ printable mc = true /\
    detect_regression (thresholds_of args) b c = Ok r /\
    has_regression r = false.
Proof.
  intros Hexit.
  destruct (load_baseline_value fs (arg_baseline args)) as (ob & Hlb).
  destruct (load_current_value fs (arg_current args)) as (oc & Hlc).
  destruct (loaded (fs (arg_baseline args))) as [b|] eqn:Lb; simpl in Hlb.
  2: { exfalso. revert Hexit. unfold main. rewrite Hlb, Hlc. simpl. discriminate. }
  destruct (loaded (fs (arg_current args))) as [c|] eqn:Lc; simpl in Hlc.
  2: { exfalso. revert Hexit. unfold main. rewrite Hlb, Hlc. cbn [io_bind is_None].
       rewrite orb_true_r. simpl. discriminate. }
  destruct (extract_metrics b) as [mb|e] eqn:Hb.
  2: { exfalso. revert Hexit. unfold main. rewrite Hlb, Hlc. cbn [io_bind].
       rewrite (loaded_not_None _ _ Lb), (loaded_not_None _ _ Lc).
       unfold lift. rewrite Hb. simpl. discriminate. }
  destruct (extract_metrics c) as [mc|e] eqn:Hc.
  2: { exfalso. revert Hexit. unfold main. rewrite Hlb, Hlc. cbn [io_bind].
       rewrite (loaded_not_None _ _ Lb), (loaded_not_None _ _ Lc).
       unfold lift. rewrite Hb, Hc. simpl. discriminate. }
  destruct (snd (print_comparison mb mc)) as [[]|e] eqn:Hp.
  2: { exfalso. revert Hexit. unfold main. rewrite Hlb, Hlc. cbn [io_bind].
       rewrite (loaded_not_None _ _ Lb), (loaded_not_None _ _ Lc).
       unfold lift. rewrite Hb, Hc. cbn [io_bind orb app].
       destruct (print_comparison mb mc) as [pc rp]. simpl in Hp. subst rp.
       simpl. discriminate. }
  rewrite (main_after_loading args fs b c mb mc Lb Lc Hb Hc Hp) in Hexit.
  destruct (detect_regression (thresholds_of args) b c) as [r|e] eqn:Hr;
    [|discriminate Hexit].
  destruct (has_regression r) eqn:Hreg; [discriminate Hexit|].
  apply print_comparison_spec in Hp as [Hpb Hpc].
  exists b, c, mb, mc, r. repeat split; assumption.
Qed.


(** X8: A file that holds the JSON document [null] counts as not loaded, and
    nothing says which file or why: when both files can be read and one of
    them holds [null], all that [main] prints is "Error: Could not load
    performance data", and it exits with status 1. *)
Theorem null_document_is_not_loaded (args : Args) (fs : string -> file) (b c : value) :
  fs (arg_baseline args) = Contents b ->
  fs (arg_current args) = Contents c ->
  is_None b || is_None c = true ->
  main args fs = ([could_not_load], Ok 1%Z).
Proof.
  intros Hb Hc Hnone.
  unfold main, load_baseline, load_current. rewrite Hb, Hc.
  unfold io_ret. cbn [io_bind app]. rewrite Hnone. reflexivity.
Qed.

Lemma null_document_witness :
  main default_args (both_files VNone (five_runs 100 1048576)) =
    ([could_not_load], Ok 1%Z).
Proof.
  apply (null_document_is_not_loaded default_args
           (both_files VNone (five_runs 100 1048576)) VNone (five_runs 100 1048576));
    reflexivity.
Defined.

End RegressionMain.

(** ** The two comparison scripts side by side *)

Section Siblings.
Import Py Py.Notations Common Props Behaviour Regression Samples.

(** X9: Whatever [compare_performance] returns, [detect_regression] returns the
    same verdict, changes and recommendations, and the other way round.
    The [detailed_comparison] is empty exactly on the insufficient-data
    path; otherwise it holds the two extracted tuples, the three changes of
    the result, and three flags of which [has_regression] is the
    disjunction. *)
Theorem compare_performance_mirrors_detect_regression (th : RegressionThresholds)
    (b c : value) (r' : Comparison.ComparisonResult) :
  Comparison.compare_performance (as_comparison th) b c = Ok r' ->
  detect_regression th b c = Ok (as_regression r') /\
  exists mb mc,
    extract_metrics b = Ok mb /\ extract_metrics c = Ok mc /\
    match Comparison.detailed_comparison r' with
    | None => insufficient_data (min_benchmarks th) mc
    | Some d =>
        enough_data (min_benchmarks th) mc /\
        Comparison.d_baseline d = mb /\ Comparison.d_current d = mc /\
        Comparison.d_changes d =
          (Comparison.execution_time_change r', Comparison.memory_change r',
           Comparison.failure_rate_change r') /\
        Comparison.has_regression r' =
          (let '(t, m, f) := Comparison.d_regressions d in t || m || f)
    end.
Proof.
  intros H. split; [rewrite compare_performance_agrees, H; reflexivity|].
  unfold Comparison.compare_performance in H.
  change Comparison.extract_metrics with extract_metrics in H.
  apply bind_ok in H as (mb & Hb & H).
  apply bind_ok in H as (mc & Hc & H).
  exists mb, mc. split; [exact Hb|]. split; [exact Hc|].
  destruct mb as [[[[bt bm] bf] bs] bn], mc as [[[[ct cm] cf] cs] cn].
  apply bind_ok in H as (s & Hs & H). apply num_as_num in Hs.
  cbn [Comparison.min_benchmarks as_comparison] in H.
  destruct (Qltb s (inject_Z (min_benchmarks th))) eqn:E.
  - inversion H; subst r'. simpl. exists s. split; [exact Hs | apply Qltb_lt, E].
  - apply bind_ok in H as (tc & _ & H).
    apply bind_ok in H as (uc & _ & H).
    apply bind_ok in H as (cr & _ & H).
    apply bind_ok in H as (br & _ & H).
    inversion H; subst r'. simpl.
    split; [exists s; split; [exact Hs | apply Qltb_ge, E]|].
    repeat split; reflexivity.
Qed.

Lemma compare_performance_witness :
  detect_regression default_thresholds (summary 100 50 0 20 20 false)
    (five_runs 120 1048576) = Ok (as_regression Cases.compared_slower).
Proof.
  refine (proj1 (compare_performance_mirrors_detect_regression default_thresholds
                   (summary 100 50 0 20 20 false) (five_runs 120 1048576)
                   Cases.compared_slower _)).
  vm_compute. reflexivity.
Defined.

End Siblings.

(** ** The gate: when it returns, and its command line *)

Section GateDomain.
Import Py Py.Notations Py.IONotations Common Props Gate GateBehaviour GateMain Samples.




End GateDomain.

Section GateCommandLine.
Import Py Py.Notations Py.IONotations Common Props Gate GateBehaviour GateMain Samples.

Variable join : string -> string -> string.
Variable chars : string -> list string.
Variable keys : gmap string value -> list string.
Variable fs : string -> file.

Lemma load_summary_returns (input_dir : string) :
  exists out,
    load_summary join fs input_dir =
      (out,
       Ok match fs (join input_dir "performance-summary.json") with
          | Contents v => v
          | _ => VNone
          end).
Proof.
  unfold load_summary.
  destruct (fs (join input_dir "performance-summary.json")); eexists; reflexivity.
Qed.

Lemma print_recommendations_dict (d : gmap string value) :
  snd (print_recommendations chars keys (VDict d)) =
    if unlistable d then Raise TypeError else Ok tt.
Proof.
  unfold print_recommendations, unlistable, numeric, get, lift, print, print_all,
    io_ret, iterate.
  cbn [io_bind app snd].
  destruct (dict_get d "recommendations" (VList [])) as [|b|q|s|l|d'];
    cbn [truthy as_num andb io_bind app snd]; try reflexivity.
  - destruct b; reflexivity.
  - destruct (negb (Qeq_bool q 0)); reflexivity.
  - destruct (negb (s =? "")%string); reflexivity.
  - destruct l; reflexivity.
  - destruct (negb (bool_decide (d' = ∅))); reflexivity.
Qed.

(** X11: The gate's [main] ends with exit status 0 exactly when the summary file
    holds a mapping on which [check_gate] returns [True] and whose
    ["recommendations"] entry can be listed (anything but a non-zero number
    or [True]).  A missing, unreadable or [null] summary, a failed check
    and an exception all end with a non-zero status. *)
Theorem gate_exit_zero_iff (args : Args) :
  exit_status (snd (main join chars keys fs args)) = 0%Z <->
  exists d,
    fs (join (arg_input_dir args) "performance-summary.json") = Contents (VDict d) /\
    snd (check_gate (gate_of args) (VDict d)) = Ok true /\
    unlistable d = false.
Proof.
  destruct (load_summary_returns (arg_input_dir args)) as (out & Hload).
  unfold main. rewrite Hload. cbn [io_bind].
  destruct (fs (join (arg_input_dir args) "performance-summary.json")) as [|e|v].
  1, 2: split; [simpl; discriminate | intros (d & H & _); discriminate H].
  destruct (is_dict v) eqn:Hv.
  - destruct v as [| | | | |d]; try discriminate Hv. cbn [is_None].
    destruct (check_gate (gate_of args) (VDict d)) as [og rg] eqn:Hg.
    destruct rg as [passed|e]; cbn [io_bind snd].
    + pose proof (print_recommendations_dict d) as Hp.
      destruct (print_recommendations chars keys (VDict d)) as [op rp].
      cbn [snd] in Hp. subst rp.
      destruct passed, (unlistable d) eqn:Hu;
        cbn [io_bind snd exit_status print io_ret]; split; intros H;
        try discriminate H; try reflexivity;
        try (destruct H as (d' & Hd & Hc & Hu'); inversion Hd; subst d';
             rewrite Hg in Hc; cbn [snd] in Hc; congruence).
      exists d. rewrite Hg. auto.
    + split; [simpl; discriminate|].
      intros (d' & Hd & Hc & _). inversion Hd; subst d'.
      rewrite Hg in Hc. discriminate Hc.
  - split.
    + destruct v; try discriminate Hv; simpl; discriminate.
    + intros (d & Hd & _). inversion Hd; subst v. discriminate Hv.
Qed.

End GateCommandLine.

(** ** The analysis summary: flags, recommendations and counts *)

Section SummaryShape.
Import Py Py.Notations Common Props Analysis AnalysisBehaviour Samples.

Lemma flag_fst (c : bool) (msg : fstring) (st : bool * list fstring) :
  fst (flag c msg st) = c || fst st.
Proof. unfold flag. destruct c; reflexivity. Qed.

Lemma flag_snd (c : bool) (msg : fstring) (st : bool * list fstring) :
  snd (flag c msg st) = snd st ++ (if c then [msg] else []).
Proof. unfold flag. destruct c; [reflexivity | simpl; rewrite app_nil_r; reflexivity]. Qed.

Lemma flag_in_step (c : bool) (msg : fstring) (st : bool * list fstring) :
  in_step st -> in_step (flag c msg st).
Proof.
  unfold in_step. rewrite flag_fst, flag_snd. intros H. destruct c; simpl.
  - split; [intros _ | reflexivity]. destruct (snd st); discriminate.
  - rewrite app_nil_r. exact H.
Qed.

(** The three ways [analyze_performance] returns. *)
Lemma analyze_performance_cases (a : PerformanceAnalyzer) (s : PerformanceSummary) :
  analyze_performance a = Ok s ->
  (results a = [] /\
   s = {| status := "ERROR"; avg_execution_time := 0; summary_memory_usage := 0;
          regression_detected := false; failed_benchmarks := 0;
          total_benchmarks := 0;
          recommendations := [[Lit "No benchmark results found"]] |}) \/
  (results a <> [] /\ List.filter succeeded (results a) = [] /\
   s = {| status := "FAILED"; avg_execution_time := 0; summary_memory_usage := 0;
          regression_detected := true;
          failed_benchmarks := length (List.filter failed (results a));
          total_benchmarks := length (results a);
          recommendations := [[Lit "All benchmarks failed"]] |}) \/
  (List.filter succeeded (results a) <> [] /\
   exists avg mem st,
     mean (map execution_time (List.filter succeeded (results a))) = Ok avg /\
     mean (map memory_usage (List.filter succeeded (results a))) = Ok mem /\
     in_step st /\
     (Qltb (execution_time_ms (thresholds a)) avg = true -> fst st = true) /\
     (Qltb (memory_usage_mb (thresholds a)) (mem / (1024 * 1024)) = true ->
      fst st = true) /\
     ((max_failed_benchmarks (thresholds a)
       <? Z.of_nat (length (List.filter failed (results a))))%Z = true ->
      fst st = true) /\
     s = {| status := if fst st then "REGRESSION"
                      else if (0 <? length (List.filter failed (results a)))%nat
                           then "PARTIAL" else "PASS";
            avg_execution_time := avg;
            summary_memory_usage := mem / (1024 * 1024);
            regression_detected := fst st;
            failed_benchmarks := length (List.filter failed (results a));
            total_benchmarks := length (results a);
            recommendations := snd st |}).
Proof.
  unfold analyze_performance. fold failed.
  destruct (is_nil (results a)) eqn:Hnil.
  { intros H. left. apply is_nil_true in Hnil. inversion H. auto. }
  destruct (is_nil (List.filter succeeded (results a))) eqn:Hsucc.
  { intros H. right. left. apply is_nil_true in Hsucc. inversion H.
    repeat split; auto. intros E. rewrite E in Hnil. discriminate Hnil. }
  intros H. right. right.
  split; [intros E; rewrite E in Hsucc; discriminate Hsucc|].
  apply bind_ok in H as (avg & Havg & H).
  apply bind_ok in H as (mem & Hmem & H).
  apply bind_ok in H as (st & Hst & H).
  exists avg, mem, st. split; [exact Havg|]. split; [exact Hmem|].
  inversion H. clear H.
  match type of Hst with
  | context [flag ?c3 ?m3 (flag ?c2 ?m2 (flag ?c1 ?m1 (false, [])))] =>
      set (st3 := flag c3 m3 (flag c2 m2 (flag c1 m1 (false, [])))) in *;
      assert (H3 : in_step st3 /\ (c1 = true -> fst st3 = true) /\
                   (c2 = true -> fst st3 = true) /\ (c3 = true -> fst st3 = true))
  end.
  { split.
    - unfold st3. do 3 apply flag_in_step. split; [discriminate | intros E; contradiction].
    - unfold st3. rewrite !flag_fst. repeat split; intros ->;
        rewrite ?orb_true_r; reflexivity. }
  assert (Hfrom : st = st3 \/ exists c4 m4, st = flag c4 m4 st3).
  { destruct (is_nil (baseline_results a)); [inversion Hst; auto|].
    destruct (is_nil (List.filter succeeded (baseline_results a)));
      [inversion Hst; auto|].
    apply bind_ok in Hst as (bavg & _ & Hst).
    apply bind_ok in Hst as (ratio & _ & Hst).
    inversion Hst. right. eauto. }
  destruct H3 as (I3 & A1 & A2 & A3).
  destruct Hfrom as [-> | (c4 & m4 & ->)].
  - repeat split; auto; apply I3.
  - pose proof (flag_in_step c4 m4 st3 I3) as I4.
    rewrite flag_fst.
    repeat split; auto; try apply I4;
      intros E; rewrite ?A1, ?A2, ?A3 by exact E; apply orb_true_r.
Qed.

(** X12: Recommendations and the regression flag go together: a summary carries
    no recommendation exactly when its status is [PASS] or [PARTIAL], and
    has [regression_detected] set exactly when its status is [REGRESSION]
    or [FAILED]; an [ERROR] summary carries one recommendation and no
    regression. *)
Theorem recommendations_follow_status (a : PerformanceAnalyzer)
    (s : PerformanceSummary) :
  analyze_performance a = Ok s ->
  (recommendations s = [] <-> status s = "PASS" \/ status s = "PARTIAL") /\
  (regression_detected s = true <-> status s = "REGRESSION" \/ status s = "FAILED") /\
  (status s = "ERROR" -> regression_detected s = false /\ length (recommendations s) = 1%nat).
Proof.
  intros H.
  destruct (analyze_performance_cases a s H)
    as [(_ & ->) | [(_ & _ & ->) | (_ & avg & mem & st & _ & _ & I & _ & _ & _ & ->)]];
    cbn [status recommendations regression_detected].
  - split; [split; [discriminate | intros [E|E]; discriminate E]|].
    split; [split; [discriminate | intros [E|E]; discriminate E]|]. auto.
  - split; [split; [discriminate | intros [E|E]; discriminate E]|].
    split; [split; auto|]. discriminate.
  - unfold in_step in I. destruct (fst st) eqn:Hf.
    + split; [split; [intros E; apply I in E; [contradiction | reflexivity]
                     | intros [E|E]; discriminate E]|].
      split; [split; auto|]. discriminate.
    + assert (Hnil : snd st = []).
      { destruct (snd st) eqn:E; [reflexivity|].
        assert (false = true) by (apply I; discriminate). discriminate. }
      split; [split; [intros _ | intros _; exact Hnil]|].
      { destruct (0 <? length (List.filter failed (results a)))%nat; auto. }
      split; [split; [discriminate|]|].
      { destruct (0 <? length (List.filter failed (results a)))%nat;
          intros [E|E]; discriminate E. }
      destruct (0 <? length (List.filter failed (results a)))%nat; discriminate.
Qed.

Lemma recommendations_follow_status_witness :
  (recommendations AnalysisCases.strict_summary = [] <->
   status AnalysisCases.strict_summary = "PASS" \/
   status AnalysisCases.strict_summary = "PARTIAL") /\
  (regression_detected AnalysisCases.strict_summary = true <->
   status AnalysisCases.strict_summary = "REGRESSION" \/
   status AnalysisCases.strict_summary = "FAILED") /\
  (status AnalysisCases.strict_summary = "ERROR" ->
   regression_detected AnalysisCases.strict_summary = false /\
   length (recommendations AnalysisCases.strict_summary) = 1%nat).
Proof.
  apply (recommendations_follow_status AnalysisCases.strict).
  vm_compute. reflexivity.
Defined.

(** X13: The counts of a summary and its status: the total is the number of
    records loaded, the failed count the number of records without a truthy
    success; all records failed exactly under [ERROR] (none loaded) and
    [FAILED]; [PASS] means no failure among at least one record, [PARTIAL]
    some failure and some success. *)
Theorem counts_follow_status (a : PerformanceAnalyzer) (s : PerformanceSummary) :
  analyze_performance a = Ok s ->
  total_benchmarks s = length (results a) /\
  failed_benchmarks s = length (List.filter failed (results a)) /\
  (failed_benchmarks s <= total_benchmarks s)%nat /\
  (failed_benchmarks s = total_benchmarks s <->
   status s = "ERROR" \/ status s = "FAILED") /\
  (status s = "PASS" -> failed_benchmarks s = 0%nat /\ (0 < total_benchmarks s)%nat) /\
  (status s = "PARTIAL" ->
   (0 < failed_benchmarks s)%nat /\ (failed_benchmarks s < total_benchmarks s)%nat).
Proof.
  intros H.
  pose proof (filter_length succeeded (results a)) as Hlen. fold failed in Hlen.
  destruct (analyze_performance_cases a s H)
    as [(Hr & ->) | [(Hne & Hs & ->) | (Hs & avg & mem & st & _ & _ & _ & _ & _ & _ & ->)]];
    cbn [status failed_benchmarks total_benchmarks].
  - rewrite Hr. simpl. repeat split; auto; try discriminate; try lia.
  - rewrite Hs in Hlen. simpl in Hlen.
    repeat split; auto; try discriminate; try lia.
  - assert (0 < length (List.filter succeeded (results a)))%nat
      by (destruct (List.filter succeeded (results a)); [contradiction | simpl; lia]).
    split; [reflexivity|]. split; [reflexivity|]. split; [lia|].
    destruct (fst st);
      [|destruct (0 <? length (List.filter failed (results a)))%nat eqn:E;
        [apply Nat.ltb_lt in E | apply Nat.ltb_ge in E]].
    all: repeat split; try discriminate; try lia;
      try (intros [E'|E']; discriminate E').
Qed.

Lemma counts_follow_status_witness :
  total_benchmarks AnalysisCases.mixed_summary = length (results AnalysisCases.mixed) /\
  failed_benchmarks AnalysisCases.mixed_summary =
    length (List.filter failed (results AnalysisCases.mixed)) /\
  (failed_benchmarks AnalysisCases.mixed_summary
   <= total_benchmarks AnalysisCases.mixed_summary)%nat /\
  (failed_benchmarks AnalysisCases.mixed_summary =
   total_benchmarks AnalysisCases.mixed_summary <->
   status AnalysisCases.mixed_summary = "ERROR" \/
   status AnalysisCases.mixed_summary = "FAILED") /\
  (status AnalysisCases.mixed_summary = "PASS" ->
   failed_benchmarks AnalysisCases.mixed_summary = 0%nat /\
   (0 < total_benchmarks AnalysisCases.mixed_summary)%nat) /\
  (status AnalysisCases.mixed_summary = "PARTIAL" ->
   (0 < failed_benchmarks AnalysisCases.mixed_summary)%nat /\
   (failed_benchmarks AnalysisCases.mixed_summary
    < total_benchmarks AnalysisCases.mixed_summary)%nat).
Proof.
  apply (counts_follow_status AnalysisCases.mixed).
  vm_compute. reflexivity.
Defined.

Example mixed_and_strict :
  status AnalysisCases.mixed_summary = "PARTIAL" /\
  status AnalysisCases.strict_summary = "REGRESSION" /\
  failed_benchmarks AnalysisCases.mixed_summary = 1%nat /\
  total_benchmarks AnalysisCases.mixed_summary = 3%nat.
Proof. repeat split; reflexivity. Qed.

End SummaryShape.

(** ** When the analysis returns *)

Section AnalysisDomain.
Import Py Py.Notations Common Props Analysis AnalysisBehaviour Samples.









End AnalysisDomain.

(** ** Loading the records *)

Section Loading.
Import Py Py.Notations Py.IONotations Common Props Analysis AnalysisMain
  AnalysisBehaviour LoadBehaviour Samples.

Lemma load_item_cases (item : value) :
  (malformed item = true /\ load_item item = Raise AttributeError) \/
  (malformed item = false /\ load_item item = Ok (record_of item) /\
   (loadable item = true <-> exists r, record_of item = Some r)).
Proof.
  unfold record_of.
  destruct item as [|b|q|s|l|d]; simpl;
    try (right; repeat split; [discriminate | intros (r & H); discriminate H]).
  destruct (d !! "metrics") as [m|] eqn:Hm.
  - destruct m as [|b|q|s|l|dm]; simpl; auto.
    right. repeat split; eauto.
  - right. repeat split; [discriminate | intros (r & H); discriminate H].
Qed.

(** The loop over the items of a file. *)
Lemma load_items_spec (data : list value) (acc : list BenchmarkResult) :
  load_items data acc =
    (acc ++ loaded_from data,
     if existsb malformed data then Raise AttributeError else Ok tt).
Proof.
  revert acc. unfold loaded_from.
  induction data as [|item data IH]; intros acc.
  - simpl. rewrite app_nil_r. reflexivity.
  - cbn [load_items existsb before_malformed].
    destruct (load_item_cases item) as [(Hm & ->) | (Hm & -> & _)]; rewrite Hm.
    + simpl. rewrite app_nil_r. reflexivity.
    + cbn [orb flat_map]. destruct (record_of item) as [r|]; rewrite IH; simpl.
      * rewrite <- app_assoc. reflexivity.
      * reflexivity.
Qed.

Lemma loaded_from_length (data : list value) :
  length (loaded_from data) = length (List.filter loadable (before_malformed data)).
Proof.
  unfold loaded_from. induction data as [|item data IH]; [reflexivity|].
  cbn [before_malformed].
  destruct (load_item_cases item) as [(Hm & _) | (Hm & _ & Hl)]; rewrite Hm;
    [reflexivity|].
  cbn [flat_map List.filter]. rewrite length_app, IH.
  destruct (loadable item).
  - destruct (proj1 Hl eq_refl) as (r & ->). reflexivity.
  - destruct (record_of item) as [r|] eqn:Hr; [|reflexivity].
    assert (false = true) by (apply Hl; eauto). discriminate.
Qed.

Lemma _load_json_file_spec (self : PerformanceAnalyzer) (json_file : string) (f : file) :
  snd (_load_json_file self json_file f) =
    Ok (with_results self (results self ++ loaded_from_file f)).
Proof.
  unfold with_results.
  destruct f as [|msg|v]; simpl; rewrite ?app_nil_r; try (destruct self; reflexivity).
  destruct v; simpl; rewrite ?app_nil_r; try (destruct self; reflexivity).
  rewrite load_items_spec. destruct (existsb malformed l); reflexivity.
Qed.

Lemma _load_baseline_file_spec (self : PerformanceAnalyzer) (baseline_file : string)
    (f : file) :
  snd (_load_baseline_file self baseline_file f) =
    Ok (with_baseline self (baseline_results self ++ loaded_from_file f)).
Proof.
  unfold with_baseline.
  destruct f as [|msg|v]; simpl; rewrite ?app_nil_r; try (destruct self; reflexivity).
  destruct v; simpl; rewrite ?app_nil_r; try (destruct self; reflexivity).
  rewrite load_items_spec. destruct (existsb malformed l); reflexivity.
Qed.

(** X15: Loading a file is partial: the records of the items before the first
    one whose ["metrics"] is no mapping are appended to the results, one
    for each item with a ["metrics"] key; that item and everything after
    it is dropped, with one warning.  Without such an item the whole file
    is loaded and nothing is printed.  Thresholds and baseline are left
    alone. *)
Theorem _load_json_file_is_partial (self : PerformanceAnalyzer) (json_file : string)
    (data : list value) :
  _load_json_file self json_file (Contents (VList data)) =
    (if existsb malformed data then [item_warning json_file] else [],
     Ok (with_results self (results self ++ loaded_from data))) /\
  length (loaded_from data) = length (List.filter loadable (before_malformed data)) /\
  (before_malformed data = data <-> existsb malformed data = false).
Proof.
  split; [|split].
  - unfold _load_json_file. rewrite load_items_spec.
    destruct (existsb malformed data); reflexivity.
  - apply loaded_from_length.
  - induction data as [|item data IH]; [split; reflexivity|].
    simpl. destruct (malformed item); simpl.
    + split; discriminate.
    + rewrite <- IH. split; intros H; [inversion H; congruence | rewrite H; reflexivity].
Qed.

Lemma load_current_files_spec (files : list entry) (self : PerformanceAnalyzer) :
  snd (load_current_files self files) =
    Ok (with_results self
          (results self
           ++ flat_map (fun e => loaded_from_file (e_file e))
                (List.filter (fun e => negb (contains "baseline" (e_name e))) files))).
Proof.
  revert self. induction files as [|e files IH]; intros self.
  - simpl. rewrite app_nil_r. destruct self; reflexivity.
  - cbn [load_current_files List.filter].
    destruct (negb (contains "baseline" (e_name e))); [|apply IH].
    pose proof (_load_json_file_spec self (e_path e) (e_file e)) as H.
    destruct (_load_json_file self (e_path e) (e_file e)) as [out r].
    simpl in H. subst r. cbn [io_bind].
    specialize (IH (with_results self (results self ++ loaded_from_file (e_file e)))).
    destruct (load_current_files _ files) as [out' r'].
    simpl in IH. subst r'. cbn [snd flat_map with_results results thresholds
                                  baseline_results].
    rewrite <- app_assoc. reflexivity.
Qed.

(** The files passed over do not show in a run. *)
Lemma load_current_files_skips (files : list entry) (self : PerformanceAnalyzer) :
  load_current_files self
    (List.filter (fun e => negb (contains "baseline" (e_name e))) files) =
  load_current_files self files.
Proof.
  revert self. induction files as [|e files IH]; intros self; [reflexivity|].
  cbn [List.filter load_current_files].
  destruct (negb (contains "baseline" (e_name e))) eqn:E; [|apply IH].
  cbn [load_current_files]. rewrite E.
  destruct (_load_json_file self (e_path e) (e_file e)) as [out [self'|ex]];
    cbn [io_bind]; [rewrite IH|]; reflexivity.
Qed.

(** [load_results] on a directory that exists. *)
Lemma load_results_some (self : PerformanceAnalyzer) (input_dir : string)
    (d : directory) :
  snd (load_results self input_dir (Some d)) = inl (after_loading self d).
Proof.
  unfold load_results, after_loading, current_entries.
  pose proof (load_current_files_spec (json_files d) self) as H.
  destruct (load_current_files self (json_files d)) as [out r].
  simpl in H. subst r.
  destruct (baseline_json d) as [[baseline_file f]|].
  - pose proof (_load_baseline_file_spec
                  (with_results self
                     (results self
                      ++ flat_map (fun e => loaded_from_file (e_file e))
                           (List.filter
                              (fun e => negb (contains "baseline" (e_name e)))
                              (json_files d))))
                  baseline_file f) as H.
    destruct (_load_baseline_file _ baseline_file f) as [out' r'].
    simpl in H. subst r'. reflexivity.
  - simpl. rewrite app_nil_r. reflexivity.
Qed.

(** X16: [load_results] fails only for an input directory that does not exist.
    Otherwise the results are, in the order of the files, the records of
    the files whose name does not contain "baseline", and the baseline
    records are those of [baseline.json] in the directory itself; a
    missing, unreadable or malformed file only costs its own records.  A
    file named after a baseline never counts as a current result: the run
    is the same, line for line, as in a directory without such files. *)
Theorem load_results_reads_every_file (self : PerformanceAnalyzer) (input_dir : string)
    (dir : option directory) :
  match dir with
  | None => load_results self input_dir dir = ([], inr (NoInputDir input_dir))
  | Some d =>
      snd (load_results self input_dir dir) = inl (after_loading self d) /\
      load_results self input_dir (Some (with_files d (current_entries d))) =
        load_results self input_dir dir /\
      (length (results (after_loading self d))
       + length (flat_map (fun e => loaded_from_file (e_file e))
                   (List.filter (fun e => contains "baseline" (e_name e))
                      (json_files d))))%nat =
        (length (results self)
         + length (flat_map (fun e => loaded_from_file (e_file e)) (json_files d)))%nat
  end.
Proof.
  destruct dir as [d|]; [|reflexivity].
  split; [apply load_results_some|]. split.
  - unfold load_results, current_entries, with_files.
    cbn [json_files baseline_json]. rewrite load_current_files_skips. reflexivity.
  - unfold after_loading, current_entries. cbn [results].
    rewrite length_app.
    induction (json_files d) as [|e l IH]; [simpl; lia|].
    cbn [flat_map List.filter]. destruct (contains "baseline" (e_name e));
      cbn [negb flat_map]; rewrite !length_app; lia.
Qed.

End Loading.

(** ** The baseline and the tolerance for failures *)

Section AnalysisTolerance.
Import Py Py.Notations Common Props Analysis AnalysisBehaviour AnalysisCases.

(** X17: A baseline in which no record succeeded is passed over in silence:
    the analysis is the one without any baseline, whatever the threshold
    of the comparison. *)
Theorem unsuccessful_baseline_is_ignored (a a' : PerformanceAnalyzer) :
  same_without_baseline a a' ->
  analyze_performance a = analyze_performance a'.
Proof.
  intros (Hr & Ht & Hm & Hf & Hb & Hb').
  unfold analyze_performance. rewrite Hr, Ht, Hm, Hf, Hb, Hb'.
  destruct (is_nil (baseline_results a)), (is_nil (baseline_results a'));
    reflexivity.
Qed.

Lemma unsuccessful_baseline_witness :
  analyze_performance mixed_with_failed_baseline = analyze_performance mixed.
Proof.
  apply (unsuccessful_baseline_is_ignored mixed_with_failed_baseline mixed).
  repeat split; reflexivity.
Defined.


Lemma all_failed_count (rs : list BenchmarkResult) :
  List.filter succeeded rs = [] -> length (List.filter failed rs) = length rs.
Proof.
  induction rs as [|r rs IH]; [reflexivity|]. cbn [List.filter]. unfold failed at 1.
  destruct (succeeded r); [discriminate|]. intros H. cbn [negb length].
  rewrite (IH H). reflexivity.
Qed.

(** X18: [PARTIAL] needs a tolerance: a summary has this status only when some
    record failed and the failures are within [max_failed_benchmarks],
    which is then positive.  With the default of 0, every failure beside
    a success is a [REGRESSION]. *)
Theorem partial_needs_tolerance (a : PerformanceAnalyzer) (s : PerformanceSummary) :
  analyze_performance a = Ok s ->
  (status s = "PARTIAL" ->
   (0 < Z.of_nat (failed_benchmarks s) <= max_failed_benchmarks (thresholds a))%Z /\
   regression_detected s = false) /\
  ((max_failed_benchmarks (thresholds a) <= 0)%Z ->
   (0 < failed_benchmarks s < total_benchmarks s)%nat ->
   status s = "REGRESSION" /\ regression_detected s = true).
Proof.
  intros Ha.
  destruct (analyze_performance_cases a s Ha)
    as [(_ & ->) | [(_ & Hnone & ->) | (_ & avg & mem & st & _ & _ & _ & _ & _ & A3 & ->)]];
    cbn [regression_detected status failed_benchmarks total_benchmarks].
  - split; [discriminate | lia].
  - split; [discriminate|]. rewrite (all_failed_count _ Hnone). lia.
  - split.
    + destruct (fst st) eqn:Hst; [discriminate|].
      destruct (length (List.filter failed (results a))) as [|n] eqn:Hn;
        cbn [Nat.ltb Nat.leb]; [discriminate|].
      intros _. split; [|reflexivity]. split; [lia|].
      destruct (max_failed_benchmarks (thresholds a) <? Z.of_nat (S n))%Z eqn:Hlt.
      * discriminate (A3 eq_refl).
      * apply Z.ltb_ge in Hlt. exact Hlt.
    + intros Hmax [Hpos _].
      assert (Hlt : (max_failed_benchmarks (thresholds a)
                     <? Z.of_nat (length (List.filter failed (results a))))%Z = true)
        by (apply Z.ltb_lt; lia).
      rewrite (A3 Hlt). split; reflexivity.
Qed.

Lemma partial_needs_tolerance_witness :
  (status mixed_summary = "PARTIAL" ->
   (0 < Z.of_nat (failed_benchmarks mixed_summary)
    <= max_failed_benchmarks (thresholds mixed))%Z /\
   regression_detected mixed_summary = false) /\
  ((max_failed_benchmarks (thresholds mixed) <= 0)%Z ->
   (0 < failed_benchmarks mixed_summary < total_benchmarks mixed_summary)%nat ->
   status mixed_summary = "REGRESSION" /\ regression_detected mixed_summary = true).
Proof.
  apply (partial_needs_tolerance mixed mixed_summary). vm_compute. reflexivity.
Defined.

End AnalysisTolerance.

(** ** A run of the analysis, and what it hands on *)

Section AnalysisRun.
Import Py Py.Notations Py.IONotations Common Props Analysis AnalysisMain
  AnalysisBehaviour LoadBehaviour GateBehaviour AnalysisCases.

Variable fixed : nat -> Q -> string.
Variable percent : nat -> Q -> string.
Variable str_float : Q -> string.
Variable str_int : Z -> string.
Variable str_value : value -> string.
Variable str_exn : exn -> string.
Variable now : string.





Lemma summary_data_fields (s : PerformanceSummary) :
  dict_get (summary_data fixed percent str_float str_int str_value str_exn now s) "avg_execution_time" (VNum 0)
    = VNum (avg_execution_time s) /\
  dict_get (summary_data fixed percent str_float str_int str_value str_exn now s) "memory_usage" (VNum 0) = VNum (summary_memory_usage s) /\
  dict_get (summary_data fixed percent str_float str_int str_value str_exn now s) "failed_benchmarks" (VNum 0)
    = VNum (of_nat (failed_benchmarks s)) /\
  dict_get (summary_data fixed percent str_float str_int str_value str_exn now s) "total_benchmarks" (VNum 0)
    = VNum (of_nat (total_benchmarks s)) /\
  dict_get (summary_data fixed percent str_float str_int str_value str_exn now s) "total_benchmarks" (VNum 1)
    = VNum (of_nat (total_benchmarks s)) /\
  dict_get (summary_data fixed percent str_float str_int str_value str_exn now s) "regression_detected" (VBool false)
    = VBool (regression_detected s) /\
  dict_get (summary_data fixed percent str_float str_int str_value str_exn now s) "successful_benchmarks" (VNum 0) = VNum 0.
Proof. repeat split; vm_compute; reflexivity. Qed.




(** X21: The summary file as current data of the regression check: the
    document [save_summary] writes has no ["successful_benchmarks"] entry,
    so [detect_regression] counts 0 successful benchmarks in it and, for
    every [min_benchmarks] above 0, reports insufficient data whatever the
    summary says. *)
Theorem summary_counts_as_insufficient (th : Regression.RegressionThresholds)
    (b : value) (mb : metrics) (s : PerformanceSummary) :
  Regression.extract_metrics b = Ok mb ->
  (0 < Regression.min_benchmarks th)%Z ->
  Regression.detect_regression th b
    (VDict (summary_data fixed percent str_float str_int str_value str_exn now s)) =
    Ok {| Regression.has_regression := true;
          Regression.execution_time_regression := false;
          Regression.memory_regression := false;
          Regression.failure_rate_regression := false;
          Regression.execution_time_change := 0;
          Regression.memory_change := 0;
          Regression.failure_rate_change := 0;
          Regression.recommendations :=
            [rec_insufficient (VNum 0) (Regression.min_benchmarks th)] |}.
Proof.
  intros Hb Hmin.
  destruct (summary_data_fields s) as (Ft & Fm & Ff & Fn & Fn1 & _ & Fs).
  unfold Regression.detect_regression. rewrite Hb. cbn [bind].
  unfold Regression.extract_metrics. rewrite Ft, Fm, Ff, Fn, Fn1, Fs.
  unfold max_1, num. cbn [as_num bind].
  rewrite div_ok.
  2: { destruct (Qltb (of_nat (total_benchmarks s)) 1) eqn:Hlt; [lra|].
       apply Qltb_ge in Hlt. lra. }
  cbn [bind]. destruct mb as [[[[bt bu] bf] bs] bn].
  cbn [as_num bind].
  assert (Hlt : Qltb 0 (inject_Z (Regression.min_benchmarks th)) = true).
  { apply Qltb_lt. change 0 with (inject_Z 0). rewrite <- Zlt_Qlt. exact Hmin. }
  rewrite Hlt. reflexivity.
Qed.

End AnalysisRun.

Section AnalysisRunExamples.
Import Py Py.Notations Common Props Analysis AnalysisMain AnalysisCases PipelineCases
  Samples.


Lemma summary_counts_as_insufficient_witness :
  Regression.detect_regression Regression.default_thresholds (five_runs 100 1048576)
    (VDict (document strict_summary)) =
    Ok {| Regression.has_regression := true;
          Regression.execution_time_regression := false;
          Regression.memory_regression := false;
          Regression.failure_rate_regression := false;
          Regression.execution_time_change := 0;
          Regression.memory_change := 0;
          Regression.failure_rate_change := 0;
          Regression.recommendations :=
            [rec_insufficient (VNum 0)
               (Regression.min_benchmarks Regression.default_thresholds)] |}.
Proof.
  apply (summary_counts_as_insufficient blank_number blank_number blank blank blank
           blank "2024-01-01T00:00:00" Regression.default_thresholds
           (five_runs 100 1048576) five_runs_metrics strict_summary).
  - vm_compute. reflexivity.
  - simpl. lia.
Defined.

End AnalysisRunExamples.

(** ** The gate's command line: the threshold *)

Section GateThreshold.
Import Py Py.Notations Py.IONotations Common Props Gate GateMain GateBehaviour.

Variable join : string -> string -> string.
Variable chars : string -> list string.
Variable keys : gmap string value -> list string.
Variable fs : string -> file.

(** X22: The gate takes a [--threshold] and stores it, and never reads it: a
    run with any other threshold prints the same lines and ends with the
    same status. *)
Theorem gate_threshold_is_unused (args : Args) (threshold : Q) :
  main join chars keys fs
    {| arg_input_dir := arg_input_dir args;
       arg_threshold := threshold;
       arg_max_execution_time := arg_max_execution_time args;
       arg_max_memory_usage := arg_max_memory_usage args;
       arg_max_failure_rate := arg_max_failure_rate args |} =
  main join chars keys fs args.
Proof.
  unfold main, gate_of. cbn [arg_input_dir arg_threshold arg_max_execution_time
                              arg_max_memory_usage arg_max_failure_rate].
  destruct (load_summary join fs (arg_input_dir args)) as [out [summary|e]];
    [|reflexivity].
  cbn [io_bind]. destruct (is_None summary); [reflexivity|].
  unfold check_gate. cbn [max_execution_time_ms max_memory_usage_mb max_failure_rate].
  reflexivity.
Qed.

End GateThreshold.

(** ** A run of the comparison *)

Section ComparisonRun.
Import Py Py.Notations Py.IONotations Common Props Behaviour Comparison ComparisonMain
  ComparisonBehaviour Samples PipelineCases.

Lemma loaded_contents (f : file) (v : value) :
  loaded f = Some v -> f = Contents v /\ is_None v = false.
Proof.
  destruct f as [|msg|v']; try discriminate.
  destruct v'; simpl; intros H; inversion H; split; reflexivity.
Qed.

Lemma main_not_loaded (args : Args) (fs : string -> file) (w : world) :
  loaded (fs (arg_baseline args)) = None \/ loaded (fs (arg_current args)) = None ->
  snd (main args fs w) = inl 1%Z.
Proof.
  intros Hn. unfold main, load_baseline, load_current.
  destruct (fs (arg_baseline args)) as [|mb|b], (fs (arg_current args)) as [|mc|c];
    try destruct b; try destruct c;
    try (destruct Hn as [Hn|Hn]; discriminate Hn); reflexivity.
Qed.

(** [main] once both documents are loaded. *)
Lemma main_loaded (args : Args) (fs : string -> file) (w : world) (b c : value) :
  loaded (fs (arg_baseline args)) = Some b ->
  loaded (fs (arg_current args)) = Some c ->
  match compare_performance (thresholds_of args) b c with
  | Raise e => main args fs w = ([], inr (Python e))
  | Ok r =>
      match generate_comparison_report w r with
      | inr f => main args fs w = ([], inr f)
      | inl _ => snd (main args fs w) = inl (if has_regression r then 1%Z else 0%Z)
      end
  end.
Proof.
  intros Lb Lc.
  apply loaded_contents in Lb as (Fb & Nb). apply loaded_contents in Lc as (Fc & Nc).
  unfold main, load_baseline, load_current, thresholds_of. rewrite Fb, Fc.
  unfold io_ret, of_io, lift. cbn [run_bind map app]. rewrite Nb, Nc. cbn [orb].
  destruct (compare_performance _ b c) as [r|e]; [|reflexivity].
  cbn [run_bind map app]. unfold step.
  destruct (generate_comparison_report w r) as [[]|f]; [|reflexivity].
  destruct (is_nil (recommendations r)), (has_regression r); reflexivity.
Qed.

(** What [compare_performance] puts into its result. *)
Lemma compare_performance_detailed (th : ComparisonThresholds) (b c : value)
    (r : ComparisonResult) :
  compare_performance th b c = Ok r ->
  exists mb mc,
    extract_metrics b = Ok mb /\ extract_metrics c = Ok mc /\
    match detailed_comparison r with
    | None => has_regression r = true
    | Some d => d_baseline d = mb /\ d_current d = mc
    end.
Proof.
  unfold compare_performance.
  destruct (extract_metrics b) as [mb|e]; [|discriminate].
  destruct (extract_metrics c) as [mc|e]; [|discriminate]. cbn [bind].
  destruct mb as [[[[bt bm] bf] bs] bn], mc as [[[[ct cm] cf] cs] cn].
  destruct (num cs) as [s|e]; [|discriminate]. cbn [bind].
  destruct (Qltb s (inject_Z (min_benchmarks th))).
  - intros H. inversion H. eexists _, _. simpl. auto.
  - destruct (percent_change bt ct) as [tc|e]; [|discriminate]. cbn [bind].
    destruct (percent_change bm cm) as [uc|e]; [|discriminate]. cbn [bind].
    destruct (num cf) as [cr|e]; [|discriminate]. cbn [bind].
    destruct (num bf) as [br|e]; [|discriminate]. cbn [bind].
    intros H. inversion H. eexists _, _. simpl. auto.
Qed.

(** The report can be written out when the six values it formats are
    numbers, and only then. *)
Lemma report_text_returns (r : ComparisonResult) (d : Detailed) :
  (exists report, report_text r d = Ok report) <->
  printable (d_baseline d) = true /\ printable (d_current d) = true.
Proof.
  unfold report_text, printable, numeric.
  destruct (d_baseline d) as [[[[bt bm] bf] bs] bn].
  destruct (d_current d) as [[[[ct cm] cf] cs] cn].
  cbn [m_time m_memory m_failure_rate].
  destruct (format_float_cases bt) as [(q1 & A1 & F1) | (A1 & e1 & F1 & _)];
    rewrite F1, A1; cbn [bind andb];
    [| split; [intros (rep & H); discriminate H | intros [H _]; discriminate H]].
  destruct (format_float_cases ct) as [(q2 & A2 & F2) | (A2 & e2 & F2 & _)];
    rewrite F2, A2; cbn [bind andb];
    [| split; [intros (rep & H); discriminate H | intros [_ H]; discriminate H]].
  destruct (format_float_cases bm) as [(q3 & A3 & F3) | (A3 & e3 & F3 & _)];
    rewrite F3, A3; cbn [bind andb];
    [| split; [intros (rep & H); discriminate H | intros [H _]; discriminate H]].
  destruct (format_float_cases cm) as [(q4 & A4 & F4) | (A4 & e4 & F4 & _)];
    rewrite F4, A4; cbn [bind andb];
    [| split; [intros (rep & H); discriminate H | intros [_ H]; discriminate H]].
  destruct (format_float_cases bf) as [(q5 & A5 & F5) | (A5 & e5 & F5 & _)];
    rewrite F5, A5; cbn [bind andb];
    [| split; [intros (rep & H); discriminate H | intros [H _]; discriminate H]].
  destruct (format_float_cases cf) as [(q6 & A6 & F6) | (A6 & e6 & F6 & _)];
    rewrite F6, A6; cbn [bind andb];
    [| split; [intros (rep & H); discriminate H | intros [_ H]; discriminate H]].
  split; eauto.
Qed.

Ltac stops :=
  split;
  [ discriminate
  | let d' := fresh "d" in
    let Hd := fresh "Hd" in
    intros (d' & ? & Hd & ? & ? & ? & ? & ? & ?);
    try discriminate Hd; inversion Hd; subst d'; congruence ].

(** The report is made when every value looked up is there, every format
    goes through and every step outside the script does. *)
Lemma generate_comparison_report_returns (w : world) (r : ComparisonResult) :
  generate_comparison_report w r = inl tt <->
  exists d report,
    detailed_comparison r = Some d /\ report_text r d = Ok report /\
    report_written w r d report.
Proof.
  unfold generate_comparison_report, _create_comparison_charts,
    _generate_summary_report, external, report_written.
  destruct (detailed_comparison r) as [d|] eqn:Ed.
  - destruct (mkdir w) eqn:E1; [stops|].
    destruct (dump w (Some d)) eqn:E2; [stops|].
    destruct (subplots w) eqn:E3; [stops|].
    destruct (draw w d) eqn:E4; [stops|].
    destruct (report_text r d) as [report|e] eqn:E5; [|stops].
    destruct (write_report w _) eqn:E6; [stops|].
    split; [intros _ | reflexivity].
    exists d, report. repeat split; auto.
  - split; [|intros (d & rep & Hd & _); discriminate Hd].
    destruct (mkdir w); [discriminate|].
    destruct (dump w None); [discriminate|].
    destruct (subplots w); discriminate.
Qed.

(** X23: With too few successful benchmarks the comparison never gets to its
    summary: [detailed_comparison] is empty, and once the output directory
    is made and the empty comparison written, the charts look up
    ["baseline"] in it.  Whenever both documents are loaded and extracted
    and the current one has fewer successful benchmarks than
    [--min-benchmarks], [main] prints nothing at all and ends with an
    exception that is none of the script's own, a [KeyError] as soon as the
    steps before the lookup go through. *)
Theorem insufficient_data_breaks_the_report (args : Args) (fs : string -> file)
    (w : world) (b c : value) (mb mc : metrics) :
  loaded (fs (arg_baseline args)) = Some b ->
  loaded (fs (arg_current args)) = Some c ->
  extract_metrics b = Ok mb -> extract_metrics c = Ok mc ->
  insufficient_data (arg_min_benchmarks args) mc ->
  exists f,
    main args fs w = ([], inr f) /\
    exit_of (snd (main args fs w)) = 1%Z /\
    (forall e, f <> Python e) /\
    (mkdir w = None -> dump w None = None -> subplots w = None ->
     f = KeyError "baseline").
Proof.
  intros Lb Lc Hb Hc Hins.
  pose proof (main_loaded args fs w b c Lb Lc) as Hm.
  rewrite (compare_performance_short (thresholds_of args) b c mb mc Hb Hc Hins) in Hm.
  unfold generate_comparison_report, _create_comparison_charts in Hm.
  cbn [detailed_comparison] in Hm.
  destruct (mkdir w) as [msg|].
  { exists (External msg). rewrite Hm. repeat split; discriminate. }
  destruct (dump w None) as [msg|].
  { exists (External msg). rewrite Hm. repeat split; discriminate. }
  destruct (subplots w) as [msg|].
  { exists (External msg). rewrite Hm. repeat split; discriminate. }
  exists (KeyError "baseline"). rewrite Hm. repeat split; discriminate.
Qed.

Lemma insufficient_data_breaks_witness :
  exists f,
    main ComparisonBehaviour.default_args (both_files (five_runs 100 1048576) one_run) obliging
      = ([], inr f) /\
    exit_of (snd (main ComparisonBehaviour.default_args (both_files (five_runs 100 1048576) one_run)
                    obliging)) = 1%Z /\
    (forall e, f <> Python e) /\
    (mkdir obliging = None -> dump obliging None = None -> subplots obliging = None ->
     f = KeyError "baseline").
Proof.
  apply (insufficient_data_breaks_the_report ComparisonBehaviour.default_args
           (both_files (five_runs 100 1048576) one_run) obliging
           (five_runs 100 1048576) one_run five_runs_metrics one_run_metrics).
  - reflexivity.
  - reflexivity.
  - vm_compute. reflexivity.
  - vm_compute. reflexivity.
  - exists 1. split; [reflexivity | reflexivity].
Defined.

(** What a run of [main] that ends with exit status 0 went through. *)
Lemma comparison_passes (args : Args) (fs : string -> file) (w : world) :
  exit_of (snd (main args fs w)) = 0%Z ->
  exists b c r d report,
    loaded (fs (arg_baseline args)) = Some b /\
    loaded (fs (arg_current args)) = Some c /\
    compare_performance (thresholds_of args) b c = Ok r /\
    has_regression r = false /\
    detailed_comparison r = Some d /\
    report_text r d = Ok report /\
    report_written w r d report.
Proof.
  intros Hexit.
  destruct (loaded (fs (arg_baseline args))) as [b|] eqn:Lb.
  2: { rewrite main_not_loaded in Hexit by (left; exact Lb). discriminate Hexit. }
  destruct (loaded (fs (arg_current args))) as [c|] eqn:Lc.
  2: { rewrite main_not_loaded in Hexit by (right; exact Lc). discriminate Hexit. }
  pose proof (main_loaded args fs w b c Lb Lc) as Hm.
  destruct (compare_performance (thresholds_of args) b c) as [r|e] eqn:Hr.
  2: { rewrite Hm in Hexit. discriminate Hexit. }
  destruct (generate_comparison_report w r) as [[]|f] eqn:Hg.
  2: { rewrite Hm in Hexit. discriminate Hexit. }
  rewrite Hm in Hexit. cbn [exit_of] in Hexit.
  destruct (has_regression r) eqn:Hreg; [discriminate Hexit|].
  apply generate_comparison_report_returns in Hg as (d & report & Hd & Ht & Hw).
  exists b, c, r, d, report. repeat split; auto; apply Hw.
Qed.

(** X24: [performance-comparison.py]'s [main] ends with exit status 0 exactly
    when both files hold a document other than [null],
    [compare_performance] returns a result without a regression, the six
    values of the report are numbers so that its text can be made, and the
    directory, the JSON file, the charts and the report can be written.
    Every other run ends with a non-zero status. *)
Theorem comparison_exit_zero_iff (args : Args) (fs : string -> file) (w : world) :
  exit_of (snd (main args fs w)) = 0%Z <->
  exists b c r d report,
    loaded (fs (arg_baseline args)) = Some b /\
    loaded (fs (arg_current args)) = Some c /\
    compare_performance (thresholds_of args) b c = Ok r /\
    has_regression r = false /\
    detailed_comparison r = Some d /\
    report_text r d = Ok report /\
    report_written w r d report.
Proof.
  split; [apply comparison_passes|].
  intros (b & c & r & d & report & Lb & Lc & Hr & Hreg & Hd & Ht & Hw).
  pose proof (main_loaded args fs w b c Lb Lc) as Hm.
  rewrite Hr in Hm.
  assert (Hg : generate_comparison_report w r = inl tt)
    by (apply generate_comparison_report_returns; eauto).
  rewrite Hg in Hm. rewrite Hm, Hreg. reflexivity.
Qed.

Lemma has_regression_as_regression (r : ComparisonResult) :
  Regression.has_regression (as_regression r) = has_regression r.
Proof.
  unfold as_regression.
  destruct (detailed_comparison r) as [d|]; [destruct (d_regressions d) as [[t m] f]|];
    reflexivity.
Qed.

(** X25: The two comparison scripts accept the same runs: when every step
    outside the script goes through, [performance-comparison.py] ends with
    exit status 0 exactly when [check-performance-regression.py] does on
    the same command line and files. *)
Theorem comparison_and_regression_check_agree (args : Args) (fs : string -> file)
    (w : world) :
  all_written w ->
  (exit_of (snd (main args fs w)) = 0%Z <->
   exit_status (snd (Regression.main (regression_args args) fs)) = 0%Z).
Proof.
  intros (W1 & W2 & W3 & W4 & W5). split.
  - intros Hexit.
    apply comparison_passes in Hexit
      as (b & c & r & d & report & Lb & Lc & Hr & Hreg & Hd & Ht & _).
    destruct (compare_performance_detailed _ b c r Hr) as (mb & mc & Hb & Hc & Hdet).
    rewrite Hd in Hdet. destruct Hdet as [Db Dc].
    assert (Hp : printable mb = true /\ printable mc = true).
    { rewrite <- Db, <- Dc. apply (report_text_returns r d). eauto. }
    assert (Hpc : snd (Regression.print_comparison mb mc) = Ok tt)
      by (apply print_comparison_spec; exact Hp).
    rewrite (main_after_loading (regression_args args) fs b c mb mc Lb Lc Hb Hc Hpc).
    rewrite compare_performance_agrees.
    change (as_comparison (Behaviour.thresholds_of (regression_args args)))
      with (thresholds_of args).
    rewrite Hr. cbn [bind]. rewrite has_regression_as_regression, Hreg. reflexivity.
  - intros Hexit.
    apply main_passes in Hexit
      as (b & c & mb & mc & r' & Lb & Lc & Hb & Hc & Hpb & Hpc & Hr' & Hreg').
    rewrite compare_performance_agrees in Hr'.
    change (as_comparison (Behaviour.thresholds_of (regression_args args)))
      with (thresholds_of args) in Hr'.
    apply bind_ok in Hr' as (r & Hr & Hrr). inversion Hrr; subst r'.
    rewrite has_regression_as_regression in Hreg'.
    destruct (compare_performance_detailed _ b c r Hr) as (mb' & mc' & Hb' & Hc' & Hdet).
    change extract_metrics with Regression.extract_metrics in Hb', Hc'.
    rewrite Hb in Hb'. rewrite Hc in Hc'. inversion Hb'; subst mb'.
    inversion Hc'; subst mc'.
    destruct (detailed_comparison r) as [d|] eqn:Hd; [|congruence].
    destruct Hdet as [Db Dc].
    destruct (proj2 (report_text_returns r d)) as (report & Ht).
    { rewrite Db, Dc. auto. }
    pose proof (main_loaded args fs w b c Lb Lc) as Hm.
    rewrite Hr in Hm.
    assert (Hg : generate_comparison_report w r = inl tt).
    { apply generate_comparison_report_returns. exists d, report.
      repeat split; auto. }
    rewrite Hg in Hm. rewrite Hm, Hreg'. reflexivity.
Qed.

Lemma comparison_and_regression_check_witness :
  exit_of (snd (main ComparisonBehaviour.default_args
                  (both_files (five_runs 100 1048576) (five_runs 100 1048576))
                  obliging)) = 0%Z <->
  exit_status (snd (Regression.main (regression_args ComparisonBehaviour.default_args)
                      (both_files (five_runs 100 1048576) (five_runs 100 1048576))))
    = 0%Z.
Proof.
  apply (comparison_and_regression_check_agree ComparisonBehaviour.default_args
           (both_files (five_runs 100 1048576) (five_runs 100 1048576)) obliging).
  repeat split; reflexivity.
Defined.

End ComparisonRun.

(** ** Thresholds of the analysis *)

Section AnalysisThresholds.
Import Py Py.Notations Common Props Analysis AnalysisBehaviour ThresholdBehaviour
  AnalysisCases.





End AnalysisThresholds.
